(** * holepuncher-server: the Linode orchestration engine

    A shallow embedding of the control-plane code of holepuncher-server
    (linode.go, linode_client.go, the paginated envelopes and the protobuf
    facade) together with the properties its design document states.

    Conventions of the embedding:
    - Go's [int] is a 64-bit two's complement integer: values are [Z] and
      the increments of the code go through [wrap64].
    - Every function that talks to the provider, sleeps, logs or writes a
      response is a computation in the monad [M]: it threads the trace of
      events so far and ends in a value, a panic or fuel exhaustion (the
      two [for { ... }] loops of the code have no static bound).
    - The provider is an oracle [Network]: the reply to a call is a function
      of the calls issued before it and of the call itself.
    - A Go [range] loop has one iteration variable per loop or one per
      iteration, depending on the language version ([LoopVar]); the address
      taken with [&instance] is modelled as a cell of an explicit store. *)

From Stdlib Require Import ZArith String Ascii List Lia DecimalString.
From stdpp Require Import gmap strings list fin_maps.

Local Open Scope Z_scope.
Local Open Scope string_scope.
Local Open Scope list_scope.

(** ** Machine integers and formatting *)

Definition wrap64 (z : Z) : Z := (z + 2 ^ 63) mod 2 ^ 64 - 2 ^ 63.

(** [uint64(x)] and [uint32(x)] conversions of an [int]. *)
Definition to_uint64 (z : Z) : Z := z mod 2 ^ 64.
Definition to_uint32 (z : Z) : Z := z mod 2 ^ 32.

(** [strconv.Itoa] and the [%d] verb. *)
Definition Itoa (z : Z) : string := NilZero.string_of_int (Z.to_int z).

(** [len(s) > 0] / [len(s) == 0] on a Go string. *)
Definition nonempty (s : string) : bool := negb (Nat.eqb (String.length s) 0).

(** [strings.HasPrefix(s, prefix)]. *)
Definition HasPrefix (s pre : string) : bool := String.prefix pre s.

(** [strings.Join(elems, sep)]. *)
Definition Join (elems : list string) (sep : string) : string :=
  String.concat sep elems.

(** ** Data model (linode.go) *)

Definition LinodeStatus := string.
Definition LinodeStatusOffline : LinodeStatus := "offline".
Definition LinodeStatusBooting : LinodeStatus := "booting".
Definition LinodeStatusRunning : LinodeStatus := "running".
Definition LinodeStatusShuttingDown : LinodeStatus := "shutting_down".
Definition LinodeStatusRebooting : LinodeStatus := "rebooting".
Definition LinodeStatusProvisioning : LinodeStatus := "provisioning".
Definition LinodeStatusDeleting : LinodeStatus := "deleting".
Definition LinodeStatusMigrating : LinodeStatus := "migrating".
Definition LinodeStatusRestoring : LinodeStatus := "restoring".
Definition LinodeStatusRebuilding : LinodeStatus := "rebuilding".
Definition LinodeStatusCloning : LinodeStatus := "cloning".

Record LinodeSpecs := {
  Disk : Z; Memory : Z; VCPUs : Z; Transfer : Z
}.

Record LinodeInfo := {
  li_ID : Z;
  li_Region : string;
  li_Image : string;
  li_IPv4 : list string;
  li_IPv6 : string;
  li_Label : string;
  li_Group : string;
  li_Type : string;
  li_Status : LinodeStatus;
  li_CreatedAt : string;
  li_Updated : string;
  li_Hypervisor : string;
  li_Specs : LinodeSpecs
}.

Record StackScript := {
  ss_ID : Z;
  ss_Label : string;
  ss_Description : string;
  ss_Images : list string;
  ss_IsPublic : bool
}.

Record ErrorEntry := { Field : string; Reason : string }.

Record LinodeError := {
  Errors : list ErrorEntry;
  isAuthError : bool;
  isPermissionsError : bool
}.

(** Values of the provisioning parameter map ([map[string]interface{}]); a
    nil map is the empty map. *)
Inductive ParamValue :=
| PInt (n : Z)
| PStr (s : string).

Record LinodeAPI := { apiKey : string }.

Record LinodeInstanceBuilder := {
  b_api : LinodeAPI;
  b_Region : string;
  b_Type : string;
  b_Label : string;
  b_Group : string;
  b_RootPass : string;
  b_AuthorizedKeys : list string;
  b_StackscriptID : Z;
  b_StackscriptData : gmap string ParamValue;
  b_BackupID : Z;
  b_Image : string;
  b_BackupsEnabled : bool;
  b_Booted : bool
}.

Record LinodeInstanceRebuilder := {
  r_api : LinodeAPI;
  r_id : Z;
  r_RootPass : string;
  r_AuthorizedKeys : list string;
  r_StackscriptID : Z;
  r_StackscriptData : gmap string ParamValue;
  r_Image : string;
  r_Booted : bool
}.

(** ** Paginated envelopes *)

Record linodeInfoPaginated := {
  ip_Pages : Z; ip_Results : Z; ip_Data : list LinodeInfo; ip_Page : Z
}.

Record stackScriptPaginated := {
  sp_Pages : Z; sp_Results : Z; sp_Data : list StackScript; sp_Page : Z
}.

(** Dynamic values, as held by an [interface{}]. *)
Inductive Dyn :=
| DynNil
| DynDummy
| DynLinodeInfo (i : LinodeInfo)
| DynInfoList (l : list LinodeInfo)
| DynScriptList (l : list StackScript)
| DynInfoPage (p : linodeInfoPaginated)
| DynScriptPage (p : stackScriptPaginated).

(** The [paginatedResult] interface and its implementations. *)
Class paginatedResult (T : Type) := {
  pageNumber : T -> Z;
  pageCount : T -> Z;
  data : T -> Dyn
}.

#[global] Instance linodeInfoPaginated_paginated : paginatedResult linodeInfoPaginated := {
  pageNumber e := ip_Page e;
  pageCount e := ip_Pages e;
  data e := DynInfoList (ip_Data e)
}.

#[global] Instance stackScriptPaginated_paginated : paginatedResult stackScriptPaginated := {
  pageNumber e := sp_Page e;
  pageCount e := sp_Pages e;
  data e := DynScriptList (sp_Data e)
}.

(** The type assertion [x.(paginatedResult)]: the page count and the data of
    [x] when its dynamic type implements the interface. *)
Definition as_paginatedResult (x : Dyn) : option (Z * Dyn) :=
  match x with
  | DynInfoPage p => Some (pageCount p, data p)
  | DynScriptPage p => Some (pageCount p, data p)
  | _ => None
  end.

(** ** Errors *)

Inductive error :=
| ErrNew (msg : string)
| ErrWrap (cause : error) (msg : string)
| ErrLinode (e : LinodeError)
| ErrTransport (cause : string).

(** The [Error] method of [LinodeError]. *)
Fixpoint LinodeError_entries (es : list ErrorEntry) : string :=
  match es with
  | [] => ""
  | e :: rest =>
      (if nonempty (Field e)
       then Reason e +:+ " (field '" +:+ Field e +:+ "')"
       else Reason e)
      +:+ (match rest with [] => "" | _ => ";" end)
      +:+ LinodeError_entries rest
  end.

Definition LinodeError_Error (e : LinodeError) : string :=
  LinodeError_entries (Errors e).

Fixpoint Error (e : error) : string :=
  match e with
  | ErrNew msg => msg
  | ErrWrap cause msg => msg +:+ ": " +:+ Error cause
  | ErrLinode le => LinodeError_Error le
  | ErrTransport cause => cause
  end.

Definition IsAuthError (e : LinodeError) : bool := isAuthError e.
Definition IsPermissionsError (e : LinodeError) : bool := isPermissionsError e.

(** ** Requests, responses and the provider *)

Inductive Body :=
| NoBody
| BuilderBody (b : LinodeInstanceBuilder)
| RebuilderBody (r : LinodeInstanceRebuilder).

(** A prepared [resty.Request]: bearer token of its client, headers, query
    parameters and body. *)
Record Request := {
  rq_token : string;
  rq_headers : gmap string string;
  rq_query : gmap string string;
  rq_body : Body
}.

Definition SetQueryParam (k v : string) (r : Request) : Request :=
  {| rq_token := rq_token r; rq_headers := rq_headers r;
     rq_query := <[k := v]> (rq_query r); rq_body := rq_body r |}.

Definition SetHeader (k v : string) (r : Request) : Request :=
  {| rq_token := rq_token r; rq_headers := <[k := v]> (rq_headers r);
     rq_query := rq_query r; rq_body := rq_body r |}.

Definition SetBody (b : Body) (r : Request) : Request :=
  {| rq_token := rq_token r; rq_headers := rq_headers r;
     rq_query := rq_query r; rq_body := b |}.

(** The error object of a response ([response.Error()]). *)
Inductive ErrObject :=
| EoLinode (e : LinodeError)
| EoOther (text : string).

Record Response := {
  StatusCode : Z;
  RespError : option ErrObject;
  RespResult : Dyn
}.

Inductive Reply :=
| NetFail (cause : string)
| NetResp (r : Response).

Record Call := {
  c_method : string;
  c_endpoint : string;
  c_request : Request
}.

Definition Network := list Call -> Call -> Reply.

(** ** Wire-format responses (protoapi) *)

Record ProtoInstance := {
  pi_Id : Z; pi_Label : string; pi_Group : string; pi_Region : string;
  pi_Plan : string; pi_Image : string; pi_Ipv4 : list string;
  pi_Ipv6 : list string; pi_Status : Z; pi_CreatedAt : string;
  pi_UpdatedAt : string; pi_Hypervisor : string; pi_Disk : Z;
  pi_Memory : Z; pi_Vcpus : Z; pi_Transfer : Z
}.

Record ProtoScript := {
  ps_Id : Z; ps_Label : string; ps_Description : string
}.

Inductive ProtoError :=
| ProtoDetails (entries : list ErrorEntry)
| ProtoMessage (msg : string).

Inductive ProtoResponse :=
| CreateTunnelOK (x : ProtoInstance)
| CreateTunnelErr (e : ProtoError)
| DestroyTunnelOK
| DestroyTunnelErr (e : ProtoError)
| RebuildTunnelOK (x : ProtoInstance)
| RebuildTunnelErr (e : ProtoError)
| TunnelStatusOK (x : ProtoInstance)
| TunnelStatusErr (e : ProtoError)
| ListInstancesOK (xs : list ProtoInstance)
| ListInstancesErr (e : ProtoError)
| ListStackScriptsOK (xs : list ProtoScript)
| ListStackScriptsErr (e : ProtoError).

(** ** Effects *)

Inductive Event :=
| EvCall (c : Call)
| EvSleep (seconds : Z)
| EvLog (level msg : string)
| EvSetHeader (key value : string)
| EvWriteHeader (status : Z)
| EvWrite (m : ProtoResponse).

Definition Trace := list Event.

Inductive Outcome (A : Type) :=
| Ret (a : A)
| Panic (msg : string)
| OutOfFuel.
Arguments Ret {A} a.
Arguments Panic {A} msg.
Arguments OutOfFuel {A}.

Definition M (A : Type) : Type := Trace -> Outcome A * Trace.

Definition ret {A} (a : A) : M A := fun t => (Ret a, t).

Definition bind {A B} (m : M A) (k : A -> M B) : M B :=
  fun t =>
    match m t with
    | (Ret a, t') => k a t'
    | (Panic msg, t') => (Panic msg, t')
    | (OutOfFuel, t') => (OutOfFuel, t')
    end.

Definition panic {A} (msg : string) : M A := fun t => (Panic msg, t).
Definition out_of_fuel {A} : M A := fun t => (OutOfFuel, t).
Definition emit (e : Event) : M unit := fun t => (Ret tt, t ++ [e]).

Notation "'do!' x <- c ; k" := (bind c (fun x => k))
  (at level 10, x name, c at level 100, k at level 200).
Notation "'do!' ' p <- c ; k" := (bind c (fun x => match x with p => k end))
  (at level 10, p pattern, c at level 100, k at level 200).

Definition calls_of (t : Trace) : list Call :=
  omap (fun e => match e with EvCall c => Some c | _ => None end) t.

Definition sleeps_of (t : Trace) : list Z :=
  omap (fun e => match e with EvSleep s => Some s | _ => None end) t.

Definition writes_of (t : Trace) : list ProtoResponse :=
  omap (fun e => match e with EvWrite m => Some m | _ => None end) t.

Definition headers_of (t : Trace) : list Z :=
  omap (fun e => match e with EvWriteHeader s => Some s | _ => None end) t.

(** Calls and sleeps, in the order they happened. *)
Definition timeline_of (t : Trace) : list Event :=
  List.filter
    (fun e => match e with EvCall _ | EvSleep _ => true | _ => false end) t.

Definition Sleep (seconds : Z) : M unit := emit (EvSleep seconds).
Definition logAt (level msg : string) : M unit := emit (EvLog level msg).

(** ** The transport executor and the pagination cursor (linode_client.go) *)

Record apiResult := {
  ar_data : Dyn;
  ar_err : option error;
  ar_response : option Response
}.

Record pageIterator := {
  it_request : Request;
  it_endpoint : string;
  it_page : Z
}.

Definition dquote : string := String (ascii_of_nat 34) EmptyString.

(** ** Instance builder and rebuilder (linode.go) *)

Definition NewInstanceBuilder (e : LinodeAPI) (region linodeType : string)
  : LinodeInstanceBuilder :=
  {| b_api := e; b_Region := region; b_Type := linodeType; b_Label := "";
     b_Group := ""; b_RootPass := ""; b_AuthorizedKeys := [];
     b_StackscriptID := 0; b_StackscriptData := ∅; b_BackupID := 0;
     b_Image := ""; b_BackupsEnabled := false; b_Booted := false |}.

Definition NewInstanceRebuilder (e : LinodeAPI) (id : Z) : LinodeInstanceRebuilder :=
  {| r_api := e; r_id := id; r_RootPass := ""; r_AuthorizedKeys := [];
     r_StackscriptID := 0; r_StackscriptData := ∅; r_Image := "";
     r_Booted := false |}.

Module Builder.
Definition SetLabel (label : string) (e : LinodeInstanceBuilder) :=
  {| b_api := b_api e; b_Region := b_Region e; b_Type := b_Type e;
     b_Label := label; b_Group := b_Group e; b_RootPass := b_RootPass e;
     b_AuthorizedKeys := b_AuthorizedKeys e;
     b_StackscriptID := b_StackscriptID e;
     b_StackscriptData := b_StackscriptData e; b_BackupID := b_BackupID e;
     b_Image := b_Image e; b_BackupsEnabled := b_BackupsEnabled e;
     b_Booted := b_Booted e |}.

Definition SetRootPass (rootPass : string) (e : LinodeInstanceBuilder) :=
  {| b_api := b_api e; b_Region := b_Region e; b_Type := b_Type e;
     b_Label := b_Label e; b_Group := b_Group e; b_RootPass := rootPass;
     b_AuthorizedKeys := b_AuthorizedKeys e;
     b_StackscriptID := b_StackscriptID e;
     b_StackscriptData := b_StackscriptData e; b_BackupID := b_BackupID e;
     b_Image := b_Image e; b_BackupsEnabled := b_BackupsEnabled e;
     b_Booted := b_Booted e |}.

Definition SetAuthorizedKeys (keys : list string) (e : LinodeInstanceBuilder) :=
  {| b_api := b_api e; b_Region := b_Region e; b_Type := b_Type e;
     b_Label := b_Label e; b_Group := b_Group e; b_RootPass := b_RootPass e;
     b_AuthorizedKeys := keys;
     b_StackscriptID := b_StackscriptID e;
     b_StackscriptData := b_StackscriptData e; b_BackupID := b_BackupID e;
     b_Image := b_Image e; b_BackupsEnabled := b_BackupsEnabled e;
     b_Booted := b_Booted e |}.

(** The parameter maps are variadic: only the first one is kept. *)
Definition SetStackscript (id : Z) (data : list (gmap string ParamValue))
    (e : LinodeInstanceBuilder) :=
  {| b_api := b_api e; b_Region := b_Region e; b_Type := b_Type e;
     b_Label := b_Label e; b_Group := b_Group e; b_RootPass := b_RootPass e;
     b_AuthorizedKeys := b_AuthorizedKeys e;
     b_StackscriptID := id;
     b_StackscriptData :=
       match data with d :: _ => d | [] => b_StackscriptData e end;
     b_BackupID := b_BackupID e;
     b_Image := b_Image e; b_BackupsEnabled := b_BackupsEnabled e;
     b_Booted := b_Booted e |}.

Definition SetImage (image : string) (e : LinodeInstanceBuilder) :=
  {| b_api := b_api e; b_Region := b_Region e; b_Type := b_Type e;
     b_Label := b_Label e; b_Group := b_Group e; b_RootPass := b_RootPass e;
     b_AuthorizedKeys := b_AuthorizedKeys e;
     b_StackscriptID := b_StackscriptID e;
     b_StackscriptData := b_StackscriptData e; b_BackupID := b_BackupID e;
     b_Image := image; b_BackupsEnabled := b_BackupsEnabled e;
     b_Booted := b_Booted e |}.

Definition SetBackupsEnabled (enabled : bool) (e : LinodeInstanceBuilder) :=
  {| b_api := b_api e; b_Region := b_Region e; b_Type := b_Type e;
     b_Label := b_Label e; b_Group := b_Group e; b_RootPass := b_RootPass e;
     b_AuthorizedKeys := b_AuthorizedKeys e;
     b_StackscriptID := b_StackscriptID e;
     b_StackscriptData := b_StackscriptData e; b_BackupID := b_BackupID e;
     b_Image := b_Image e; b_BackupsEnabled := enabled;
     b_Booted := b_Booted e |}.

Definition SetBooted (booted : bool) (e : LinodeInstanceBuilder) :=
  {| b_api := b_api e; b_Region := b_Region e; b_Type := b_Type e;
     b_Label := b_Label e; b_Group := b_Group e; b_RootPass := b_RootPass e;
     b_AuthorizedKeys := b_AuthorizedKeys e;
     b_StackscriptID := b_StackscriptID e;
     b_StackscriptData := b_StackscriptData e; b_BackupID := b_BackupID e;
     b_Image := b_Image e; b_BackupsEnabled := b_BackupsEnabled e;
     b_Booted := booted |}.
End Builder.

Module Rebuilder.
Definition SetRootPass (rootPass : string) (r : LinodeInstanceRebuilder) :=
  {| r_api := r_api r; r_id := r_id r; r_RootPass := rootPass;
     r_AuthorizedKeys := r_AuthorizedKeys r;
     r_StackscriptID := r_StackscriptID r;
     r_StackscriptData := r_StackscriptData r; r_Image := r_Image r;
     r_Booted := r_Booted r |}.

Definition SetAuthorizedKeys (keys : list string) (r : LinodeInstanceRebuilder) :=
  {| r_api := r_api r; r_id := r_id r; r_RootPass := r_RootPass r;
     r_AuthorizedKeys := keys;
     r_StackscriptID := r_StackscriptID r;
     r_StackscriptData := r_StackscriptData r; r_Image := r_Image r;
     r_Booted := r_Booted r |}.

Definition SetStackscript (id : Z) (data : list (gmap string ParamValue))
    (r : LinodeInstanceRebuilder) :=
  {| r_api := r_api r; r_id := r_id r; r_RootPass := r_RootPass r;
     r_AuthorizedKeys := r_AuthorizedKeys r;
     r_StackscriptID := id;
     r_StackscriptData :=
       match data with d :: _ => d | [] => r_StackscriptData r end;
     r_Image := r_Image r; r_Booted := r_Booted r |}.

Definition SetImage (image : string) (r : LinodeInstanceRebuilder) :=
  {| r_api := r_api r; r_id := r_id r; r_RootPass := r_RootPass r;
     r_AuthorizedKeys := r_AuthorizedKeys r;
     r_StackscriptID := r_StackscriptID r;
     r_StackscriptData := r_StackscriptData r; r_Image := image;
     r_Booted := r_Booted r |}.

Definition SetBooted (booted : bool) (r : LinodeInstanceRebuilder) :=
  {| r_api := r_api r; r_id := r_id r; r_RootPass := r_RootPass r;
     r_AuthorizedKeys := r_AuthorizedKeys r;
     r_StackscriptID := r_StackscriptID r;
     r_StackscriptData := r_StackscriptData r; r_Image := r_Image r;
     r_Booted := booted |}.
End Rebuilder.

(** ** Request messages and the facade object *)

(** Modelled from the spec: the request messages of the [protoapi] package,
    whose declarations are not among the sources at hand; the fields are the
    ones the facade reads (an authentication token, plan, region, keys,
    credentials and the three optional tunnel features). *)
Record LinodeAuth := { AccessToken : string }.

Record WireguardOptions := {
  wg_Port : Z; wg_ServerKey : string; wg_PeerKeys : list string
}.

Record ObfsproxyIPv4Options := { o4_Port : Z; o4_Secret : string }.

Record ObfsproxyIPv6Options := { o6_Port : Z; o6_Secret : string }.

Record LinodeCreateTunnelRequest := {
  ct_Auth : option LinodeAuth;
  ct_Plan : string;
  ct_Region : string;
  ct_SshKeys : list string;
  ct_RootPassword : string;
  ct_RegularAccountName : string;
  ct_RegularAccountPassword : string;
  ct_WireguardOptions : option WireguardOptions;
  ct_Obfsproxy4Options : option ObfsproxyIPv4Options;
  ct_Obfsproxy6Options : option ObfsproxyIPv6Options
}.

Record LinodeRebuildTunnelRequest := {
  rt_Auth : option LinodeAuth;
  rt_SshKeys : list string;
  rt_RootPassword : string;
  rt_RegularAccountName : string;
  rt_RegularAccountPassword : string;
  rt_WireguardOptions : option WireguardOptions;
  rt_Obfsproxy4Options : option ObfsproxyIPv4Options;
  rt_Obfsproxy6Options : option ObfsproxyIPv6Options
}.

Record LinodeDestroyTunnelRequest := { dt_Auth : option LinodeAuth }.
Record LinodeGetTunnelStatusRequest := { ts_Auth : option LinodeAuth }.
Record LinodeListInstancesRequest := { lr_Auth : option LinodeAuth }.
Record LinodeListStackScriptsRequest := { ls_Auth : option LinodeAuth }.

Record protobufLinode := {
  instanceLabel : string;
  instanceImage : string;
  instanceScript : string
}.

Definition newProtobufLinode : protobufLinode :=
  {| instanceLabel := "hp_instance";
     instanceImage := "linode/debian9";
     instanceScript := "freedom_node" |}.

(** One iteration variable per [range] loop (the language up to Go 1.21, the
    one this package was written in) or one per iteration (Go 1.22 modules). *)
Inductive LoopVar := PerLoop | PerIteration.

(** The cell that holds the iteration variable in iteration [i]. *)
Definition loopvar_cell (go : LoopVar) (i : nat) : nat :=
  match go with
  | PerLoop => 0%nat
  | PerIteration => i
  end.

(** The provisioning parameters, in the order the code stores them. *)
Definition stackScriptData (username password : string)
    (wg : option WireguardOptions)
    (obfs4 : option ObfsproxyIPv4Options)
    (obfs6 : option ObfsproxyIPv6Options) : gmap string ParamValue :=
  let params : gmap string ParamValue := ∅ in
  let params := <[ "udf_local_user_name" := PStr username ]> params in
  let params := <[ "udf_local_user_password" := PStr password ]> params in
  let params :=
    match wg with
    | Some wg =>
        let params := <[ "udf_enable_wireguard" := PInt 1 ]> params in
        let params := <[ "udf_wireguard_port" := PInt (wg_Port wg) ]> params in
        let params := <[ "udf_wireguard_private_key" := PStr (wg_ServerKey wg) ]> params in
        <[ "udf_wireguard_peer_keys" := PStr (Join (wg_PeerKeys wg) " ") ]> params
    | None => <[ "udf_enable_wireguard" := PInt 0 ]> params
    end in
  let params :=
    match obfs4 with
    | Some obfs4 =>
        let params := <[ "udf_enable_obfs4" := PInt 1 ]> params in
        let params := <[ "udf_obfs4_port" := PInt (o4_Port obfs4) ]> params in
        <[ "udf_obfs4_secret" := PStr (o4_Secret obfs4) ]> params
    | None => <[ "udf_enable_obfs4" := PInt 0 ]> params
    end in
  let params :=
    match obfs6 with
    | Some obfs6 =>
        let params := <[ "udf_enable_obfs6" := PInt 1 ]> params in
        let params := <[ "udf_obfs6_port" := PInt (o6_Port obfs6) ]> params in
        <[ "udf_obfs6_secret" := PStr (o6_Secret obfs6) ]> params
    | None => <[ "udf_enable_obfs6" := PInt 0 ]> params
    end in
  params.

(** The loop of [retrieveTunnelInstance]: every instance is copied into the
    iteration variable, and the address of that variable is collected when
    the label matches. *)
Fixpoint collectTunnelInstances (go : LoopVar) (name : string)
    (instances : list LinodeInfo) (i : nat)
    (store : gmap nat LinodeInfo) (tunnelInstances : list nat)
  : gmap nat LinodeInfo * list nat :=
  match instances with
  | [] => (store, tunnelInstances)
  | x :: rest =>
      let instance := loopvar_cell go i in
      let store := <[ instance := x ]> store in
      let tunnelInstances :=
        if HasPrefix (li_Label x) name
        then tunnelInstances ++ [instance]
        else tunnelInstances in
      collectTunnelInstances go name rest (S i) store tunnelInstances
  end.

(** The loop of [makeStackScriptParams] that finds the script by name:
    [script] is nil or the address of the iteration variable. *)
Fixpoint findScript (go : LoopVar) (scriptName : string)
    (scripts : list StackScript) (i : nat)
    (store : gmap nat StackScript) (script : option nat)
  : gmap nat StackScript * option nat :=
  match scripts with
  | [] => (store, script)
  | x :: rest =>
      let s := loopvar_cell go i in
      let store := <[ s := x ]> store in
      let script := if String.eqb (ss_Label x) scriptName then Some s else script in
      findScript go scriptName rest (S i) store script
  end.

Definition createError (err : error) : ProtoError :=
  match err with
  | ErrLinode linodeErr =>
      ProtoDetails
        (map (fun e => {| Field := Field e; Reason := Reason e |}) (Errors linodeErr))
  | _ => ProtoMessage (Error err)
  end.

Definition createCreateTunnelOK (x : ProtoInstance) := CreateTunnelOK x.
Definition createCreateTunnelErr (err : error) := CreateTunnelErr (createError err).
Definition createDestroyTunnelOK := DestroyTunnelOK.
Definition createDestroyTunnelErr (err : error) := DestroyTunnelErr (createError err).
Definition createRebuildTunnelOK (x : ProtoInstance) := RebuildTunnelOK x.
Definition createRebuildTunnelErr (err : error) := RebuildTunnelErr (createError err).
Definition createTunnelStatusOK (x : ProtoInstance) := TunnelStatusOK x.
Definition createTunnelStatusErr (err : error) := TunnelStatusErr (createError err).
Definition createListInstancesOK (xs : list ProtoInstance) := ListInstancesOK xs.
Definition createListInstancesErr (err : error) := ListInstancesErr (createError err).
Definition createListStackScriptsOK (xs : list ProtoScript) := ListStackScriptsOK xs.
Definition createListStackScriptsErr (err : error) := ListStackScriptsErr (createError err).

Definition extractAuth (a : option LinodeAuth) : string :=
  match a with
  | Some a => AccessToken a
  | None => ""
  end.

Section Engine.

(** The provider the engine talks to. *)
Variable net : Network.

(** [execRequest(linodeAPIBaseURL + endpoint)]: one network call. *)
Definition execRequest (method endpoint : string) (r : Request) : M Reply :=
  fun t =>
    let c := {| c_method := method; c_endpoint := endpoint; c_request := r |} in
    (Ret (net (calls_of t) c), t ++ [EvCall c]).

Definition known_method (method : string) : bool :=
  existsb (String.eqb method) ["GET"; "POST"; "DELETE"; "HEAD"; "PUT"; "PATCH"].

Definition linodeSimpleExec (method endpoint : string) (r : Request) : M apiResult :=
  if known_method method then
    do! reply <- execRequest method endpoint r;
    match reply with
    | NetFail cause =>
        let err := ErrWrap (ErrTransport cause)
                     (method +:+ " request ('" +:+ endpoint +:+ "') failed") in
        ret {| ar_data := DynNil; ar_err := Some err; ar_response := None |}
    | NetResp response =>
        if Z.gtb (StatusCode response) 299 then
          let errFormat details :=
            "API error (" +:+ method +:+ " '" +:+ endpoint +:+ "'): " +:+ details in
          let err :=
            match RespError response with
            | Some (EoLinode linodeErr) =>
                ErrLinode
                  {| Errors := Errors linodeErr;
                     isAuthError := Z.eqb (StatusCode response) 401;
                     isPermissionsError := Z.eqb (StatusCode response) 403 |}
            | Some (EoOther text) => ErrNew (errFormat text)
            | None => ErrNew (errFormat "No error object, details missing")
            end in
          ret {| ar_data := DynNil; ar_err := Some err;
                 ar_response := Some response |}
        else
          ret {| ar_data := RespResult response; ar_err := None;
                 ar_response := Some response |}
    end
  else panic ("Unknown request method: " +:+ method).

Definition linodePOST := linodeSimpleExec "POST".
Definition linodeDELETE := linodeSimpleExec "DELETE".
Definition linodePUT := linodeSimpleExec "PUT".
Definition linodeHEAD := linodeSimpleExec "HEAD".
Definition linodeGET := linodeSimpleExec "GET".

(** The result type [t] registered on the request decides how the provider's
    body is decoded; the decoded value is what [net] replies with. *)
Definition linodePaginatedGET (endpoint : string) (r : Request) : pageIterator :=
  {| it_request := r; it_endpoint := endpoint; it_page := 1 |}.

(** [next] has a pointer receiver: the updated iterator is returned next to
    the result and the [hasMore] flag. *)
Definition next (e : pageIterator) : M (pageIterator * (apiResult * bool)) :=
  let e :=
    if Z.gtb (it_page e) 1
    then {| it_request := SetQueryParam "page" (Itoa (it_page e)) (it_request e);
            it_endpoint := it_endpoint e; it_page := it_page e |}
    else e in
  do! result <- linodeSimpleExec "GET" (it_endpoint e) (it_request e);
  match ar_err result with
  | Some _ => ret (e, (result, false))
  | None =>
      match ar_response result with
      | None => panic "invalid memory address or nil pointer dereference"
      | Some response =>
          match as_paginatedResult (RespResult response) with
          | None =>
              let err := ErrNew "Possible API incompatibility: Unable to parse paginated response" in
              ret (e, ({| ar_data := DynNil; ar_err := Some err;
                          ar_response := Some response |}, false))
          | Some (count, items) =>
              let e' := {| it_request := it_request e; it_endpoint := it_endpoint e;
                           it_page := wrap64 (it_page e + 1) |} in
              let hasMorePages := Z.ltb (it_page e') count in
              ret (e', ({| ar_data := items; ar_err := None;
                           ar_response := Some response |}, hasMorePages))
          end
      end
  end.

(** ** The API object (linode.go) *)

Definition NewLinodeAPI (key : string) : LinodeAPI := {| apiKey := key |}.

(** [e.client.R().SetError(&LinodeError{})] on a client configured by
    [NewLinodeAPI]. *)
Definition clientR (e : LinodeAPI) : Request :=
  {| rq_token := apiKey e;
     rq_headers := {[ "User-Agent" := "linode_client" ]};
     rq_query := ∅;
     rq_body := NoBody |}.

Definition authedR (e : LinodeAPI) : M Request :=
  if nonempty (apiKey e) then ret (clientR e)
  else panic "Attempted to perform authenticated request, but this LinodeAPI instance has no API key".

Definition decode_failure (endpoint : string) : error :=
  ErrNew ("unable to decode RPC return value (" +:+ endpoint +:+ ")").

Definition instanceEndpoint (linodeID : Z) : string :=
  "/linode/instances/" +:+ Itoa linodeID.

Definition DeleteInstance (e : LinodeAPI) (linodeID : Z) : M (option error) :=
  let endpoint := instanceEndpoint linodeID in
  do! client <- authedR e;
  do! result <- linodeDELETE endpoint client;
  match ar_err result with
  | None => ret None
  | Some err => ret (Some (ErrWrap err "Unable to delete instance"))
  end.

Definition QueryLinode (e : LinodeAPI) (linodeID : Z) : M (option LinodeInfo * option error) :=
  let endpoint := instanceEndpoint linodeID in
  do! r <- authedR e;
  do! result <- linodeGET endpoint r;
  match ar_err result with
  | Some err => ret (None, Some err)
  | None =>
      match ar_data result with
      | DynLinodeInfo linodeInfo => ret (Some linodeInfo, None)
      | _ => ret (None, Some (decode_failure endpoint))
      end
  end.

Fixpoint ListLinodeInstances_loop (fuel : nat) (endpoint : string)
    (iter : pageIterator) (items : list LinodeInfo)
  : M (list LinodeInfo * option error) :=
  match fuel with
  | O => out_of_fuel
  | S fuel' =>
      do! '(iter', (item, hasNext)) <- next iter;
      match ar_err item with
      | Some err => ret (items, Some err)
      | None =>
          match ar_data item with
          | DynInfoList moreItems =>
              let items := items ++ moreItems in
              if negb hasNext then ret (items, None)
              else ListLinodeInstances_loop fuel' endpoint iter' items
          | _ => ret (items, Some (decode_failure endpoint))
          end
      end
  end.

Definition ListLinodeInstances (fuel : nat) (e : LinodeAPI)
  : M (list LinodeInfo * option error) :=
  let endpoint := "/linode/instances" in
  do! r <- authedR e;
  let iter := linodePaginatedGET endpoint r in
  ListLinodeInstances_loop fuel endpoint iter [].

Fixpoint ListStackScriptsPrivate_loop (fuel : nat) (endpoint : string)
    (iter : pageIterator) (items : list StackScript)
  : M (list StackScript * option error) :=
  match fuel with
  | O => out_of_fuel
  | S fuel' =>
      do! '(iter', (item, hasNext)) <- next iter;
      match ar_err item with
      | Some err => ret (items, Some err)
      | None =>
          match ar_data item with
          | DynScriptList moreItems =>
              let items := items ++ moreItems in
              if negb hasNext then ret (items, None)
              else ListStackScriptsPrivate_loop fuel' endpoint iter' items
          | _ => ret (items, Some (decode_failure endpoint))
          end
      end
  end.

Definition mine_filter : string :=
  "{" +:+ dquote +:+ "mine" +:+ dquote +:+ ": true}".

Definition ListStackScriptsPrivate (fuel : nat) (e : LinodeAPI)
  : M (list StackScript * option error) :=
  let endpoint := "/linode/stackscripts" in
  do! r0 <- authedR e;
  let r := SetHeader "X-Filter" mine_filter r0 in
  let iter := linodePaginatedGET endpoint r in
  ListStackScriptsPrivate_loop fuel endpoint iter [].

(** ** Finalizing a builder (linode.go) *)

Definition parse_failure : error := ErrNew "unable to parse RPC result".

(** [Create] finalizes the builder: one POST of the accumulated
    configuration. *)
Definition Create (e : LinodeInstanceBuilder) : M (option LinodeInfo * option error) :=
  let endpoint := "/linode/instances" in
  do! r0 <- authedR (b_api e);
  let r := SetBody (BuilderBody e) r0 in
  do! result <- linodePOST endpoint r;
  match ar_err result with
  | Some err => ret (None, Some err)
  | None =>
      match ar_response result with
      | None => panic "invalid memory address or nil pointer dereference"
      | Some response =>
          match RespResult response with
          | DynLinodeInfo instance => ret (Some instance, None)
          | _ => ret (None, Some parse_failure)
          end
      end
  end.

Definition Rebuild (r : LinodeInstanceRebuilder) : M (option LinodeInfo * option error) :=
  let endpoint := "/linode/instances/" +:+ Itoa (r_id r) +:+ "/rebuild" in
  do! c0 <- authedR (r_api r);
  let client := SetBody (RebuilderBody r) c0 in
  do! result <- linodePOST endpoint client;
  match ar_err result with
  | Some err => ret (None, Some err)
  | None =>
      match ar_response result with
      | None => panic "invalid memory address or nil pointer dereference"
      | Some response =>
          match RespResult response with
          | DynLinodeInfo instance => ret (Some instance, None)
          | _ => ret (None, Some parse_failure)
          end
      end
  end.

(** ** The response writer (protobuf_writer.go) *)

(** The codec behind the writer: the error, if any, of encoding and sending
    a response message. *)
Variable codec : ProtoResponse -> option error.

(** The enum number [protoapi] gives to the upper-cased name of a status. *)
Variable LinodeInstance_Status_value : string -> Z.

Definition write (m : ProtoResponse) : M (option error) :=
  do! _ <- emit (EvWrite m);
  match codec m with
  | Some err =>
      do! _ <- logAt "error" "Communication breakdown";
      ret (Some err)
  | None => ret None
  end.

Definition WriteMessage (m : ProtoResponse) : M (option error) :=
  do! _ <- emit (EvSetHeader "Content-Type" "application/octet-stream");
  do! _ <- emit (EvSetHeader "Cache-Control" "no-cache");
  write m.

Definition WriteError (m : ProtoResponse) (err : error) : M (option error) :=
  do! _ <- emit (EvSetHeader "Content-Type" "application/octet-stream");
  do! _ <- emit (EvSetHeader "Cache-Control" "no-cache");
  do! _ <- match err with
           | ErrLinode linodeErr =>
               if IsAuthError linodeErr then emit (EvWriteHeader 401)
               else if IsPermissionsError linodeErr then emit (EvWriteHeader 403)
               else emit (EvWriteHeader 418)
           | _ => emit (EvWriteHeader 418)
           end;
  write m.

(** ** The orchestration facade *)

(** The version of the language decides how [range] loops bind. *)
Variable go : LoopVar.

Definition logError (err : error) (msg : string) : M unit := logAt "error" msg.
Definition logInstance (instance : LinodeInfo) (msg : string) : M unit :=
  logAt "debug" msg.

Definition nil_dereference {A} : M A :=
  panic "invalid memory address or nil pointer dereference".

Definition linodeInstanceToProtobuf (instance : LinodeInfo) : ProtoInstance :=
  {| pi_Id := li_ID instance;
     pi_Label := li_Label instance;
     pi_Group := li_Group instance;
     pi_Region := li_Region instance;
     pi_Plan := li_Type instance;
     pi_Image := li_Image instance;
     pi_Ipv4 := li_IPv4 instance;
     pi_Ipv6 := [li_IPv6 instance];
     pi_Status := LinodeInstance_Status_value (li_Status instance);
     pi_CreatedAt := li_CreatedAt instance;
     pi_UpdatedAt := li_Updated instance;
     pi_Hypervisor := li_Hypervisor instance;
     pi_Disk := to_uint64 (Disk (li_Specs instance));
     pi_Memory := to_uint64 (Memory (li_Specs instance));
     pi_Vcpus := to_uint32 (VCPUs (li_Specs instance));
     pi_Transfer := to_uint64 (Transfer (li_Specs instance)) |}.

Fixpoint awaitUntilRunning_loop (fuel : nat) (api : LinodeAPI) (instanceID : Z)
    (attempt maxAttempts delay : Z) : M (option LinodeInfo * option error) :=
  match fuel with
  | O => out_of_fuel
  | S fuel' =>
      do! '(instance, err) <- QueryLinode api instanceID;
      match err with
      | Some err =>
          do! _ <- logError err "Couldn't retrieve status of Linode instance";
          ret (None, Some err)
      | None =>
          match instance with
          | None => nil_dereference
          | Some instance =>
              if String.eqb (li_Status instance) LinodeStatusRunning
              then ret (Some instance, None)
              else
                let attempt := wrap64 (attempt + 1) in
                if Z.geb attempt maxAttempts then
                  do! _ <- logAt "warning" "Instance took too long to come online";
                  ret (None, Some (ErrNew "Instance took too long to come online"))
                else
                  do! _ <- Sleep delay;
                  awaitUntilRunning_loop fuel' api instanceID attempt maxAttempts delay
          end
      end
  end.

(** Durations are in seconds. *)
Definition awaitUntilRunning (fuel : nat) (api : LinodeAPI) (instanceID : Z)
  : M (option LinodeInfo * option error) :=
  let attempt := 0 in
  let maxAttempts := 20 in
  let delay := 7 in
  do! _ <- Sleep (delay * 2);
  awaitUntilRunning_loop fuel api instanceID attempt maxAttempts delay.

Definition makeStackScriptParams (fuel : nat) (api : LinodeAPI)
    (scriptName username password : string)
    (wg : option WireguardOptions)
    (obfs4 : option ObfsproxyIPv4Options)
    (obfs6 : option ObfsproxyIPv6Options)
  : M (option StackScript * gmap string ParamValue * option error) :=
  do! '(scripts, err) <- ListStackScriptsPrivate fuel api;
  match err with
  | Some err =>
      do! _ <- logError err "Couldn't list StackScripts";
      ret (None, ∅, Some err)
  | None =>
      let '(store, script) := findScript go scriptName scripts 0 ∅ None in
      match script with
      | None =>
          let err := ErrNew ("Stackscript is missing: " +:+ scriptName) in
          do! _ <- logError err "Couldn't retrieve StackScript information";
          ret (None, ∅, Some err)
      | Some s =>
          let params := stackScriptData username password wg obfs4 obfs6 in
          ret (store !! s, params, None)
      end
  end.

Fixpoint logActiveTunnels (tunnelInstances : list nat)
    (store : gmap nat LinodeInfo) (i : Z) : M unit :=
  match tunnelInstances with
  | [] => ret tt
  | instance :: rest =>
      do! _ <- match store !! instance with
               | Some x => logInstance x ("Active tunnel instance #" +:+ Itoa i)
               | None => nil_dereference
               end;
      logActiveTunnels rest store (i + 1)
  end.

(** The result is the instance the returned pointer refers to; [None] is
    the nil pointer. *)
Definition retrieveTunnelInstance (fuel : nat) (api : LinodeAPI) (name : string)
  : M (option LinodeInfo * option error) :=
  do! '(instances, err) <- ListLinodeInstances fuel api;
  match err with
  | Some err =>
      do! _ <- logError err "Couldn't list Linode instances";
      ret (None, Some err)
  | None =>
      let '(store, tunnelInstances) :=
        collectTunnelInstances go name instances 0 ∅ [] in
      match tunnelInstances with
      | first :: others =>
          do! _ <- match others with
                   | [] => ret tt
                   | _ =>
                       do! _ <- logAt "error" "Multiple tunnel instances are currently active!";
                       logActiveTunnels tunnelInstances store 0
                   end;
          ret (store !! first, None)
      | [] => ret (None, None)
      end
  end.

Definition ensureTunnelExists (fuel : nat) (api : LinodeAPI) (name : string)
  : M (option LinodeInfo * option error) :=
  do! '(tunnelInstance, err) <- retrieveTunnelInstance fuel api name;
  match err with
  | Some err => ret (None, Some err)
  | None =>
      match tunnelInstance with
      | None =>
          let err := ErrNew "Tunnel does not exist" in
          do! _ <- logError err "Guard failure";
          ret (None, Some err)
      | Some x => ret (Some x, None)
      end
  end.

Definition ensureTunnelDoesNotExist (fuel : nat) (api : LinodeAPI) (name : string)
  : M (option error) :=
  do! '(tunnelInstance, err) <- retrieveTunnelInstance fuel api name;
  match err with
  | Some err => ret (Some err)
  | None =>
      match tunnelInstance with
      | Some _ =>
          let err := ErrNew "Tunnel already exists" in
          do! _ <- logError err "Guard failure";
          ret (Some err)
      | None => ret None
      end
  end.

Definition CreateTunnel (fuel : nat) (p : protobufLinode)
    (args : LinodeCreateTunnelRequest) : M (option error) :=
  let api := NewLinodeAPI (extractAuth (ct_Auth args)) in
  do! guard <- ensureTunnelDoesNotExist fuel api (instanceLabel p);
  do! _ <- match guard with
           | Some err =>
               do! _ <- WriteError (createCreateTunnelErr err) err;
               ret tt
           | None => ret tt
           end;
  if Nat.eqb (String.length (ct_Plan args)) 0 then
    let err := ErrNew "Linode plan is empty or missing" in
    WriteError (createCreateTunnelErr err) err
  else if Nat.eqb (String.length (ct_Region args)) 0 then
    let err := ErrNew "Linode region is empty or missing" in
    WriteError (createCreateTunnelErr err) err
  else
    let tunnelBuilder := NewInstanceBuilder api (ct_Region args) (ct_Plan args) in
    let tunnelBuilder := Builder.SetLabel (instanceLabel p) tunnelBuilder in
    let tunnelBuilder := Builder.SetAuthorizedKeys (ct_SshKeys args) tunnelBuilder in
    let tunnelBuilder := Builder.SetImage (instanceImage p) tunnelBuilder in
    let tunnelBuilder := Builder.SetBooted true tunnelBuilder in
    let tunnelBuilder := Builder.SetBackupsEnabled false tunnelBuilder in
    let tunnelBuilder := Builder.SetRootPass (ct_RootPassword args) tunnelBuilder in
    do! '(script, params, err) <-
      makeStackScriptParams fuel api (instanceScript p)
        (ct_RegularAccountName args) (ct_RegularAccountPassword args)
        (ct_WireguardOptions args) (ct_Obfsproxy4Options args)
        (ct_Obfsproxy6Options args);
    match err with
    | Some err => WriteError (createCreateTunnelErr err) err
    | None =>
        match script with
        | None => nil_dereference
        | Some script =>
            let tunnelBuilder :=
              Builder.SetStackscript (ss_ID script)
                [params]
                tunnelBuilder in
            do! '(instance, err) <- Create tunnelBuilder;
            match err with
            | Some err =>
                do! _ <- logError err "Couldn't create Linode instance";
                WriteError (createCreateTunnelErr err) err
            | None =>
                match instance with
                | None => nil_dereference
                | Some instance =>
                    do! _ <- logInstance instance
                      "Initiated instance creation. Waiting until it's running...";
                    do! '(latest, awaitErr) <- awaitUntilRunning fuel api (li_ID instance);
                    match awaitErr, latest with
                    | None, Some latest =>
                        do! _ <- logInstance latest "Instance was successfully created";
                        WriteMessage (createCreateTunnelOK (linodeInstanceToProtobuf latest))
                    | None, None => nil_dereference
                    | Some _, _ =>
                        WriteMessage (createCreateTunnelOK (linodeInstanceToProtobuf instance))
                    end
                end
            end
        end
    end.

Definition RebuildTunnel (fuel : nat) (p : protobufLinode)
    (args : LinodeRebuildTunnelRequest) : M (option error) :=
  let api := NewLinodeAPI (extractAuth (rt_Auth args)) in
  do! '(tunnel, err) <- ensureTunnelExists fuel api (instanceLabel p);
  match err, tunnel with
  | Some err, _ => WriteError (createRebuildTunnelErr err) err
  | None, None => nil_dereference
  | None, Some tunnel =>
      let tunnelRebuilder := NewInstanceRebuilder api (li_ID tunnel) in
      let tunnelRebuilder := Rebuilder.SetAuthorizedKeys (rt_SshKeys args) tunnelRebuilder in
      let tunnelRebuilder := Rebuilder.SetBooted true tunnelRebuilder in
      let tunnelRebuilder := Rebuilder.SetImage (instanceImage p) tunnelRebuilder in
      let tunnelRebuilder := Rebuilder.SetRootPass (rt_RootPassword args) tunnelRebuilder in
      do! '(script, params, err) <-
        makeStackScriptParams fuel api (instanceScript p)
          (rt_RegularAccountName args) (rt_RegularAccountPassword args)
          (rt_WireguardOptions args) (rt_Obfsproxy4Options args)
          (rt_Obfsproxy6Options args);
      match err with
      | Some err => WriteError (createRebuildTunnelErr err) err
      | None =>
          match script with
          | None => nil_dereference
          | Some script =>
              let tunnelRebuilder :=
                Rebuilder.SetStackscript (ss_ID script)
                  [params]
                  tunnelRebuilder in
              do! '(instance, err) <- Rebuild tunnelRebuilder;
              match err with
              | Some err =>
                  do! _ <- logError err "Couldn't rebuild Linode instance";
                  WriteError (createRebuildTunnelErr err) err
              | None =>
                  match instance with
                  | None => nil_dereference
                  | Some instance =>
                      do! _ <- logInstance instance
                        "Initiated instance rebuild. Waiting until it's running...";
                      do! '(latest, awaitErr) <- awaitUntilRunning fuel api (li_ID instance);
                      match awaitErr, latest with
                      | None, Some latest =>
                          do! _ <- logInstance latest "Successfully rebuilt instance";
                          WriteMessage (createRebuildTunnelOK (linodeInstanceToProtobuf latest))
                      | None, None => nil_dereference
                      | Some _, _ =>
                          WriteMessage (createRebuildTunnelOK (linodeInstanceToProtobuf instance))
                      end
                  end
              end
          end
      end
  end.

Definition DestroyTunnel (fuel : nat) (p : protobufLinode)
    (args : LinodeDestroyTunnelRequest) : M (option error) :=
  let api := NewLinodeAPI (extractAuth (dt_Auth args)) in
  do! '(tunnel, err) <- ensureTunnelExists fuel api (instanceLabel p);
  match err, tunnel with
  | Some err, _ => WriteError (createDestroyTunnelErr err) err
  | None, None => nil_dereference
  | None, Some tunnel =>
      do! err <- DeleteInstance api (li_ID tunnel);
      match err with
      | Some err =>
          do! _ <- logError err "Couldn't delete instance";
          WriteError (createDestroyTunnelErr err) err
      | None =>
          do! _ <- logInstance tunnel "Instance was successfully deleted";
          WriteMessage createDestroyTunnelOK
      end
  end.

Definition TunnelStatus (fuel : nat) (p : protobufLinode)
    (args : LinodeGetTunnelStatusRequest) : M (option error) :=
  let api := NewLinodeAPI (extractAuth (ts_Auth args)) in
  do! '(tunnel, err) <- ensureTunnelExists fuel api (instanceLabel p);
  match err, tunnel with
  | Some err, _ => WriteError (createTunnelStatusErr err) err
  | None, None => nil_dereference
  | None, Some tunnel =>
      WriteMessage (createTunnelStatusOK (linodeInstanceToProtobuf tunnel))
  end.

Definition ListInstances (fuel : nat) (p : protobufLinode)
    (args : LinodeListInstancesRequest) : M (option error) :=
  do! '(instances, err) <-
    ListLinodeInstances fuel (NewLinodeAPI (extractAuth (lr_Auth args)));
  match err with
  | Some err =>
      do! _ <- logError err "Couldn't list Linode instances";
      WriteError (createListInstancesErr err) err
  | None =>
      WriteMessage (createListInstancesOK (map linodeInstanceToProtobuf instances))
  end.

Definition ListStackScripts (fuel : nat) (p : protobufLinode)
    (args : LinodeListStackScriptsRequest) : M (option error) :=
  do! '(scripts, err) <-
    ListStackScriptsPrivate fuel (NewLinodeAPI (extractAuth (ls_Auth args)));
  match err with
  | Some err =>
      do! _ <- logError err "Couldn't list Linode StackScripts";
      WriteError (createListStackScriptsErr err) err
  | None =>
      WriteMessage
        (createListStackScriptsOK
           (map (fun script =>
                   {| ps_Id := ss_ID script; ps_Label := ss_Label script;
                      ps_Description := ss_Description script |}) scripts))
  end.

End Engine.

(** ** Scripted providers

    Concrete providers on which the engine is run: a listing served page by
    page, and an account with a fixed set of instances and scripts whose
    status polls follow a script. *)

Module Scenario.

Definition instance (id : Z) (label : string) (status : LinodeStatus) : LinodeInfo :=
  {| li_ID := id; li_Region := "eu-central"; li_Image := "linode/debian9";
     li_IPv4 := ["192.0.2.1"]; li_IPv6 := "2001:db8::1/64";
     li_Label := label; li_Group := ""; li_Type := "g5-nanode-1";
     li_Status := status; li_CreatedAt := "2018-01-01T00:00:00";
     li_Updated := "2018-01-01T00:00:00"; li_Hypervisor := "kvm";
     li_Specs := {| Disk := 20480; Memory := 1024; VCPUs := 1; Transfer := 1000 |} |}.

Definition script (id : Z) (label : string) : StackScript :=
  {| ss_ID := id; ss_Label := label; ss_Description := "";
     ss_Images := ["linode/debian9"]; ss_IsPublic := false |}.

Definition ok (d : Dyn) : Reply :=
  NetResp {| StatusCode := 200; RespError := None; RespResult := d |}.

(** The page a call asks for: page 1 without a [page] parameter. *)
Definition requested_page (n : nat) (c : Call) : Z :=
  match rq_query (c_request c) !! "page" with
  | None => 1
  | Some s =>
      match List.find (fun p => String.eqb (Itoa p) s) (map Z.of_nat (seq 1 n)) with
      | Some p => p
      | None => 0
      end
  end.

(** A provider whose instance listing is split into [pages]. *)
Definition paged (pages : list (list LinodeInfo)) : Network :=
  fun _ c =>
    let p := requested_page (length pages) c in
    ok (DynInfoPage
          {| ip_Pages := Z.of_nat (length pages);
             ip_Results := Z.of_nat (length (concat pages));
             ip_Data := nth (Z.to_nat (p - 1)) pages [];
             ip_Page := p |}).

Definition is_call (method endpoint : string) (c : Call) : bool :=
  String.eqb (c_method c) method && String.eqb (c_endpoint c) endpoint.

(** An account with the given instances and scripts, both listed on one
    page; creating or rebuilding answers [created], and the k-th status
    poll of [created] answers the k-th entry of [polls]. *)
Definition account (instances : list LinodeInfo) (scripts : list StackScript)
    (created : LinodeInfo) (polls : list Reply) : Network :=
  fun h c =>
    if is_call "GET" "/linode/instances" c then
      ok (DynInfoPage {| ip_Pages := 1; ip_Results := Z.of_nat (length instances);
                         ip_Data := instances; ip_Page := 1 |})
    else if is_call "GET" "/linode/stackscripts" c then
      ok (DynScriptPage {| sp_Pages := 1; sp_Results := Z.of_nat (length scripts);
                           sp_Data := scripts; sp_Page := 1 |})
    else if String.eqb (c_method c) "POST" then
      ok (DynLinodeInfo created)
    else if is_call "GET" (instanceEndpoint (li_ID created)) c then
      nth (length (List.filter (is_call "GET" (instanceEndpoint (li_ID created))) h))
        polls (NetFail "connection refused")
    else if String.eqb (c_method c) "DELETE" then ok DynDummy
    else NetFail "no route".

Definition codec_ok : ProtoResponse -> option error := fun _ => None.

Definition status_value (s : string) : Z :=
  if String.eqb s "running" then 2 else 0.

Definition auth (token : string) : option LinodeAuth :=
  Some {| AccessToken := token |}.

Definition create_request (plan region : string)
    (wg : option WireguardOptions) (obfs4 : option ObfsproxyIPv4Options)
  : LinodeCreateTunnelRequest :=
  {| ct_Auth := auth "token"; ct_Plan := plan; ct_Region := region;
     ct_SshKeys := ["ssh-ed25519 AAAA"]; ct_RootPassword := "root-secret";
     ct_RegularAccountName := "user"; ct_RegularAccountPassword := "user-secret";
     ct_WireguardOptions := wg; ct_Obfsproxy4Options := obfs4;
     ct_Obfsproxy6Options := None |}.

Definition rebuild_request : LinodeRebuildTunnelRequest :=
  {| rt_Auth := auth "token";
     rt_SshKeys := ["ssh-ed25519 AAAA"]; rt_RootPassword := "root-secret";
     rt_RegularAccountName := "user"; rt_RegularAccountPassword := "user-secret";
     rt_WireguardOptions := None; rt_Obfsproxy4Options := None;
     rt_Obfsproxy6Options := None |}.

Definition tunnel := instance 7 "hp_instance" "running".
Definition web := instance 8 "web" "running".
Definition fresh := instance 9 "hp_instance" "provisioning".
Definition freedom_node := script 41 "freedom_node".
Definition other_script := script 42 "backup_hook".

Definition is_post (c : Call) : bool := String.eqb (c_method c) "POST".

End Scenario.

(** ** Vocabulary of the statements *)

Definition no_key_message : string :=
  "Attempted to perform authenticated request, but this LinodeAPI instance has no API key".

(** The auth field is absent, or its access token is the empty string. *)
Definition no_token (a : option LinodeAuth) : Prop :=
  a = None \/ exists x, a = Some x /\ AccessToken x = "".

Definition generic_error_text (method endpoint : string) : string :=
  "API error (" +:+ method +:+ " '" +:+ endpoint +:+ "'): No error object, details missing".

Definition flag (enabled : bool) : ParamValue := PInt (if enabled then 1 else 0).

(** The status poll issued by [QueryLinode]. *)
Definition poll_call (api : LinodeAPI) (id : Z) : Call :=
  {| c_method := "GET"; c_endpoint := instanceEndpoint id; c_request := clientR api |}.

(** The provider answers a poll with a snapshot of the instance. *)
Definition is_snapshot (reply : Reply) (inst : LinodeInfo) : Prop :=
  exists response,
    reply = NetResp response /\
    StatusCode response <= 299 /\
    RespResult response = DynLinodeInfo inst.

(** [n] polls that found the instance not running, each followed by the
    pause of one polling interval. *)
Fixpoint pending (q : Call) (n : nat) : Trace :=
  match n with
  | O => []
  | S n' => EvCall q :: EvSleep 7 :: pending q n'
  end.

(** [n] polls with one polling interval between two of them. *)
Fixpoint poll_timeline (q : Call) (n : nat) : list Event :=
  match n with
  | O => []
  | S n' =>
      EvCall q :: match n' with
                  | O => []
                  | S _ => EvSleep 7 :: poll_timeline q n'
                  end
  end.

Definition timeout_error : error := ErrNew "Instance took too long to come online".

(** The error of a call that failed below HTTP. *)
Definition transport_error (method endpoint cause : string) : error :=
  ErrWrap (ErrTransport cause) (method +:+ " request ('" +:+ endpoint +:+ "') failed").

(** The first [n] polls issued after the trace [t] are answered with
    snapshots of an instance that is not running. *)
Definition not_running_before (net : Network) (api : LinodeAPI) (id : Z)
    (t : Trace) (n : nat) : Prop :=
  forall j, (j < n)%nat ->
    exists inst,
      is_snapshot (net (calls_of t ++ repeat (poll_call api id) j) (poll_call api id)) inst /\
      li_Status inst <> LinodeStatusRunning.

(** The request the cursor sends for page [p]: the prepared request, with a
    [page] parameter from the second page on. *)
Definition page_request (r : Request) (p : nat) : Request :=
  match p with
  | O | S O => r
  | _ => SetQueryParam "page" (Itoa (Z.of_nat p)) r
  end.

(** The provider serves the listing of [endpoint] as [pages]: a call for
    page [p] is answered with the items of that page and the total number of
    pages. *)
Definition serves_pages (net : Network) (endpoint : string) (r : Request)
    (pages : list (list LinodeInfo)) : Prop :=
  forall h pre x more,
    pages = pre ++ x :: more ->
    exists response results,
      net h {| c_method := "GET"; c_endpoint := endpoint;
               c_request := page_request r (S (length pre)) |} = NetResp response /\
      StatusCode response <= 299 /\
      RespResult response =
        DynInfoPage {| ip_Pages := Z.of_nat (length pages); ip_Results := results;
                       ip_Data := x; ip_Page := Z.of_nat (S (length pre)) |}.

(** The calls of the role guard: pages of the instance listing. *)
Definition listing_call (endpoint : string) (c : Call) : Prop :=
  c_method c = "GET" /\ c_endpoint c = endpoint.

(** The events of the role guard: pages of the instance listing and log
    lines. *)
Definition guard_event (e : Event) : Prop :=
  match e with
  | EvCall c => listing_call "/linode/instances" c
  | EvLog _ _ => True
  | _ => False
  end.

(** The HTTP status the writer gives to an error response. *)
Definition error_status (err : error) : Z :=
  match err with
  | ErrLinode linodeErr =>
      if IsAuthError linodeErr then 401
      else if IsPermissionsError linodeErr then 403
      else 418
  | _ => 418
  end.

(** The builder [CreateTunnel] finalizes, and the rebuilder [RebuildTunnel]
    finalizes. *)
Definition configuredBuilder (p : protobufLinode) (api : LinodeAPI)
    (args : LinodeCreateTunnelRequest) (script : StackScript)
    (params : gmap string ParamValue) : LinodeInstanceBuilder :=
  Builder.SetStackscript (ss_ID script) [params]
    (Builder.SetRootPass (ct_RootPassword args)
       (Builder.SetBackupsEnabled false
          (Builder.SetBooted true
             (Builder.SetImage (instanceImage p)
                (Builder.SetAuthorizedKeys (ct_SshKeys args)
                   (Builder.SetLabel (instanceLabel p)
                      (NewInstanceBuilder api (ct_Region args) (ct_Plan args)))))))).

Definition configuredRebuilder (p : protobufLinode) (api : LinodeAPI)
    (tunnel : LinodeInfo) (args : LinodeRebuildTunnelRequest) (script : StackScript)
    (params : gmap string ParamValue) : LinodeInstanceRebuilder :=
  Rebuilder.SetStackscript (ss_ID script) [params]
    (Rebuilder.SetRootPass (rt_RootPassword args)
       (Rebuilder.SetImage (instanceImage p)
          (Rebuilder.SetBooted true
             (Rebuilder.SetAuthorizedKeys (rt_SshKeys args)
                (NewInstanceRebuilder api (li_ID tunnel)))))).

(** ** Vocabulary of the further properties *)

Definition has_role (name : string) (x : LinodeInfo) : bool :=
  HasPrefix (li_Label x) name.

Definition has_label (scriptName : string) (x : StackScript) : bool :=
  String.eqb (ss_Label x) scriptName.

(** The instance behind the pointer the role guard returns: with one
    variable per loop the last listed instance, provided some label matches;
    with one variable per iteration the first match. *)
Definition selectedTunnel (go : LoopVar) (name : string)
    (instances : list LinodeInfo) : option LinodeInfo :=
  match go with
  | PerLoop =>
      match List.filter (has_role name) instances with
      | [] => None
      | _ => last instances
      end
  | PerIteration => head (List.filter (has_role name) instances)
  end.

(** The script behind the pointer the parameter builder returns: with one
    variable per loop the last catalog entry, provided some label matches;
    with one variable per iteration the last match. *)
Definition selectedScript (go : LoopVar) (scriptName : string)
    (scripts : list StackScript) : option StackScript :=
  match go with
  | PerLoop =>
      match List.filter (has_label scriptName) scripts with
      | [] => None
      | _ => last scripts
      end
  | PerIteration => last (List.filter (has_label scriptName) scripts)
  end.

(** A reply on which [linodeSimpleExec] returns an error: the call failed
    below HTTP, or its status is above 299. *)
Definition failing_reply (reply : Reply) : Prop :=
  match reply with
  | NetFail _ => True
  | NetResp response => 299 < StatusCode response
  end.

(** The provider serves the pages [good] of a listing it announces as
    [total] pages long, and fails on the page after them. *)
Definition serves_then_fails (net : Network) (endpoint : string) (r : Request)
    (good : list (list LinodeInfo)) (total : Z) : Prop :=
  (forall h pre x more,
     good = pre ++ x :: more ->
     exists response results,
       net h {| c_method := "GET"; c_endpoint := endpoint;
                c_request := page_request r (S (length pre)) |} = NetResp response /\
       StatusCode response <= 299 /\
       RespResult response =
         DynInfoPage {| ip_Pages := total; ip_Results := results;
                        ip_Data := x; ip_Page := Z.of_nat (S (length pre)) |}) /\
  (forall h,
     failing_reply
       (net h {| c_method := "GET"; c_endpoint := endpoint;
                 c_request := page_request r (S (length good)) |})).

(** A provider that announces [total] pages, serves the pages [good] and
    fails below HTTP on every later page. *)
Definition flaky (good : list (list LinodeInfo)) (total : nat) (cause : string)
  : Network :=
  fun _ c =>
    let p := Scenario.requested_page total c in
    if Z.leb p (Z.of_nat (length good)) then
      Scenario.ok (DynInfoPage
                     {| ip_Pages := Z.of_nat total;
                        ip_Results := Z.of_nat (length (concat good));
                        ip_Data := nth (Z.to_nat (p - 1)) good [];
                        ip_Page := p |})
    else NetFail cause.

(** A provider whose instance listing never ends: every answer is an empty
    page that announces more pages than calls were made. *)
Definition endless : Network :=
  fun h _ =>
    Scenario.ok (DynInfoPage {| ip_Pages := Z.of_nat (length h) + 3; ip_Results := 0;
                                ip_Data := []; ip_Page := Z.of_nat (length h) + 1 |}).

(** Every answer of the provider announces more pages than the number of
    calls made so far plus two. *)
Definition announces_more (net : Network) : Prop :=
  forall h c,
    exists response page,
      net h c = NetResp response /\
      StatusCode response <= 299 /\
      RespResult response = DynInfoPage page /\
      Z.of_nat (length h) + 2 < ip_Pages page.

(** The text of one entry of a provider error. *)
Definition entry_text (e : ErrorEntry) : string :=
  if nonempty (Field e)
  then Reason e +:+ " (field '" +:+ Field e +:+ "')"
  else Reason e.

(** [yields Q R m]: from every trace, the computation [m] only adds events
    that satisfy [Q], and a value it returns satisfies [R]. *)
Definition yields {A} (Q : Event -> Prop) (R : A -> Prop) (m : M A) : Prop :=
  forall t,
    exists ext,
      snd (m t) = t ++ ext /\ Forall Q ext /\
      forall a, fst (m t) = Ret a -> R a.

Definition emits {A} (Q : Event -> Prop) (m : M A) : Prop :=
  yields Q (fun _ => True) m.

(** Only the calls of a trace are constrained, by [C]. *)
Definition calls_satisfy (C : Call -> Prop) (e : Event) : Prop :=
  match e with
  | EvCall c => C c
  | _ => True
  end.

(** The request is the prepared request [r0], with or without a [page]
    parameter. *)
Definition paged_from (r0 r : Request) : Prop :=
  r = r0 \/ exists v, r = SetQueryParam "page" v r0.

(** The request carries [token] as bearer credential and the user agent of
    the client. *)
Definition bearer (token : string) (r : Request) : Prop :=
  rq_token r = token /\ rq_headers r !! "User-Agent" = Some "linode_client".

(** The kinds of call the facade issues. *)
Definition scripts_listing (c : Call) : Prop :=
  c_method c = "GET" /\ c_endpoint c = "/linode/stackscripts" /\
  rq_headers (c_request c) !! "X-Filter" = Some mine_filter.

Definition status_poll (c : Call) : Prop :=
  c_method c = "GET" /\ exists id, c_endpoint c = instanceEndpoint id.

Definition instance_delete (c : Call) : Prop :=
  c_method c = "DELETE" /\ exists id, c_endpoint c = instanceEndpoint id.

(** The creation of the tunnel instance that [args] asks for. *)
Definition instance_create (p : protobufLinode) (args : LinodeCreateTunnelRequest)
    (c : Call) : Prop :=
  c_method c = "POST" /\ c_endpoint c = "/linode/instances" /\
  exists b,
    rq_body (c_request c) = BuilderBody b /\
    b_Region b = ct_Region args /\ b_Type b = ct_Plan args /\
    b_Label b = instanceLabel p /\ b_Image b = instanceImage p /\
    b_RootPass b = ct_RootPassword args /\
    b_AuthorizedKeys b = ct_SshKeys args /\
    b_Booted b = true /\ b_BackupsEnabled b = false /\
    b_StackscriptData b =
      stackScriptData (ct_RegularAccountName args) (ct_RegularAccountPassword args)
        (ct_WireguardOptions args) (ct_Obfsproxy4Options args)
        (ct_Obfsproxy6Options args).

(** The rebuild of an existing instance with what [args] asks for. *)
Definition instance_rebuild (p : protobufLinode) (args : LinodeRebuildTunnelRequest)
    (c : Call) : Prop :=
  c_method c = "POST" /\
  exists b,
    c_endpoint c = "/linode/instances/" +:+ Itoa (r_id b) +:+ "/rebuild" /\
    rq_body (c_request c) = RebuilderBody b /\
    r_Image b = instanceImage p /\
    r_RootPass b = rt_RootPassword args /\
    r_AuthorizedKeys b = rt_SshKeys args /\
    r_Booted b = true /\
    r_StackscriptData b =
      stackScriptData (rt_RegularAccountName args) (rt_RegularAccountPassword args)
        (rt_WireguardOptions args) (rt_Obfsproxy4Options args)
        (rt_Obfsproxy6Options args).

(** [m] only issues calls that carry [token] and are of a kind in [kinds]. *)
Definition only_calls {A} (token : string) (kinds : Call -> Prop) (m : M A) : Prop :=
  forall t,
    exists ext,
      snd (m t) = t ++ ext /\
      Forall (calls_satisfy (fun c => bearer token (c_request c) /\ kinds c)) ext.

(** ** Booting an instance (linode.go) *)

Definition BootInstance (net : Network) (e : LinodeAPI) (linodeID : Z)
  : M (option error) :=
  let endpoint := "/linode/instances/" +:+ Itoa linodeID +:+ "/boot" in
  do! r <- authedR e;
  do! result <- linodePOST net endpoint r;
  match ar_err result with
  | None => ret None
  | Some err => ret (Some (ErrWrap err "Unable to boot instance"))
  end.

(** The keys of the provisioning parameter map. *)
Definition account_keys : gset string :=
  {[ "udf_local_user_name"; "udf_local_user_password";
     "udf_enable_wireguard"; "udf_enable_obfs4"; "udf_enable_obfs6" ]}.

Definition wireguard_keys : gset string :=
  {[ "udf_wireguard_port"; "udf_wireguard_private_key"; "udf_wireguard_peer_keys" ]}.

Definition obfs4_keys : gset string := {[ "udf_obfs4_port"; "udf_obfs4_secret" ]}.

Definition obfs6_keys : gset string := {[ "udf_obfs6_port"; "udf_obfs6_secret" ]}.

Definition when {A} (o : option A) (keys : gset string) : gset string :=
  match o with
  | Some _ => keys
  | None => ∅
  end.

(** * Properties *)

(** ** The monad *)

Lemma bind_ret {A B} (a : A) (k : A -> M B) : bind (ret a) k = k a.
Proof. reflexivity. Qed.

Lemma bind_panic {A B} (msg : string) (k : A -> M B) : bind (panic msg) k = panic msg.
Proof. reflexivity. Qed.

Lemma bind_run {A B} (m : M A) (k : A -> M B) t a t' :
  m t = (Ret a, t') -> bind m k t = k a t'.
Proof. unfold bind. intros ->. reflexivity. Qed.

Lemma bind_run_panic {A B} (m : M A) (k : A -> M B) t msg t' :
  m t = (Panic msg, t') -> bind m k t = (Panic msg, t').
Proof. unfold bind. intros ->. reflexivity. Qed.

Lemma calls_of_app t1 t2 : calls_of (t1 ++ t2) = calls_of t1 ++ calls_of t2.
Proof. apply omap_app. Qed.

Lemma sleeps_of_app t1 t2 : sleeps_of (t1 ++ t2) = sleeps_of t1 ++ sleeps_of t2.
Proof. apply omap_app. Qed.

Lemma writes_of_app t1 t2 : writes_of (t1 ++ t2) = writes_of t1 ++ writes_of t2.
Proof. apply omap_app. Qed.

(** ** Authenticated requests *)

Lemma extractAuth_no_token a : no_token a -> extractAuth a = "".
Proof. intros [-> | (x & -> & Hx)]; [reflexivity | exact Hx]. Qed.

Lemma authedR_no_key e : apiKey e = "" -> authedR e = panic no_key_message.
Proof. unfold authedR. intros ->. reflexivity. Qed.

Lemma authedR_key e : nonempty (apiKey e) = true -> authedR e = ret (clientR e).
Proof. unfold authedR. intros ->. reflexivity. Qed.

Lemma ListLinodeInstances_no_key net fuel e :
  apiKey e = "" -> ListLinodeInstances net fuel e = panic no_key_message.
Proof.
  intros H. unfold ListLinodeInstances. rewrite (authedR_no_key _ H).
  apply bind_panic.
Qed.

Lemma ListStackScriptsPrivate_no_key net fuel e :
  apiKey e = "" -> ListStackScriptsPrivate net fuel e = panic no_key_message.
Proof.
  intros H. unfold ListStackScriptsPrivate. rewrite (authedR_no_key _ H).
  apply bind_panic.
Qed.

Lemma retrieveTunnelInstance_no_key net go fuel e name :
  apiKey e = "" -> retrieveTunnelInstance net go fuel e name = panic no_key_message.
Proof.
  intros H. unfold retrieveTunnelInstance.
  rewrite (ListLinodeInstances_no_key _ _ _ H). apply bind_panic.
Qed.

Lemma ensureTunnelExists_no_key net go fuel e name :
  apiKey e = "" -> ensureTunnelExists net go fuel e name = panic no_key_message.
Proof.
  intros H. unfold ensureTunnelExists.
  rewrite (retrieveTunnelInstance_no_key _ _ _ _ _ H). apply bind_panic.
Qed.

Lemma ensureTunnelDoesNotExist_no_key net go fuel e name :
  apiKey e = "" -> ensureTunnelDoesNotExist net go fuel e name = panic no_key_message.
Proof.
  intros H. unfold ensureTunnelDoesNotExist.
  rewrite (retrieveTunnelInstance_no_key _ _ _ _ _ H). apply bind_panic.
Qed.

(** C10. Each authenticated operation (create, rebuild, destroy, status,
    list-instances, list-scripts) called with a request whose auth field is
    absent or whose access token is empty panics when it builds its first
    authenticated provider request: the outcome is the panic of [authedR],
    and nothing was sent, slept or written before it. *)
Theorem authenticated_operations_panic_without_token :
  forall net codec status_value go fuel p t,
    (forall args, no_token (ct_Auth args) ->
       CreateTunnel net codec status_value go fuel p args t = (Panic no_key_message, t)) /\
    (forall args, no_token (rt_Auth args) ->
       RebuildTunnel net codec status_value go fuel p args t = (Panic no_key_message, t)) /\
    (forall args, no_token (dt_Auth args) ->
       DestroyTunnel net codec go fuel p args t = (Panic no_key_message, t)) /\
    (forall args, no_token (ts_Auth args) ->
       TunnelStatus net codec status_value go fuel p args t = (Panic no_key_message, t)) /\
    (forall args, no_token (lr_Auth args) ->
       ListInstances net codec status_value fuel p args t = (Panic no_key_message, t)) /\
    (forall args, no_token (ls_Auth args) ->
       ListStackScripts net codec fuel p args t = (Panic no_key_message, t)).
Proof.
  intros net codec sv go fuel p t.
  repeat split; intros args H%extractAuth_no_token.
  - unfold CreateTunnel.
    rewrite ensureTunnelDoesNotExist_no_key by exact H. reflexivity.
  - unfold RebuildTunnel.
    rewrite ensureTunnelExists_no_key by exact H. reflexivity.
  - unfold DestroyTunnel.
    rewrite ensureTunnelExists_no_key by exact H. reflexivity.
  - unfold TunnelStatus.
    rewrite ensureTunnelExists_no_key by exact H. reflexivity.
  - unfold ListInstances.
    rewrite ListLinodeInstances_no_key by exact H. reflexivity.
  - unfold ListStackScripts.
    rewrite ListStackScriptsPrivate_no_key by exact H. reflexivity.
Qed.

Lemma authenticated_operations_panic_without_token_witness :
  no_token (dt_Auth {| dt_Auth := None |}) /\
  DestroyTunnel (Scenario.account [Scenario.tunnel] [] Scenario.fresh [])
    Scenario.codec_ok PerLoop 4 newProtobufLinode {| dt_Auth := None |} []
  = (Panic no_key_message, []).
Proof.
  split.
  - left. reflexivity.
  - apply (authenticated_operations_panic_without_token
             (Scenario.account [Scenario.tunnel] [] Scenario.fresh [])
             Scenario.codec_ok Scenario.status_value PerLoop 4 newProtobufLinode []).
    left. reflexivity.
Defined.

(** ** Error classification *)




(** ** Provisioning parameters *)

Lemma stackScriptData_account username password wg obfs4 obfs6 :
  let params := stackScriptData username password wg obfs4 obfs6 in
  params !! "udf_local_user_name" = Some (PStr username) /\
  params !! "udf_local_user_password" = Some (PStr password).
Proof. destruct wg, obfs4, obfs6; split; vm_compute; reflexivity. Qed.

Lemma stackScriptData_wireguard username password wg obfs4 obfs6 :
  let params := stackScriptData username password wg obfs4 obfs6 in
  params !! "udf_enable_wireguard" = Some (flag (bool_decide (is_Some wg))) /\
  params !! "udf_wireguard_port" = (fun w => PInt (wg_Port w)) <$> wg /\
  params !! "udf_wireguard_private_key" = (fun w => PStr (wg_ServerKey w)) <$> wg /\
  params !! "udf_wireguard_peer_keys" = (fun w => PStr (Join (wg_PeerKeys w) " ")) <$> wg.
Proof.
  destruct wg, obfs4, obfs6; repeat split;
    cbn [fmap option_fmap option_map]; vm_compute; reflexivity.
Qed.

Lemma stackScriptData_obfs4 username password wg obfs4 obfs6 :
  let params := stackScriptData username password wg obfs4 obfs6 in
  params !! "udf_enable_obfs4" = Some (flag (bool_decide (is_Some obfs4))) /\
  params !! "udf_obfs4_port" = (fun o => PInt (o4_Port o)) <$> obfs4 /\
  params !! "udf_obfs4_secret" = (fun o => PStr (o4_Secret o)) <$> obfs4.
Proof.
  destruct wg, obfs4, obfs6; repeat split;
    cbn [fmap option_fmap option_map]; vm_compute; reflexivity.
Qed.

Lemma stackScriptData_obfs6 username password wg obfs4 obfs6 :
  let params := stackScriptData username password wg obfs4 obfs6 in
  params !! "udf_enable_obfs6" = Some (flag (bool_decide (is_Some obfs6))) /\
  params !! "udf_obfs6_port" = (fun o => PInt (o6_Port o)) <$> obfs6 /\
  params !! "udf_obfs6_secret" = (fun o => PStr (o6_Secret o)) <$> obfs6.
Proof.
  destruct wg, obfs4, obfs6; repeat split;
    cbn [fmap option_fmap option_map]; vm_compute; reflexivity.
Qed.

Lemma makeStackScriptParams_produces net go fuel api scriptName username password
    wg obfs4 obfs6 t script params t' :
  makeStackScriptParams net go fuel api scriptName username password wg obfs4 obfs6 t
    = (Ret (script, params, None), t') ->
  params = stackScriptData username password wg obfs4 obfs6.
Proof.
  unfold makeStackScriptParams, bind.
  destruct (ListStackScriptsPrivate net fuel api t) as [[[scripts [err|]]| |] t1];
    cbn; try discriminate.
  destruct (findScript go scriptName scripts 0 ∅ None) as [store [s|]];
    cbn; try discriminate.
  intros [= _ <- _]. reflexivity.
Qed.

(** C9. Whenever the provisioning parameter builder produces a parameter
    map, the map holds the account user name and password and, for each of
    wireguard, obfs4 and obfs6, an enable flag that is 1 when the options
    are present and 0 otherwise; the fields of a feature (port, key or
    secret, peer keys joined by single spaces) are present exactly when its
    options are. With wireguard absent and obfs4 present this gives
    [udf_enable_wireguard = 0] without wireguard fields and
    [udf_enable_obfs4 = 1] with its port and secret. *)
Theorem makeStackScriptParams_parameter_map :
  forall net go fuel api scriptName username password wg obfs4 obfs6 t script params t',
    makeStackScriptParams net go fuel api scriptName username password wg obfs4 obfs6 t
      = (Ret (script, params, None), t') ->
    (params !! "udf_local_user_name" = Some (PStr username) /\
     params !! "udf_local_user_password" = Some (PStr password)) /\
    (params !! "udf_enable_wireguard" = Some (flag (bool_decide (is_Some wg))) /\
     params !! "udf_wireguard_port" = (fun w => PInt (wg_Port w)) <$> wg /\
     params !! "udf_wireguard_private_key" = (fun w => PStr (wg_ServerKey w)) <$> wg /\
     params !! "udf_wireguard_peer_keys"
       = (fun w => PStr (Join (wg_PeerKeys w) " ")) <$> wg) /\
    (params !! "udf_enable_obfs4" = Some (flag (bool_decide (is_Some obfs4))) /\
     params !! "udf_obfs4_port" = (fun o => PInt (o4_Port o)) <$> obfs4 /\
     params !! "udf_obfs4_secret" = (fun o => PStr (o4_Secret o)) <$> obfs4) /\
    (params !! "udf_enable_obfs6" = Some (flag (bool_decide (is_Some obfs6))) /\
     params !! "udf_obfs6_port" = (fun o => PInt (o6_Port o)) <$> obfs6 /\
     params !! "udf_obfs6_secret" = (fun o => PStr (o6_Secret o)) <$> obfs6) /\
    (forall o, wg = None -> obfs4 = Some o ->
       params !! "udf_enable_wireguard" = Some (PInt 0) /\
       params !! "udf_wireguard_port" = None /\
       params !! "udf_wireguard_private_key" = None /\
       params !! "udf_wireguard_peer_keys" = None /\
       params !! "udf_enable_obfs4" = Some (PInt 1) /\
       params !! "udf_obfs4_port" = Some (PInt (o4_Port o)) /\
       params !! "udf_obfs4_secret" = Some (PStr (o4_Secret o))).
Proof.
  intros net go fuel api scriptName username password wg obfs4 obfs6 t
    script params t' H.
  apply makeStackScriptParams_produces in H. subst params.
  pose proof (stackScriptData_wireguard username password wg obfs4 obfs6) as Hwg.
  pose proof (stackScriptData_obfs4 username password wg obfs4 obfs6) as Ho4.
  cbv zeta in Hwg, Ho4.
  split; [apply stackScriptData_account |].
  split; [exact Hwg |].
  split; [exact Ho4 |].
  split; [apply stackScriptData_obfs6 |].
  intros o -> ->.
  destruct Hwg as (? & ? & ? & ?). destruct Ho4 as (? & ? & ?).
  repeat split; assumption.
Qed.

Lemma makeStackScriptParams_parameter_map_witness :
  let net := Scenario.account [] [Scenario.freedom_node] Scenario.fresh [] in
  let obfs4 := {| o4_Port := 443; o4_Secret := "s3cret" |} in
  exists script params t',
    makeStackScriptParams net PerLoop 2 (NewLinodeAPI "token") "freedom_node"
      "user" "user-secret" None (Some obfs4) None [] = (Ret (script, params, None), t') /\
    params !! "udf_enable_wireguard" = Some (PInt 0) /\
    params !! "udf_wireguard_port" = None /\
    params !! "udf_enable_obfs4" = Some (PInt 1) /\
    params !! "udf_obfs4_port" = Some (PInt 443) /\
    params !! "udf_obfs4_secret" = Some (PStr "s3cret").
Proof.
  intros net obfs4.
  destruct (makeStackScriptParams net PerLoop 2 (NewLinodeAPI "token") "freedom_node"
              "user" "user-secret" None (Some obfs4) None [])
    as [[[[script params] [err|]]| |] t'] eqn:E;
    try (exfalso; vm_compute in E; discriminate E).
  exists script, params, t'. split; [reflexivity |].
  destruct (makeStackScriptParams_parameter_map _ _ _ _ _ _ _ _ _ _ _ _ _ _ E)
    as (_ & _ & _ & _ & H).
  destruct (H obfs4 eq_refl eq_refl) as (H1 & H2 & _ & _ & H5 & H6 & H7).
  repeat split; assumption.
Defined.

(** ** Status polls *)

Section Polls.

Variable net : Network.
Variable api : LinodeAPI.
Variable id : Z.
Hypothesis Hkey : nonempty (apiKey api) = true.

Let q := poll_call api id.

Ltac query_step t :=
  unfold QueryLinode; rewrite (authedR_key _ Hkey), bind_ret;
  unfold linodeGET, linodeSimpleExec;
  cbn [known_method existsb String.eqb Ascii.eqb Bool.eqb orb];
  unfold bind at 1; unfold bind at 1; unfold execRequest;
  fold (poll_call api id); fold q.

Lemma QueryLinode_total t :
  exists res, QueryLinode net api id t = (Ret res, t ++ [EvCall q]).
Proof.
  query_step t.
  destruct (net (calls_of t) q) as [cause | response].
  - eexists. reflexivity.
  - destruct (Z.gtb (StatusCode response) 299).
    + eexists. reflexivity.
    + cbn. destruct (RespResult response); eexists; reflexivity.
Qed.

Lemma QueryLinode_snapshot t inst :
  is_snapshot (net (calls_of t) q) inst ->
  QueryLinode net api id t = (Ret (Some inst, None), t ++ [EvCall q]).
Proof.
  intros (response & Hr & Hst & Hres). query_step t. rewrite Hr.
  assert (Hle : Z.gtb (StatusCode response) 299 = false).
  { destruct (Z.gtb_spec (StatusCode response) 299); [lia | reflexivity]. }
  rewrite Hle. cbn. rewrite Hres. reflexivity.
Qed.

Lemma QueryLinode_transport_failure t cause :
  net (calls_of t) q = NetFail cause ->
  QueryLinode net api id t
    = (Ret (None, Some (transport_error "GET" (instanceEndpoint id) cause)),
       t ++ [EvCall q]).
Proof. intros Hr. query_step t. rewrite Hr. reflexivity. Qed.

Lemma QueryLinode_value t x t' :
  QueryLinode net api id t = (Ret (x, None), t') -> exists inst, x = Some inst.
Proof.
  query_step t.
  destruct (net (calls_of t) q) as [cause | response]; [discriminate |].
  destruct (Z.gtb (StatusCode response) 299); [discriminate |].
  cbn. destruct (RespResult response); intros [= <- _]; eauto; discriminate.
Qed.

(** No error of a status poll is the timeout error of the poller. *)
Lemma QueryLinode_error_not_timeout t x e t' :
  QueryLinode net api id t = (Ret (x, Some e), t') -> e <> timeout_error.
Proof.
  query_step t.
  destruct (net (calls_of t) q) as [cause | response].
  - intros [= _ <- _]. discriminate.
  - destruct (Z.gtb (StatusCode response) 299).
    + cbn. destruct (RespError response) as [[le | text] |];
        intros [= _ <- _]; discriminate.
    + cbn. destruct (RespResult response); intros [= _ <- _]; discriminate.
Qed.

Lemma wrap64_small z : - 2 ^ 63 <= z < 2 ^ 63 -> wrap64 z = z.
Proof.
  intros H. unfold wrap64. rewrite Z.mod_small; lia.
Qed.

Lemma calls_of_pending n : calls_of (pending q n) = repeat q n.
Proof. induction n; [reflexivity | cbn; f_equal; exact IHn]. Qed.

(** One turn of the loop on a snapshot that is not running yet. *)
Lemma await_loop_not_running fuel attempt t inst :
  is_snapshot (net (calls_of t) q) inst ->
  li_Status inst <> LinodeStatusRunning ->
  0 <= attempt -> attempt + 1 < 20 ->
  awaitUntilRunning_loop net (S fuel) api id attempt 20 7 t
    = awaitUntilRunning_loop net fuel api id (attempt + 1) 20 7
        (t ++ [EvCall q; EvSleep 7]).
Proof.
  intros Hs Hst H0 H1. cbn [awaitUntilRunning_loop].
  rewrite (bind_run _ _ _ _ _ (QueryLinode_snapshot t inst Hs)).
  apply String.eqb_neq in Hst. rewrite Hst.
  rewrite wrap64_small by lia.
  assert (Hge : Z.geb (attempt + 1) 20 = false).
  { destruct (Z.geb_spec (attempt + 1) 20); [lia | reflexivity]. }
  rewrite Hge. unfold bind, Sleep, emit.
  rewrite <- app_assoc. reflexivity.
Qed.

Lemma await_loop_pending n :
  forall fuel attempt t,
    (forall j, (j < n)%nat ->
       exists inst,
         is_snapshot (net (calls_of t ++ repeat q j) q) inst /\
         li_Status inst <> LinodeStatusRunning) ->
    0 <= attempt -> attempt + Z.of_nat n < 20 -> (n <= fuel)%nat ->
    awaitUntilRunning_loop net fuel api id attempt 20 7 t
      = awaitUntilRunning_loop net (fuel - n) api id (attempt + Z.of_nat n) 20 7
          (t ++ pending q n).
Proof.
  induction n as [| n IH]; intros fuel attempt t Hpolls H0 H1 Hfuel.
  - rewrite Nat.sub_0_r, Z.add_0_r, app_nil_r. reflexivity.
  - destruct fuel as [| fuel]; [lia |].
    destruct (Hpolls 0%nat ltac:(lia)) as (inst & Hs & Hst).
    cbn [repeat] in Hs. rewrite app_nil_r in Hs.
    rewrite (await_loop_not_running fuel attempt t inst Hs Hst) by lia.
    rewrite IH; [| | lia | lia | lia].
    + cbn [pending Nat.sub]. rewrite <- app_assoc.
      replace (attempt + 1 + Z.of_nat n) with (attempt + Z.of_nat (S n)) by lia.
      reflexivity.
    + intros j Hj. destruct (Hpolls (S j) ltac:(lia)) as (i & Hi & Hne).
      exists i. split; [| exact Hne].
      rewrite calls_of_app. cbn [calls_of omap]. rewrite <- app_assoc.
      exact Hi.
Qed.

Lemma await_loop_running fuel attempt t inst :
  is_snapshot (net (calls_of t) q) inst ->
  li_Status inst = LinodeStatusRunning ->
  awaitUntilRunning_loop net (S fuel) api id attempt 20 7 t
    = (Ret (Some inst, None), t ++ [EvCall q]).
Proof.
  intros Hs Hst. cbn [awaitUntilRunning_loop].
  rewrite (bind_run _ _ _ _ _ (QueryLinode_snapshot t inst Hs)).
  apply String.eqb_eq in Hst. rewrite Hst. reflexivity.
Qed.

Lemma await_loop_exhausted fuel t inst :
  is_snapshot (net (calls_of t) q) inst ->
  li_Status inst <> LinodeStatusRunning ->
  awaitUntilRunning_loop net (S fuel) api id 19 20 7 t
    = (Ret (None, Some timeout_error),
       t ++ [EvCall q; EvLog "warning" "Instance took too long to come online"]).
Proof.
  intros Hs Hst. cbn [awaitUntilRunning_loop].
  rewrite (bind_run _ _ _ _ _ (QueryLinode_snapshot t inst Hs)).
  apply String.eqb_neq in Hst. rewrite Hst.
  change (wrap64 (19 + 1)) with 20. change (Z.geb 20 20) with true.
  unfold bind, logAt, emit, ret. rewrite <- app_assoc. reflexivity.
Qed.

Lemma await_loop_transport_failure fuel attempt t cause :
  net (calls_of t) q = NetFail cause ->
  awaitUntilRunning_loop net (S fuel) api id attempt 20 7 t
    = (Ret (None, Some (transport_error "GET" (instanceEndpoint id) cause)),
       t ++ [EvCall q;
             EvLog "error" "Couldn't retrieve status of Linode instance"]).
Proof.
  intros Hr. cbn [awaitUntilRunning_loop].
  rewrite (bind_run _ _ _ _ _ (QueryLinode_transport_failure t cause Hr)).
  unfold bind, logError, logAt, emit, ret. rewrite <- app_assoc. reflexivity.
Qed.

Lemma awaitUntilRunning_start fuel t :
  awaitUntilRunning net fuel api id t
    = awaitUntilRunning_loop net fuel api id 0 20 7 (t ++ [EvSleep 14]).
Proof. reflexivity. Qed.

Lemma calls_of_grace t : calls_of (t ++ [EvSleep 14]) = calls_of t.
Proof. rewrite calls_of_app. cbn. apply app_nil_r. Qed.

Lemma awaitUntilRunning_running_at k fuel t inst :
  (k < 20)%nat -> (k < fuel)%nat ->
  not_running_before net api id t k ->
  is_snapshot (net (calls_of t ++ repeat q k) q) inst ->
  li_Status inst = LinodeStatusRunning ->
  awaitUntilRunning net fuel api id t
    = (Ret (Some inst, None), t ++ EvSleep 14 :: pending q k ++ [EvCall q]).
Proof.
  intros Hk Hfuel Hpolls Hs Hst. rewrite awaitUntilRunning_start.
  rewrite (await_loop_pending k); [| | lia | lia | lia].
  - destruct (fuel - k)%nat as [| f] eqn:E; [lia |].
    rewrite (await_loop_running f _ _ inst).
    + rewrite <- !app_assoc. reflexivity.
    + rewrite calls_of_app, calls_of_grace, calls_of_pending. exact Hs.
    + exact Hst.
  - intros j Hj. rewrite calls_of_grace. apply Hpolls. exact Hj.
Qed.

Lemma awaitUntilRunning_exhausted fuel t :
  (20 <= fuel)%nat ->
  not_running_before net api id t 20 ->
  awaitUntilRunning net fuel api id t
    = (Ret (None, Some timeout_error),
       t ++ EvSleep 14 :: pending q 19
         ++ [EvCall q; EvLog "warning" "Instance took too long to come online"]).
Proof.
  intros Hfuel Hpolls. rewrite awaitUntilRunning_start.
  rewrite (await_loop_pending 19); [| | lia | lia | lia].
  - destruct (fuel - 19)%nat as [| f] eqn:E; [lia |].
    destruct (Hpolls 19%nat ltac:(lia)) as (inst & Hs & Hst).
    change (0 + Z.of_nat 19) with 19.
    rewrite (await_loop_exhausted f _ inst).
    + rewrite <- !app_assoc. reflexivity.
    + rewrite calls_of_app, calls_of_grace, calls_of_pending. exact Hs.
    + exact Hst.
  - intros j Hj. rewrite calls_of_grace. apply Hpolls. lia.
Qed.

Lemma awaitUntilRunning_transport_failure_at k fuel t cause :
  (k < 20)%nat -> (k < fuel)%nat ->
  not_running_before net api id t k ->
  net (calls_of t ++ repeat q k) q = NetFail cause ->
  awaitUntilRunning net fuel api id t
    = (Ret (None, Some (transport_error "GET" (instanceEndpoint id) cause)),
       t ++ EvSleep 14 :: pending q k
         ++ [EvCall q; EvLog "error" "Couldn't retrieve status of Linode instance"]).
Proof.
  intros Hk Hfuel Hpolls Hr. rewrite awaitUntilRunning_start.
  rewrite (await_loop_pending k); [| | lia | lia | lia].
  - destruct (fuel - k)%nat as [| f] eqn:E; [lia |].
    rewrite (await_loop_transport_failure f _ _ cause).
    + rewrite <- !app_assoc. reflexivity.
    + rewrite calls_of_app, calls_of_grace, calls_of_pending. exact Hr.
  - intros j Hj. rewrite calls_of_grace. apply Hpolls. exact Hj.
Qed.

Lemma timeline_of_app t1 t2 : timeline_of (t1 ++ t2) = timeline_of t1 ++ timeline_of t2.
Proof. apply List.filter_app. Qed.

(** Whatever the provider answers, the loop ends within its attempt budget,
    and its polls are one polling interval apart. *)
Lemma await_loop_bounded fuel :
  forall attempt t,
    0 <= attempt < 20 -> (Z.to_nat (20 - attempt) <= fuel)%nat ->
    exists o t' n,
      awaitUntilRunning_loop net fuel api id attempt 20 7 t = (o, t') /\
      o <> OutOfFuel /\
      (1 <= n)%nat /\ Z.of_nat n <= 20 - attempt /\
      timeline_of t' = timeline_of t ++ poll_timeline q n.
Proof.
  induction fuel as [| fuel IH]; intros attempt t Hatt Hfuel; [lia |].
  cbn [awaitUntilRunning_loop].
  destruct (QueryLinode_total t) as ([x [e |]] & Hq);
    rewrite (bind_run _ _ _ _ _ Hq).
  - eexists _, _, 1%nat. split; [reflexivity |].
    split; [discriminate |]. split; [lia |]. split; [lia |].
    rewrite !timeline_of_app. cbn. rewrite app_nil_r. reflexivity.
  - destruct (QueryLinode_value _ _ _ Hq) as (inst & ->).
    destruct (String.eqb (li_Status inst) LinodeStatusRunning).
    + eexists _, _, 1%nat. split; [reflexivity |].
      split; [discriminate |]. split; [lia |]. split; [lia |].
      rewrite !timeline_of_app. reflexivity.
    + rewrite wrap64_small by lia.
      destruct (Z.geb_spec (attempt + 1) 20) as [Hge | Hlt].
      * eexists _, _, 1%nat. split; [reflexivity |].
        split; [discriminate |]. split; [lia |]. split; [lia |].
        rewrite !timeline_of_app. cbn. rewrite app_nil_r. reflexivity.
      * unfold bind at 1. unfold Sleep, emit.
        destruct (IH (attempt + 1) ((t ++ [EvCall q]) ++ [EvSleep 7])
                    ltac:(lia) ltac:(lia)) as (o & t' & n & Hrun & Ho & Hn & Hb & Ht).
        exists o, t', (S n). split; [exact Hrun |].
        split; [exact Ho |]. split; [lia |]. split; [lia |].
        rewrite Ht, !timeline_of_app. cbn [poll_timeline].
        destruct n as [| n']; [lia |].
        rewrite <- !app_assoc. reflexivity.
Qed.

Lemma awaitUntilRunning_bounded fuel t :
  (20 <= fuel)%nat ->
  exists o t' n,
    awaitUntilRunning net fuel api id t = (o, t') /\
    o <> OutOfFuel /\
    (1 <= n <= 20)%nat /\
    timeline_of t' = timeline_of t ++ EvSleep (2 * 7) :: poll_timeline q n.
Proof.
  intros Hfuel. rewrite awaitUntilRunning_start.
  destruct (await_loop_bounded fuel 0 (t ++ [EvSleep 14]) ltac:(lia) ltac:(lia))
    as (o & t' & n & Hrun & Ho & Hn & Hb & Ht).
  exists o, t', n. split; [exact Hrun |]. split; [exact Ho |].
  split; [lia |]. rewrite Ht, timeline_of_app, <- app_assoc. reflexivity.
Qed.

End Polls.

(** C6. The convergence poller first waits two polling intervals
    (2 x 7 seconds), then polls with 7 seconds between two polls, at most 20
    times, and always returns. Answered with the statuses provisioning,
    provisioning, running it returns the running snapshot after exactly 3
    polls; answered 20 times with a status other than running it returns the
    timeout error after exactly 20 polls, and that error is none of the
    errors a status poll, transport errors included, can return. *)
Theorem awaitUntilRunning_convergence :
  forall net api id fuel t,
    nonempty (apiKey api) = true -> (20 <= fuel)%nat ->
    let q := poll_call api id in
    (exists o t' n,
       awaitUntilRunning net fuel api id t = (o, t') /\
       o <> OutOfFuel /\
       (1 <= n <= 20)%nat /\
       timeline_of t' = timeline_of t ++ EvSleep (2 * 7) :: poll_timeline q n) /\
    (forall i1 i2 i3,
       is_snapshot (net (calls_of t) q) i1 ->
       li_Status i1 = LinodeStatusProvisioning ->
       is_snapshot (net (calls_of t ++ [q]) q) i2 ->
       li_Status i2 = LinodeStatusProvisioning ->
       is_snapshot (net (calls_of t ++ [q; q]) q) i3 ->
       li_Status i3 = LinodeStatusRunning ->
       awaitUntilRunning net fuel api id t
         = (Ret (Some i3, None),
            t ++ [EvSleep 14; EvCall q; EvSleep 7; EvCall q; EvSleep 7; EvCall q])) /\
    (not_running_before net api id t 20 ->
       exists t',
         awaitUntilRunning net fuel api id t = (Ret (None, Some timeout_error), t') /\
         calls_of t' = calls_of t ++ repeat q 20 /\
         sleeps_of t' = sleeps_of t ++ 14 :: repeat 7 19) /\
    (forall t0 x e t1,
       QueryLinode net api id t0 = (Ret (x, Some e), t1) -> e <> timeout_error) /\
    (forall method endpoint cause,
       transport_error method endpoint cause <> timeout_error).
Proof.
  intros net api id fuel t Hkey Hfuel q.
  split; [exact (awaitUntilRunning_bounded net api id Hkey fuel t Hfuel) |].
  split; [| split; [| split]].
  - intros i1 i2 i3 H1 S1 H2 S2 H3 S3.
    rewrite (awaitUntilRunning_running_at net api id Hkey 2 fuel t i3);
      [reflexivity | lia | lia | | exact H3 | exact S3].
    intros j Hj.
    destruct j as [| [| j]]; [exists i1 | exists i2 | lia];
      (split; [| rewrite ?S1, ?S2; discriminate]).
    + cbn [repeat]. rewrite app_nil_r. exact H1.
    + exact H2.
  - intros Hpolls.
    rewrite (awaitUntilRunning_exhausted net api id Hkey fuel t Hfuel Hpolls).
    eexists. split; [reflexivity |]. split.
    + rewrite calls_of_app. f_equal.
    + rewrite sleeps_of_app. f_equal.
  - intros t0 x e t1. apply (QueryLinode_error_not_timeout net api id Hkey).
  - intros method endpoint cause. discriminate.
Qed.

Lemma awaitUntilRunning_convergence_witness :
  let provisioning := Scenario.instance 9 "hp_instance" "provisioning" in
  let running := Scenario.instance 9 "hp_instance" "running" in
  let net :=
    Scenario.account [] [] Scenario.fresh
      [Scenario.ok (DynLinodeInfo provisioning);
       Scenario.ok (DynLinodeInfo provisioning);
       Scenario.ok (DynLinodeInfo running)] in
  let q := poll_call (NewLinodeAPI "token") 9 in
  awaitUntilRunning net 20 (NewLinodeAPI "token") 9 []
    = (Ret (Some running, None),
       [] ++ [EvSleep 14; EvCall q; EvSleep 7; EvCall q; EvSleep 7; EvCall q]).
Proof.
  intros provisioning running net q.
  assert (Hkey : nonempty (apiKey (NewLinodeAPI "token")) = true) by reflexivity.
  assert (Hfuel : (20 <= 20)%nat) by lia.
  destruct (awaitUntilRunning_convergence net (NewLinodeAPI "token") 9 20 [] Hkey Hfuel)
    as (_ & H & _).
  apply (H provisioning provisioning running);
    try reflexivity;
    (eexists; split; [vm_compute; reflexivity | split; [simpl; lia | reflexivity]]).
Defined.

(** ** Pagination *)

Lemma SetQueryParam_again k v v' r :
  SetQueryParam k v (SetQueryParam k v' r) = SetQueryParam k v r.
Proof.
  unfold SetQueryParam. cbn. f_equal. apply insert_insert_eq.
Qed.

(** The request held by the cursor before it fetches page [p]. *)
Lemma page_request_step r p :
  (1 <= p)%nat ->
  (if Z.gtb (Z.of_nat p) 1
   then SetQueryParam "page" (Itoa (Z.of_nat p)) (page_request r (p - 1))
   else page_request r (p - 1)) = page_request r p.
Proof.
  intros Hp. destruct p as [| [| [| p]]]; try lia; try reflexivity.
  assert (H : Z.gtb (Z.of_nat (S (S (S p)))) 1 = true) by (apply Z.gtb_lt; lia).
  rewrite H. replace (S (S (S p)) - 1)%nat with (S (S p)) by lia.
  unfold page_request. apply SetQueryParam_again.
Qed.

Lemma next_page net endpoint r p t response count items :
  (1 <= p)%nat -> Z.of_nat p < 2 ^ 63 - 1 ->
  net (calls_of t) {| c_method := "GET"; c_endpoint := endpoint;
                      c_request := page_request r p |} = NetResp response ->
  StatusCode response <= 299 ->
  as_paginatedResult (RespResult response) = Some (count, items) ->
  next net {| it_request := page_request r (p - 1); it_endpoint := endpoint;
              it_page := Z.of_nat p |} t
    = (Ret ({| it_request := page_request r p; it_endpoint := endpoint;
               it_page := Z.of_nat (S p) |},
            ({| ar_data := items; ar_err := None; ar_response := Some response |},
             Z.ltb (Z.of_nat (S p)) count)),
       t ++ [EvCall {| c_method := "GET"; c_endpoint := endpoint;
                       c_request := page_request r p |}]).
Proof.
  intros Hp Hbound Hnet Hst Hpage.
  pose proof (page_request_step r p Hp) as Hreq.
  assert (Hle : Z.gtb (StatusCode response) 299 = false)
    by (destruct (Z.gtb_spec (StatusCode response) 299); [lia | reflexivity]).
  unfold next. cbn [it_page it_request it_endpoint].
  destruct (Z.gtb (Z.of_nat p) 1); cbn [it_page it_request it_endpoint];
    rewrite Hreq;
    unfold linodeSimpleExec;
    cbn [known_method existsb String.eqb Ascii.eqb Bool.eqb orb];
    unfold bind, execRequest;
    rewrite Hnet, Hle; cbn; rewrite Hpage;
    rewrite wrap64_small by lia;
    replace (Z.of_nat p + 1) with (Z.of_nat (S p)) by lia;
    reflexivity.
Qed.

Section Listing.

Variable net : Network.
Variable endpoint : string.
Variable r : Request.
Variable pages : list (list LinodeInfo).
Hypothesis Hserves : serves_pages net endpoint r pages.
Hypothesis Hbound : Z.of_nat (length pages) < 2 ^ 63 - 1.

(** The cursor at page [p], before it fetches it. *)
Let cursor (p : nat) : pageIterator :=
  {| it_request := page_request r (p - 1); it_endpoint := endpoint;
     it_page := Z.of_nat p |}.

Lemma next_served pre x more t :
  pages = pre ++ x :: more ->
  exists item,
    next net (cursor (S (length pre))) t
      = (Ret (cursor (S (S (length pre))),
              (item, Z.ltb (Z.of_nat (S (S (length pre)))) (Z.of_nat (length pages)))),
         t ++ [EvCall {| c_method := "GET"; c_endpoint := endpoint;
                         c_request := page_request r (S (length pre)) |}]) /\
    ar_err item = None /\ ar_data item = DynInfoList x.
Proof.
  intros Hsplit.
  destruct (Hserves (calls_of t) pre x more Hsplit)
    as (response & results & Hnet & Hst & Hres).
  assert (Hlen : (length pages = length pre + S (length more))%nat).
  { rewrite Hsplit, length_app. reflexivity. }
  eexists. split.
  - unfold cursor. replace (S (S (length pre)) - 1)%nat with (S (length pre)) by lia.
    apply (next_page net endpoint r (S (length pre)) t response
             (Z.of_nat (length pages)) (DynInfoList x)); try lia; try assumption.
    rewrite Hres. reflexivity.
  - split; reflexivity.
Qed.

Lemma ListLinodeInstances_loop_served more :
  forall pre x items t fuel,
    pages = pre ++ x :: more ->
    (length (removelast more) < fuel)%nat ->
    exists t',
      ListLinodeInstances_loop net fuel endpoint (cursor (S (length pre))) items t
        = (Ret (items ++ concat (x :: removelast more), None), t') /\
      length (calls_of t') = (length (calls_of t) + S (length (removelast more)))%nat.
Proof.
  induction more as [| y more IH]; intros pre x items t fuel Hsplit Hfuel;
    (destruct fuel as [| fuel]; [lia |]);
    destruct (next_served pre x _ t Hsplit) as (item & Hnext & Herr & Hdata);
    cbn [ListLinodeInstances_loop];
    rewrite (bind_run _ _ _ _ _ Hnext); rewrite Herr, Hdata;
    assert (Hlen : (length pages = length pre + S (length (A:=list LinodeInfo) _))%nat)
      by (rewrite Hsplit, length_app; reflexivity).
  - assert (Hlast : Z.ltb (Z.of_nat (S (S (length pre)))) (Z.of_nat (length pages)) = false).
    { apply Z.ltb_ge. cbn [length] in Hlen. lia. }
    rewrite Hlast. cbn [negb removelast concat]. rewrite app_nil_r.
    eexists. split; [reflexivity |].
    rewrite calls_of_app. cbn. rewrite length_app. reflexivity.
  - destruct more as [| z more].
    + assert (Hlast : Z.ltb (Z.of_nat (S (S (length pre)))) (Z.of_nat (length pages)) = false).
      { apply Z.ltb_ge. cbn [length] in Hlen. lia. }
      rewrite Hlast. cbn [negb removelast concat]. rewrite app_nil_r.
      eexists. split; [reflexivity |].
      rewrite calls_of_app. cbn. rewrite length_app. reflexivity.
    + assert (Hmore : Z.ltb (Z.of_nat (S (S (length pre)))) (Z.of_nat (length pages)) = true).
      { apply Z.ltb_lt. cbn [length] in Hlen. lia. }
      rewrite Hmore. cbn [negb].
      assert (Hsplit' : pages = (pre ++ [x]) ++ y :: z :: more).
      { rewrite <- app_assoc. exact Hsplit. }
      assert (Hpre : length (pre ++ [x]) = S (length pre)).
      { rewrite length_app. cbn. lia. }
      destruct (IH (pre ++ [x]) y (items ++ x)
                  (t ++ [EvCall {| c_method := "GET"; c_endpoint := endpoint;
                                   c_request := page_request r (S (length pre)) |}])
                  fuel Hsplit') as (t' & Hrun & Hcalls).
      { cbn [removelast length] in Hfuel |- *. lia. }
      rewrite Hpre in Hrun. exists t'. split.
      * rewrite Hrun. f_equal. f_equal.
        change (removelast (y :: z :: more)) with (y :: removelast (z :: more)).
        cbn [concat]. rewrite <- app_assoc. reflexivity.
      * rewrite Hcalls, calls_of_app, length_app.
        change (removelast (y :: z :: more)) with (y :: removelast (z :: more)).
        cbn. lia.
Qed.

End Listing.

(** What the instance listing returns on a provider that serves it in
    pages: the first page and every further page but the last one. *)
Lemma ListLinodeInstances_served net fuel api first more t :
  nonempty (apiKey api) = true ->
  serves_pages net "/linode/instances" (clientR api) (first :: more) ->
  Z.of_nat (length (first :: more)) < 2 ^ 63 - 1 ->
  (length (removelast more) < fuel)%nat ->
  exists t',
    ListLinodeInstances net fuel api t
      = (Ret (concat (first :: removelast more), None), t') /\
    length (calls_of t') = (length (calls_of t) + S (length (removelast more)))%nat.
Proof.
  intros Hkey Hserves Hbound Hfuel. unfold ListLinodeInstances.
  rewrite (authedR_key _ Hkey), bind_ret.
  destruct (ListLinodeInstances_loop_served net "/linode/instances" (clientR api)
              (first :: more) Hserves Hbound more [] first [] t fuel eq_refl Hfuel)
    as (t' & Hrun & Hcalls).
  exists t'. split; [exact Hrun | exact Hcalls].
Qed.

(** C1 (code bug). On a listing of two pages the cursor reports
    [hasMore = false] after the first page ([2 < 2] fails), so the listing
    returns the first page only, after one call; on three pages it returns
    the first two. The last page of every listing of two or more pages is
    never fetched (see [ListLinodeInstances_served]). *)
Theorem ListLinodeInstances_drops_last_page :
  let a := Scenario.tunnel in
  let b := Scenario.web in
  let c := Scenario.fresh in
  let api := NewLinodeAPI "token" in
  (exists t',
     ListLinodeInstances (Scenario.paged [[a]; [b]]) 8 api [] = (Ret ([a], None), t') /\
     length (calls_of t') = 1%nat) /\
  (exists t',
     ListLinodeInstances (Scenario.paged [[a]; [b]; [c]]) 8 api []
       = (Ret ([a; b], None), t') /\
     length (calls_of t') = 2%nat) /\
  concat [[a]; [b]] <> [a] /\
  concat [[a]; [b]; [c]] <> [a; b].
Proof.
  intros a b c api. split; [| split; [| split]].
  - eexists. split; vm_compute; reflexivity.
  - eexists. split; vm_compute; reflexivity.
  - discriminate.
  - discriminate.
Qed.

(** ** The facade on scripted accounts *)

(** C2 (code bug). An instance with the role prefix exists, the guard
    answers "Tunnel already exists" and the error response is written, but
    [CreateTunnel] does not return there: it goes on to list the scripts,
    POSTs the creation of a second instance, polls it and writes a success
    response as well. *)
Theorem CreateTunnel_creates_despite_existing_tunnel :
  let running := Scenario.instance 9 "hp_instance" "running" in
  let net :=
    Scenario.account [Scenario.tunnel] [Scenario.freedom_node] Scenario.fresh
      [Scenario.ok (DynLinodeInfo running)] in
  let args := Scenario.create_request "g5-nanode-1" "eu-central" None None in
  exists o t',
    CreateTunnel net Scenario.codec_ok Scenario.status_value PerLoop 20
      newProtobufLinode args [] = (Ret o, t') /\
    writes_of t' =
      [CreateTunnelErr (ProtoMessage "Tunnel already exists");
       CreateTunnelOK (linodeInstanceToProtobuf Scenario.status_value running)] /\
    map (fun c => (c_method c, c_endpoint c)) (calls_of t') =
      [("GET", "/linode/instances"); ("GET", "/linode/stackscripts");
       ("POST", "/linode/instances"); ("GET", "/linode/instances/9")].
Proof.
  intros running net args. eexists _, _.
  split; [vm_compute; reflexivity |]. split; vm_compute; reflexivity.
Qed.

(** C3 (as stated, refuted). A create request without region, on an account
    without instances: the validation error is written, but only after the
    guard has listed the instances of the account, which is one network
    call. *)
Lemma CreateTunnel_missing_region_calls_provider :
  let net := Scenario.account [] [Scenario.freedom_node] Scenario.fresh [] in
  let args := Scenario.create_request "g5-nanode-1" "" None None in
  exists o t',
    CreateTunnel net Scenario.codec_ok Scenario.status_value PerLoop 20
      newProtobufLinode args [] = (Ret o, t') /\
    ct_Region args = "" /\
    writes_of t' = [CreateTunnelErr (ProtoMessage "Linode region is empty or missing")] /\
    map (fun c => (c_method c, c_endpoint c)) (calls_of t')
      = [("GET", "/linode/instances")].
Proof.
  intros net args. eexists _, _.
  split; [vm_compute; reflexivity |]. repeat split; vm_compute; reflexivity.
Qed.


(** C5 (as stated, refuted). The first status poll after a successful
    creation fails below HTTP: the poller returns the transport error, but
    [CreateTunnel] writes a success response with the instance as returned
    by [Create], and no error response. *)
Lemma CreateTunnel_swallows_transport_error :
  let net :=
    Scenario.account [] [Scenario.freedom_node] Scenario.fresh
      [NetFail "connection reset"] in
  let args := Scenario.create_request "g5-nanode-1" "eu-central" None None in
  let api := NewLinodeAPI "token" in
  (exists t0 t1,
     awaitUntilRunning net 20 api 9 t0
       = (Ret (None, Some (transport_error "GET" "/linode/instances/9" "connection reset")),
          t1)) /\
  exists o t',
    CreateTunnel net Scenario.codec_ok Scenario.status_value PerLoop 20
      newProtobufLinode args [] = (Ret o, t') /\
    writes_of t' =
      [CreateTunnelOK (linodeInstanceToProtobuf Scenario.status_value Scenario.fresh)] /\
    headers_of t' = [] /\
    length (List.filter (Scenario.is_call "GET" "/linode/instances/9") (calls_of t')) = 1%nat.
Proof.
  intros net args api. split.
  - exists [], (snd (awaitUntilRunning net 20 api 9 [])). vm_compute. reflexivity.
  - eexists _, _.
    split; [vm_compute; reflexivity |]. repeat split; vm_compute; reflexivity.
Qed.


(** ** The writer *)

Lemma headers_of_app t1 t2 : headers_of (t1 ++ t2) = headers_of t1 ++ headers_of t2.
Proof. apply omap_app. Qed.

Lemma write_run codec m t :
  exists t',
    write codec m t = (Ret (codec m), t') /\
    calls_of t' = calls_of t /\ sleeps_of t' = sleeps_of t /\
    headers_of t' = headers_of t /\ writes_of t' = writes_of t ++ [m].
Proof.
  unfold write, bind, emit. destruct (codec m) as [err |]; cbn.
  - eexists. split; [reflexivity |].
    rewrite !calls_of_app, !sleeps_of_app, !headers_of_app, !writes_of_app.
    cbn. rewrite !app_nil_r. repeat split; reflexivity.
  - eexists. split; [reflexivity |].
    rewrite !calls_of_app, !sleeps_of_app, !headers_of_app, !writes_of_app.
    cbn. rewrite !app_nil_r. repeat split; reflexivity.
Qed.

Lemma WriteMessage_run codec m t :
  exists t',
    WriteMessage codec m t = (Ret (codec m), t') /\
    calls_of t' = calls_of t /\ sleeps_of t' = sleeps_of t /\
    headers_of t' = headers_of t /\ writes_of t' = writes_of t ++ [m].
Proof.
  unfold WriteMessage. unfold bind at 1. unfold bind at 1. unfold emit.
  destruct (write_run codec m
              ((t ++ [EvSetHeader "Content-Type" "application/octet-stream"])
                 ++ [EvSetHeader "Cache-Control" "no-cache"]))
    as (t' & Hrun & Hc & Hs & Hh & Hw).
  exists t'. split; [exact Hrun |].
  rewrite Hc, Hs, Hh, Hw.
  rewrite !calls_of_app, !sleeps_of_app, !headers_of_app, !writes_of_app.
  cbn. rewrite !app_nil_r. repeat split; reflexivity.
Qed.

Lemma WriteError_run codec m err t :
  exists t',
    WriteError codec m err t = (Ret (codec m), t') /\
    calls_of t' = calls_of t /\ sleeps_of t' = sleeps_of t /\
    headers_of t' = headers_of t ++ [error_status err] /\
    writes_of t' = writes_of t ++ [m].
Proof.
  unfold WriteError. unfold bind at 1. unfold bind at 1. unfold emit at 1 2.
  set (t0 := (t ++ [EvSetHeader "Content-Type" "application/octet-stream"])
               ++ [EvSetHeader "Cache-Control" "no-cache"]).
  assert (Hstatus :
    (match err with
     | ErrLinode linodeErr =>
         if IsAuthError linodeErr then emit (EvWriteHeader 401)
         else if IsPermissionsError linodeErr then emit (EvWriteHeader 403)
         else emit (EvWriteHeader 418)
     | _ => emit (EvWriteHeader 418)
     end) = emit (EvWriteHeader (error_status err))).
  { destruct err as [msg | cause msg | le | cause]; try reflexivity.
    unfold error_status.
    destruct (IsAuthError le); [reflexivity |].
    destruct (IsPermissionsError le); reflexivity. }
  rewrite Hstatus. unfold bind, emit.
  destruct (write_run codec m (t0 ++ [EvWriteHeader (error_status err)]))
    as (t' & Hrun & Hc & Hs & Hh & Hw).
  exists t'. split; [exact Hrun |].
  rewrite Hc, Hs, Hh, Hw. subst t0.
  rewrite !calls_of_app, !sleeps_of_app, !headers_of_app, !writes_of_app.
  cbn. rewrite !app_nil_r. repeat split; reflexivity.
Qed.

(** ** The events of the role guard *)

Lemma guard_events_projections ext :
  Forall guard_event ext ->
  Forall (listing_call "/linode/instances") (calls_of ext) /\
  sleeps_of ext = [] /\ headers_of ext = [] /\ writes_of ext = [].
Proof.
  induction 1 as [| e ext He _ (IHc & IHs & IHh & IHw)].
  - repeat split; constructor.
  - destruct e; cbn in He |- *; try contradiction.
    + repeat split; try assumption. constructor; assumption.
    + repeat split; assumption.
Qed.

Lemma next_events net e t :
  exists e' res c,
    next net e t = (Ret (e', res), t ++ [EvCall c]) /\
    listing_call (it_endpoint e) c /\
    it_endpoint e' = it_endpoint e.
Proof.
  unfold next.
  set (e0 := if Z.gtb (it_page e) 1 then _ else e).
  assert (He0 : it_endpoint e0 = it_endpoint e).
  { subst e0. destruct (Z.gtb (it_page e) 1); reflexivity. }
  unfold linodeSimpleExec.
  cbn [known_method existsb String.eqb Ascii.eqb Bool.eqb orb].
  unfold bind, execRequest.
  destruct (net (calls_of t) _) as [cause | response].
  - cbn. eexists _, _, _. split; [reflexivity |].
    split; [split; [reflexivity | exact He0] | exact He0].
  - destruct (Z.gtb (StatusCode response) 299).
    + cbn. eexists _, _, _. split; [reflexivity |].
      split; [split; [reflexivity | exact He0] | exact He0].
    + cbn. destruct (as_paginatedResult (RespResult response)) as [[count items] |].
      * eexists _, _, _. split; [reflexivity |].
        split; [split; [reflexivity | exact He0] | exact He0].
      * eexists _, _, _. split; [reflexivity |].
        split; [split; [reflexivity | exact He0] | exact He0].
Qed.

Lemma ListLinodeInstances_loop_events net endpoint fuel :
  forall iter items t,
    it_endpoint iter = endpoint ->
    exists o t' cs,
      ListLinodeInstances_loop net fuel endpoint iter items t = (o, t') /\
      t' = t ++ map EvCall cs /\
      Forall (listing_call endpoint) cs /\
      (forall a, o = Ret a -> cs <> []).
Proof.
  induction fuel as [| fuel IH]; intros iter items t Hend.
  - exists OutOfFuel, t, []. cbn. rewrite app_nil_r.
    repeat split; [constructor | discriminate].
  - cbn [ListLinodeInstances_loop].
    destruct (next_events net iter t) as (iter' & [item hasNext] & c & Hnext & Hc & Hend').
    rewrite Hend in Hc. rewrite (bind_run _ _ _ _ _ Hnext).
    assert (Hone : forall (a : list LinodeInfo * option error),
              exists o t' cs,
                ret a (t ++ [EvCall c]) = (o, t') /\
                t' = t ++ map EvCall cs /\
                Forall (listing_call endpoint) cs /\
                (forall a', o = Ret a' -> cs <> [])).
    { intros a. exists (Ret a), (t ++ [EvCall c]), [c].
      repeat split; [constructor; [exact Hc | constructor] | discriminate]. }
    destruct (ar_err item) as [err |]; [apply Hone |].
    destruct (ar_data item); try apply Hone.
    destruct hasNext; cbn [negb]; [| apply Hone].
    destruct (IH iter' (items ++ l) (t ++ [EvCall c])) as (o & t' & cs & Hrun & Ht & Hcs & _).
    { rewrite Hend'. exact Hend. }
    exists o, t', (c :: cs). split; [exact Hrun |].
    split; [rewrite Ht, <- app_assoc; reflexivity |].
    split; [constructor; assumption | discriminate].
Qed.

Lemma guard_event_calls cs :
  Forall (listing_call "/linode/instances") cs -> Forall guard_event (map EvCall cs).
Proof. induction 1; cbn; constructor; assumption. Qed.

Lemma ListLinodeInstances_events net fuel api t :
  exists o t' ext,
    ListLinodeInstances net fuel api t = (o, t') /\
    t' = t ++ ext /\ Forall guard_event ext /\
    (forall a, o = Ret a -> calls_of ext <> []).
Proof.
  unfold ListLinodeInstances, authedR.
  destruct (nonempty (apiKey api)).
  - rewrite bind_ret.
    destruct (ListLinodeInstances_loop_events net "/linode/instances" fuel
                (linodePaginatedGET "/linode/instances" (clientR api)) [] t eq_refl)
      as (o & t' & cs & Hrun & Ht & Hcs & Hne).
    exists o, t', (map EvCall cs). split; [exact Hrun |].
    split; [exact Ht |]. split; [apply guard_event_calls; exact Hcs |].
    intros a Ha. specialize (Hne a Ha).
    destruct cs; [congruence | discriminate].
  - exists (Panic no_key_message), t, []. rewrite app_nil_r.
    repeat split; [constructor | discriminate].
Qed.

Lemma logActiveTunnels_events ptrs :
  forall store i t,
    exists o t' ext,
      logActiveTunnels ptrs store i t = (o, t') /\
      t' = t ++ ext /\ Forall guard_event ext /\ calls_of ext = [].
Proof.
  induction ptrs as [| p ptrs IH]; intros store i t.
  - exists (Ret tt), t, []. rewrite app_nil_r. repeat split. constructor.
  - cbn [logActiveTunnels]. destruct (store !! p) as [x |].
    + unfold bind at 1. unfold logInstance, logAt, emit.
      destruct (IH store (i + 1) (t ++ [EvLog "debug" ("Active tunnel instance #" +:+ Itoa i)]))
        as (o & t' & ext & Hrun & Ht & Hext & Hcalls).
      exists o, t', (EvLog "debug" ("Active tunnel instance #" +:+ Itoa i) :: ext).
      split; [exact Hrun |]. split; [rewrite Ht, <- app_assoc; reflexivity |].
      split; [constructor; [exact I | exact Hext] | exact Hcalls].
    + exists (Panic "invalid memory address or nil pointer dereference"), t, [].
      rewrite app_nil_r. repeat split. constructor.
Qed.

Lemma retrieveTunnelInstance_events net go fuel api name t :
  exists o t' ext,
    retrieveTunnelInstance net go fuel api name t = (o, t') /\
    t' = t ++ ext /\ Forall guard_event ext /\
    (forall a, o = Ret a -> calls_of ext <> []).
Proof.
  unfold retrieveTunnelInstance.
  destruct (ListLinodeInstances_events net fuel api t)
    as (o & t1 & ext & Hrun & Ht & Hext & Hne).
  unfold bind at 1. rewrite Hrun.
  destruct o as [[instances [err |]] | msg |].
  - unfold bind, logError, logAt, emit, ret.
    eexists _, _, (ext ++ [EvLog "error" "Couldn't list Linode instances"]).
    split; [reflexivity |]. split; [rewrite Ht, <- app_assoc; reflexivity |].
    split; [apply Forall_app; split; [exact Hext | constructor; [exact I | constructor]] |].
    intros _ _. rewrite calls_of_app. cbn. rewrite app_nil_r. eapply Hne. reflexivity.
  - destruct (collectTunnelInstances go name instances 0 ∅ []) as [store [| first others]].
    + exists (Ret (None, None)), t1, ext. repeat split; try assumption.
      intros _ _. eapply Hne. reflexivity.
    + destruct others as [| second others].
      * rewrite bind_ret. exists (Ret (store !! first, None)), t1, ext.
        repeat split; try assumption. intros _ _. eapply Hne. reflexivity.
      * unfold bind at 2. unfold logAt, emit.
        destruct (logActiveTunnels_events (first :: second :: others) store 0
                    (t1 ++ [EvLog "error" "Multiple tunnel instances are currently active!"]))
          as (o & t' & ext' & Hlog & Ht' & Hext' & Hcalls).
        unfold bind. rewrite Hlog.
        exists (match o with
                | Ret _ => Ret (store !! first, None)
                | Panic msg => Panic msg
                | OutOfFuel => OutOfFuel
                end), t',
               (ext ++ EvLog "error" "Multiple tunnel instances are currently active!" :: ext').
        split; [destruct o; reflexivity |].
        split; [rewrite Ht', Ht, <- !app_assoc; reflexivity |].
        split; [apply Forall_app; split; [exact Hext | constructor; [exact I | exact Hext']] |].
        intros _ _. rewrite calls_of_app. cbn [calls_of omap]. 
        intros Hnil. apply app_eq_nil in Hnil. destruct Hnil as [Hnil _].
        revert Hnil. eapply Hne. reflexivity.
  - exists (Panic msg), t1, ext. repeat split; try assumption. discriminate.
  - exists OutOfFuel, t1, ext. repeat split; try assumption. discriminate.
Qed.

Lemma ensureTunnelDoesNotExist_events net go fuel api name t o t' :
  ensureTunnelDoesNotExist net go fuel api name t = (Ret o, t') ->
  exists ext,
    t' = t ++ ext /\ Forall guard_event ext /\ calls_of ext <> [].
Proof.
  unfold ensureTunnelDoesNotExist.
  destruct (retrieveTunnelInstance_events net go fuel api name t)
    as (o1 & t1 & ext & Hrun & Ht & Hext & Hne).
  unfold bind at 1. rewrite Hrun.
  destruct o1 as [[tunnelInstance [err |]] | msg |]; try discriminate.
  - intros [= _ <-]. exists ext. repeat split; try assumption.
    eapply Hne. reflexivity.
  - destruct tunnelInstance as [x |].
    + unfold bind, logError, logAt, emit, ret. intros [= _ <-].
      exists (ext ++ [EvLog "error" "Guard failure"]).
      split; [rewrite Ht, <- app_assoc; reflexivity |].
      split; [apply Forall_app; split; [exact Hext | constructor; [exact I | constructor]] |].
      rewrite calls_of_app. cbn. rewrite app_nil_r. eapply Hne. reflexivity.
    + intros [= _ <-]. exists ext. repeat split; try assumption.
      eapply Hne. reflexivity.
Qed.

(** C3 (amended). For every create request without plan or without region
    on which the role guard finds no instance: the guard's listing of the
    instances comes first (at least one call, all of them pages of the
    instance listing), then the operation fails with the validation error;
    it writes that one error response with status 418 and issues no further
    call and no sleep. *)
Theorem CreateTunnel_validation_follows_guard :
  forall net codec status_value go fuel p args t t1,
    ensureTunnelDoesNotExist net go fuel
      (NewLinodeAPI (extractAuth (ct_Auth args))) (instanceLabel p) t = (Ret None, t1) ->
    ct_Plan args = "" \/ ct_Region args = "" ->
    exists ext err o t2,
      t1 = t ++ ext /\ Forall guard_event ext /\ calls_of ext <> [] /\
      CreateTunnel net codec status_value go fuel p args t = (Ret o, t2) /\
      (err = ErrNew "Linode plan is empty or missing" \/
       err = ErrNew "Linode region is empty or missing") /\
      calls_of t2 = calls_of t ++ calls_of ext /\
      sleeps_of t2 = sleeps_of t /\
      writes_of t2 = writes_of t ++ [createCreateTunnelErr err] /\
      headers_of t2 = headers_of t ++ [418].
Proof.
  intros net codec sv go fuel p args t t1 Hguard Hmissing.
  destruct (ensureTunnelDoesNotExist_events _ _ _ _ _ _ _ _ Hguard)
    as (ext & Ht1 & Hext & Hcalls).
  destruct (guard_events_projections ext Hext) as (_ & Hs & Hh & Hw).
  assert (Hproj : calls_of t1 = calls_of t ++ calls_of ext /\
                  sleeps_of t1 = sleeps_of t /\
                  writes_of t1 = writes_of t /\
                  headers_of t1 = headers_of t).
  { rewrite Ht1, calls_of_app, sleeps_of_app, writes_of_app, headers_of_app.
    rewrite Hs, Hh, Hw, !app_nil_r. repeat split; reflexivity. }
  destruct Hproj as (Pc & Ps & Pw & Ph).
  set (err := if Nat.eqb (String.length (ct_Plan args)) 0
              then ErrNew "Linode plan is empty or missing"
              else ErrNew "Linode region is empty or missing").
  destruct (WriteError_run codec (createCreateTunnelErr err) err t1)
    as (t2 & Hrun & Hc & Hsl & Hhd & Hwr).
  exists ext, err, (codec (createCreateTunnelErr err)), t2.
  split; [exact Ht1 |]. split; [exact Hext |]. split; [exact Hcalls |].
  split.
  - unfold CreateTunnel. unfold bind at 1. rewrite Hguard.
    rewrite bind_ret. subst err.
    destruct (Nat.eqb (String.length (ct_Plan args)) 0) eqn:Hplan; [exact Hrun |].
    destruct Hmissing as [Hp | Hr]; [rewrite Hp in Hplan; discriminate |].
    rewrite Hr. cbn [String.length Nat.eqb]. exact Hrun.
  - split; [subst err; destruct (Nat.eqb _ 0); [left | right]; reflexivity |].
    rewrite Hc, Hsl, Hwr, Hhd, Pc, Ps, Pw, Ph.
    repeat split; try reflexivity.
    subst err. destruct (Nat.eqb _ 0); reflexivity.
Qed.

Lemma CreateTunnel_validation_follows_guard_witness :
  let net := Scenario.account [Scenario.web] [Scenario.freedom_node] Scenario.fresh [] in
  let args := Scenario.create_request "" "eu-central" None None in
  exists ext err o t2,
    snd (ensureTunnelDoesNotExist net PerLoop 4 (NewLinodeAPI "token") "hp_instance" [])
      = [] ++ ext /\
    Forall guard_event ext /\ calls_of ext <> [] /\
    CreateTunnel net Scenario.codec_ok Scenario.status_value PerLoop 4
      newProtobufLinode args [] = (Ret o, t2) /\
    (err = ErrNew "Linode plan is empty or missing" \/
     err = ErrNew "Linode region is empty or missing") /\
    calls_of t2 = calls_of [] ++ calls_of ext /\
    sleeps_of t2 = sleeps_of [] /\
    writes_of t2 = writes_of [] ++ [createCreateTunnelErr err] /\
    headers_of t2 = headers_of [] ++ [418].
Proof.
  intros net args.
  apply (CreateTunnel_validation_follows_guard net Scenario.codec_ok
           Scenario.status_value PerLoop 4 newProtobufLinode args []).
  - vm_compute. reflexivity.
  - left. reflexivity.
Defined.

(** ** Poller errors in the facade *)

Lemma nonempty_length s : s <> "" -> Nat.eqb (String.length s) 0 = false.
Proof. destruct s; [congruence | reflexivity]. Qed.

Lemma CreateTunnel_after_poller_error
    net codec status_value go fuel p args t t1 t2 t3 t4 script params instance latest e :
  let api := NewLinodeAPI (extractAuth (ct_Auth args)) in
  ensureTunnelDoesNotExist net go fuel api (instanceLabel p) t = (Ret None, t1) ->
  ct_Plan args <> "" -> ct_Region args <> "" ->
  makeStackScriptParams net go fuel api (instanceScript p)
    (ct_RegularAccountName args) (ct_RegularAccountPassword args)
    (ct_WireguardOptions args) (ct_Obfsproxy4Options args) (ct_Obfsproxy6Options args) t1
    = (Ret (Some script, params, None), t2) ->
  Create net (configuredBuilder p api args script params) t2
    = (Ret (Some instance, None), t3) ->
  awaitUntilRunning net fuel api (li_ID instance)
    (t3 ++ [EvLog "debug" "Initiated instance creation. Waiting until it's running..."])
    = (Ret (latest, Some e), t4) ->
  exists o t5,
    CreateTunnel net codec status_value go fuel p args t = (Ret o, t5) /\
    writes_of t5 = writes_of t4
      ++ [createCreateTunnelOK (linodeInstanceToProtobuf status_value instance)] /\
    headers_of t5 = headers_of t4 /\
    calls_of t5 = calls_of t4 /\
    sleeps_of t5 = sleeps_of t4.
Proof.
  intros api Hguard Hplan Hregion Hparams Hcreate Hawait.
  destruct (WriteMessage_run codec
              (createCreateTunnelOK (linodeInstanceToProtobuf status_value instance)) t4)
    as (t5 & Hrun & Hc & Hs & Hh & Hw).
  exists (codec (createCreateTunnelOK (linodeInstanceToProtobuf status_value instance))), t5.
  split; [| repeat split; assumption].
  unfold CreateTunnel. fold api.
  unfold bind at 1. rewrite Hguard. rewrite bind_ret.
  rewrite (nonempty_length _ Hplan), (nonempty_length _ Hregion).
  unfold bind at 1. rewrite Hparams.
  unfold bind at 1. unfold configuredBuilder in Hcreate. rewrite Hcreate.
  unfold bind at 1. unfold logInstance, logAt, emit.
  unfold bind at 1. rewrite Hawait.
  exact Hrun.
Qed.

Lemma RebuildTunnel_after_poller_error
    net codec status_value go fuel p args t t1 t2 t3 t4 tunnel script params instance latest e :
  let api := NewLinodeAPI (extractAuth (rt_Auth args)) in
  ensureTunnelExists net go fuel api (instanceLabel p) t = (Ret (Some tunnel, None), t1) ->
  makeStackScriptParams net go fuel api (instanceScript p)
    (rt_RegularAccountName args) (rt_RegularAccountPassword args)
    (rt_WireguardOptions args) (rt_Obfsproxy4Options args) (rt_Obfsproxy6Options args) t1
    = (Ret (Some script, params, None), t2) ->
  Rebuild net (configuredRebuilder p api tunnel args script params) t2
    = (Ret (Some instance, None), t3) ->
  awaitUntilRunning net fuel api (li_ID instance)
    (t3 ++ [EvLog "debug" "Initiated instance rebuild. Waiting until it's running..."])
    = (Ret (latest, Some e), t4) ->
  exists o t5,
    RebuildTunnel net codec status_value go fuel p args t = (Ret o, t5) /\
    writes_of t5 = writes_of t4
      ++ [createRebuildTunnelOK (linodeInstanceToProtobuf status_value instance)] /\
    headers_of t5 = headers_of t4 /\
    calls_of t5 = calls_of t4 /\
    sleeps_of t5 = sleeps_of t4.
Proof.
  intros api Hguard Hparams Hrebuild Hawait.
  destruct (WriteMessage_run codec
              (createRebuildTunnelOK (linodeInstanceToProtobuf status_value instance)) t4)
    as (t5 & Hrun & Hc & Hs & Hh & Hw).
  exists (codec (createRebuildTunnelOK (linodeInstanceToProtobuf status_value instance))), t5.
  split; [| repeat split; assumption].
  unfold RebuildTunnel. fold api.
  unfold bind at 1. rewrite Hguard.
  unfold bind at 1. rewrite Hparams.
  unfold bind at 1. unfold configuredRebuilder in Hrebuild. rewrite Hrebuild.
  unfold bind at 1. unfold logInstance, logAt, emit.
  unfold bind at 1. rewrite Hawait.
  exact Hrun.
Qed.

Lemma calls_of_polls t q k tail :
  calls_of (t ++ EvSleep 14 :: pending q k ++ tail)
    = calls_of t ++ repeat q k ++ calls_of tail.
Proof.
  rewrite calls_of_app. f_equal.
  change (EvSleep 14 :: pending q k ++ tail)
    with ([EvSleep 14] ++ pending q k ++ tail).
  rewrite !calls_of_app.
  change (calls_of [EvSleep 14]) with (@nil Call). cbn [app]. f_equal.
  induction k as [| k IH]; [reflexivity | cbn; f_equal; exact IH].
Qed.

(** C5 (amended). A transport error in a status poll makes the poller stop
    at once, without a further poll, and return that error. The facade does
    not report it: after a successful [Create] or [Rebuild], every error of
    the poller, a transport error as much as the convergence timeout, ends
    in a success response that carries the instance as [Create] or [Rebuild]
    returned it. *)
Theorem poller_errors_degrade_to_success :
  (forall net api id k fuel t cause,
     nonempty (apiKey api) = true -> (k < 20)%nat -> (k < fuel)%nat ->
     not_running_before net api id t k ->
     net (calls_of t ++ repeat (poll_call api id) k) (poll_call api id) = NetFail cause ->
     exists t',
       awaitUntilRunning net fuel api id t
         = (Ret (None, Some (transport_error "GET" (instanceEndpoint id) cause)), t') /\
       calls_of t' = calls_of t ++ repeat (poll_call api id) (S k)) /\
  (forall net codec status_value go fuel p args t t1 t2 t3 t4
          script params instance latest e,
     let api := NewLinodeAPI (extractAuth (ct_Auth args)) in
     ensureTunnelDoesNotExist net go fuel api (instanceLabel p) t = (Ret None, t1) ->
     ct_Plan args <> "" -> ct_Region args <> "" ->
     makeStackScriptParams net go fuel api (instanceScript p)
       (ct_RegularAccountName args) (ct_RegularAccountPassword args)
       (ct_WireguardOptions args) (ct_Obfsproxy4Options args)
       (ct_Obfsproxy6Options args) t1
       = (Ret (Some script, params, None), t2) ->
     Create net (configuredBuilder p api args script params) t2
       = (Ret (Some instance, None), t3) ->
     awaitUntilRunning net fuel api (li_ID instance)
       (t3 ++ [EvLog "debug" "Initiated instance creation. Waiting until it's running..."])
       = (Ret (latest, Some e), t4) ->
     exists o t5,
       CreateTunnel net codec status_value go fuel p args t = (Ret o, t5) /\
       writes_of t5 = writes_of t4
         ++ [createCreateTunnelOK (linodeInstanceToProtobuf status_value instance)] /\
       headers_of t5 = headers_of t4 /\
       calls_of t5 = calls_of t4 /\
       sleeps_of t5 = sleeps_of t4) /\
  (forall net codec status_value go fuel p args t t1 t2 t3 t4
          tunnel script params instance latest e,
     let api := NewLinodeAPI (extractAuth (rt_Auth args)) in
     ensureTunnelExists net go fuel api (instanceLabel p) t
       = (Ret (Some tunnel, None), t1) ->
     makeStackScriptParams net go fuel api (instanceScript p)
       (rt_RegularAccountName args) (rt_RegularAccountPassword args)
       (rt_WireguardOptions args) (rt_Obfsproxy4Options args)
       (rt_Obfsproxy6Options args) t1
       = (Ret (Some script, params, None), t2) ->
     Rebuild net (configuredRebuilder p api tunnel args script params) t2
       = (Ret (Some instance, None), t3) ->
     awaitUntilRunning net fuel api (li_ID instance)
       (t3 ++ [EvLog "debug" "Initiated instance rebuild. Waiting until it's running..."])
       = (Ret (latest, Some e), t4) ->
     exists o t5,
       RebuildTunnel net codec status_value go fuel p args t = (Ret o, t5) /\
       writes_of t5 = writes_of t4
         ++ [createRebuildTunnelOK (linodeInstanceToProtobuf status_value instance)] /\
       headers_of t5 = headers_of t4 /\
       calls_of t5 = calls_of t4 /\
       sleeps_of t5 = sleeps_of t4).
Proof.
  split; [| split].
  - intros net api id k fuel t cause Hkey Hk Hfuel Hpolls Hfail.
    rewrite (awaitUntilRunning_transport_failure_at net api id Hkey k fuel t cause
               Hk Hfuel Hpolls Hfail).
    eexists. split; [reflexivity |].
    rewrite calls_of_polls. cbn. rewrite <- repeat_cons. reflexivity.
  - intros. eapply CreateTunnel_after_poller_error; eassumption.
  - intros. eapply RebuildTunnel_after_poller_error; eassumption.
Qed.

Lemma poller_errors_degrade_to_success_witness :
  let net :=
    Scenario.account [Scenario.tunnel] [Scenario.freedom_node] Scenario.fresh
      [NetFail "connection reset"] in
  exists t4 o t5,
    RebuildTunnel net Scenario.codec_ok Scenario.status_value PerLoop 20
      newProtobufLinode Scenario.rebuild_request [] = (Ret o, t5) /\
    writes_of t5 = writes_of t4
      ++ [createRebuildTunnelOK
            (linodeInstanceToProtobuf Scenario.status_value Scenario.fresh)] /\
    headers_of t5 = headers_of t4 /\
    calls_of t5 = calls_of t4 /\
    sleeps_of t5 = sleeps_of t4.
Proof.
  intros net. eexists.
  eapply (proj2 (proj2 poller_errors_degrade_to_success)
            net Scenario.codec_ok Scenario.status_value PerLoop 20%nat
            newProtobufLinode Scenario.rebuild_request []).
  - vm_compute. reflexivity.
  - vm_compute. reflexivity.
  - vm_compute. reflexivity.
  - vm_compute. reflexivity.
Defined.

(** * Further properties of the engine *)

(** ** What the role guard selects *)

Lemma last_cons_option {A} (x : A) (l : list A) :
  last (x :: l) = match last l with Some y => Some y | None => Some x end.
Proof. destruct l as [| y l]; [reflexivity |]. cbn. destruct (last (y :: l)) eqn:E; [reflexivity |]. 
  apply last_None in E. discriminate. Qed.

Lemma collectTunnelInstances_per_loop name instances :
  forall i store ptrs,
    (forall p, In p ptrs -> p = 0%nat) ->
    forall store' ptrs',
      collectTunnelInstances PerLoop name instances i store ptrs = (store', ptrs') ->
      (forall p, In p ptrs' -> p = 0%nat) /\
      head ptrs' ≫= (fun p => store' !! p) =
        match head ptrs, List.filter (has_role name) instances with
        | None, [] => None
        | _, _ => match last instances with
                  | Some x => Some x
                  | None => store !! 0%nat
                  end
        end.
Proof.
  induction instances as [| x rest IH]; intros i store ptrs Hptrs store' ptrs' Hrun.
  - cbn in Hrun. injection Hrun as <- <-. split; [exact Hptrs |].
    destruct ptrs as [| p ptrs]; [reflexivity |].
    cbn. rewrite (Hptrs p (or_introl eq_refl)). reflexivity.
  - cbn [collectTunnelInstances loopvar_cell] in Hrun.
    apply IH in Hrun.
    + destruct Hrun as (Hall & Hhead). split; [exact Hall |].
      rewrite Hhead, last_cons_option, lookup_insert_eq.
      cbn [List.filter]. unfold has_role at 2.
      destruct (HasPrefix (li_Label x) name); destruct ptrs as [| p ptrs]; cbn;
        destruct (List.filter (has_role name) rest); destruct (last rest); reflexivity.
    + intros p Hp. destruct (HasPrefix (li_Label x) name); [| auto].
      apply in_app_or in Hp. destruct Hp as [Hp | [<- | []]]; auto.
Qed.

Lemma collectTunnelInstances_per_iteration name instances :
  forall i store ptrs,
    (forall p, In p ptrs -> (p < i)%nat) ->
    forall store' ptrs',
      collectTunnelInstances PerIteration name instances i store ptrs = (store', ptrs') ->
      head ptrs' ≫= (fun p => store' !! p) =
        match head ptrs with
        | Some p => store !! p
        | None => head (List.filter (has_role name) instances)
        end.
Proof.
  induction instances as [| x rest IH]; intros i store ptrs Hptrs store' ptrs' Hrun.
  - cbn in Hrun. injection Hrun as <- <-.
    destruct ptrs; reflexivity.
  - cbn [collectTunnelInstances loopvar_cell] in Hrun.
    apply IH in Hrun.
    + rewrite Hrun. cbn [List.filter].
      change (has_role name x) with (HasPrefix (li_Label x) name).
      destruct ptrs as [| p ptrs].
      * destruct (HasPrefix (li_Label x) name); cbn; [| reflexivity].
        apply lookup_insert_eq.
      * assert (Hp : (p < i)%nat) by (apply Hptrs; left; reflexivity).
        destruct (HasPrefix (li_Label x) name); cbn;
          apply lookup_insert_ne; lia.
    + intros p Hp. destruct (HasPrefix (li_Label x) name).
      * apply in_app_or in Hp. destruct Hp as [Hp | [<- | []]]; [| lia].
        specialize (Hptrs p Hp). lia.
      * specialize (Hptrs p Hp). lia.
Qed.

(** Every collected pointer refers to a cell that holds an instance. *)
Lemma collectTunnelInstances_valid go name instances :
  forall i store ptrs,
    (forall p, In p ptrs -> is_Some (store !! p)) ->
    forall store' ptrs',
      collectTunnelInstances go name instances i store ptrs = (store', ptrs') ->
      forall p, In p ptrs' -> is_Some (store' !! p).
Proof.
  induction instances as [| x rest IH]; intros i store ptrs Hptrs store' ptrs' Hrun.
  - cbn in Hrun. injection Hrun as <- <-. exact Hptrs.
  - cbn [collectTunnelInstances] in Hrun. eapply IH; [| exact Hrun].
    intros p Hp.
    assert (Hin : In p ptrs \/ p = loopvar_cell go i).
    { destruct (HasPrefix (li_Label x) name); [| left; exact Hp].
      apply in_app_or in Hp. destruct Hp as [Hp | [<- | []]]; auto. }
    destruct (decide (loopvar_cell go i = p)) as [<- | Hne].
    + rewrite lookup_insert_eq. eauto.
    + rewrite lookup_insert_ne by exact Hne.
      destruct Hin as [Hin | ->]; [apply Hptrs; exact Hin | congruence].
Qed.

Lemma logActiveTunnels_valid ptrs :
  forall (store : gmap nat LinodeInfo) i t,
    (forall p, In p ptrs -> is_Some (store !! p)) ->
    exists ext,
      logActiveTunnels ptrs store i t = (Ret tt, t ++ ext) /\
      Forall guard_event ext /\ calls_of ext = [].
Proof.
  induction ptrs as [| p ptrs IH]; intros store i t Hvalid.
  - exists []. rewrite app_nil_r. repeat split. constructor.
  - cbn [logActiveTunnels].
    destruct (Hvalid p (or_introl eq_refl)) as (x & Hx). rewrite Hx.
    unfold bind at 1. unfold logInstance, logAt, emit.
    destruct (IH store (i + 1)
                (t ++ [EvLog "debug" ("Active tunnel instance #" +:+ Itoa i)]))
      as (ext & Hrun & Hext & Hcalls).
    { intros q Hq. apply Hvalid. right. exact Hq. }
    exists (EvLog "debug" ("Active tunnel instance #" +:+ Itoa i) :: ext).
    split; [rewrite Hrun, <- app_assoc; reflexivity |].
    split; [constructor; [exact I | exact Hext] | exact Hcalls].
Qed.

Lemma collectTunnelInstances_selects go name instances store ptrs :
  collectTunnelInstances go name instances 0 ∅ [] = (store, ptrs) ->
  head ptrs ≫= (fun p => store !! p) = selectedTunnel go name instances.
Proof.
  intros Hrun. destruct go.
  - apply collectTunnelInstances_per_loop in Hrun; [| intros p []].
    destruct Hrun as (_ & ->). cbn [head selectedTunnel].
    destruct (List.filter (has_role name) instances) eqn:Hf; [reflexivity |].
    destruct (last instances) eqn:Hl; [reflexivity |].
    apply last_None in Hl. subst instances. discriminate.
  - apply collectTunnelInstances_per_iteration in Hrun; [| intros p []].
    exact Hrun.
Qed.

(** After a successful listing the guard's lookup ends with the selected
    instance; it adds log lines only. *)
Lemma retrieveTunnelInstance_selects net go fuel api name t instances t1 :
  ListLinodeInstances net fuel api t = (Ret (instances, None), t1) ->
  exists ext,
    retrieveTunnelInstance net go fuel api name t
      = (Ret (selectedTunnel go name instances, None), t1 ++ ext) /\
    Forall guard_event ext /\ calls_of ext = [].
Proof.
  intros Hlist. unfold retrieveTunnelInstance.
  unfold bind at 1. rewrite Hlist.
  destruct (collectTunnelInstances go name instances 0 ∅ []) as [store ptrs] eqn:Hcol.
  pose proof (collectTunnelInstances_selects _ _ _ _ _ Hcol) as Hsel.
  pose proof (collectTunnelInstances_valid go name instances 0%nat ∅ []
                ltac:(intros p []) store ptrs Hcol) as Hvalid.
  destruct ptrs as [| first others].
  - cbn in Hsel. rewrite <- Hsel. exists []. rewrite app_nil_r.
    repeat split. constructor.
  - cbn in Hsel. rewrite <- Hsel.
    destruct others as [| second others].
    + rewrite bind_ret. exists []. rewrite app_nil_r. repeat split. constructor.
    + unfold bind at 2. unfold logAt, emit.
      destruct (logActiveTunnels_valid (first :: second :: others) store 0
                  (t1 ++ [EvLog "error" "Multiple tunnel instances are currently active!"])
                  Hvalid) as (ext & Hlog & Hext & Hcalls).
      unfold bind. rewrite Hlog.
      exists (EvLog "error" "Multiple tunnel instances are currently active!" :: ext).
      split; [rewrite <- app_assoc; reflexivity |].
      split; [constructor; [exact I | exact Hext] | exact Hcalls].
Qed.

Lemma selectedTunnel_none go name instances :
  selectedTunnel go name instances = None
  <-> List.filter (has_role name) instances = [].
Proof.
  destruct go; cbn [selectedTunnel].
  - destruct (List.filter (has_role name) instances) eqn:Hf; [tauto |].
    split; [| discriminate]. intros Hl. apply last_None in Hl.
    subst instances. discriminate.
  - destruct (List.filter (has_role name) instances); cbn; split;
      try discriminate; reflexivity.
Qed.

Lemma filter_nil_iff {A} (f : A -> bool) (l : list A) :
  List.filter f l = [] <-> forall x, In x l -> f x = false.
Proof.
  induction l as [| a l IH]; cbn.
  - split; [intros _ x [] | reflexivity].
  - destruct (f a) eqn:Ha.
    + split; [discriminate |]. intros H. rewrite (H a (or_introl eq_refl)) in Ha.
      discriminate.
    + rewrite IH. split.
      * intros H x [<- | Hx]; [exact Ha | apply H; exact Hx].
      * intros H x Hx. apply H. right. exact Hx.
Qed.

(** X1. After a successful instance listing, [ensureTunnelExists] answers
    with the instance behind the guard's pointer: with one variable per
    [range] loop that is the last listed instance whenever some label has
    the role prefix, with one variable per iteration it is the first
    instance whose label has the prefix; the guard itself makes no call
    beyond the listing. *)
Theorem ensureTunnelExists_selection :
  forall net go fuel api name t instances t1,
    ListLinodeInstances net fuel api t = (Ret (instances, None), t1) ->
    exists ext,
      ensureTunnelExists net go fuel api name t
        = (Ret (match selectedTunnel go name instances with
                | Some x => (Some x, None)
                | None => (None, Some (ErrNew "Tunnel does not exist"))
                end), t1 ++ ext) /\
      calls_of ext = [] /\
      (go = PerLoop -> List.filter (has_role name) instances <> [] ->
       selectedTunnel go name instances = last instances) /\
      (go = PerIteration ->
       selectedTunnel go name instances = head (List.filter (has_role name) instances)).
Proof.
  intros net go fuel api name t instances t1 Hlist.
  destruct (retrieveTunnelInstance_selects net go fuel api name t instances t1 Hlist)
    as (ext & Hrun & Hext & Hcalls).
  unfold ensureTunnelExists. unfold bind at 1. rewrite Hrun.
  destruct (selectedTunnel go name instances) as [x |] eqn:Hsel.
  - exists ext. split; [reflexivity |]. split; [exact Hcalls |].
    rewrite <- Hsel. split.
    + intros -> Hne. cbn.
      destruct (List.filter (has_role name) instances); [congruence | reflexivity].
    + intros ->. reflexivity.
  - exists (ext ++ [EvLog "error" "Guard failure"]).
    split; [unfold bind, logError, logAt, emit, ret; rewrite <- app_assoc; reflexivity |].
    split; [rewrite calls_of_app, Hcalls; reflexivity |].
    rewrite <- Hsel. split.
    + intros -> Hne. cbn.
      destruct (List.filter (has_role name) instances); [congruence | reflexivity].
    + intros ->. reflexivity.
Qed.

Lemma ensureTunnelExists_selection_witness :
  let net :=
    Scenario.account [Scenario.web; Scenario.tunnel; Scenario.fresh] []
      Scenario.fresh [] in
  exists ext,
    ensureTunnelExists net PerIteration 4 (NewLinodeAPI "token") "hp_instance" []
      = (Ret (Some Scenario.tunnel, None),
         snd (ListLinodeInstances net 4 (NewLinodeAPI "token") []) ++ ext) /\
    calls_of ext = [].
Proof.
  intros net.
  destruct (ensureTunnelExists_selection net PerIteration 4 (NewLinodeAPI "token")
              "hp_instance" [] [Scenario.web; Scenario.tunnel; Scenario.fresh]
              (snd (ListLinodeInstances net 4 (NewLinodeAPI "token") [])))
    as (ext & Hrun & Hcalls & _).
  - vm_compute. reflexivity.
  - exists ext. split; [exact Hrun | exact Hcalls].
Defined.

(** X2. After a successful instance listing, whatever the binding of
    [range] variables: [ensureTunnelDoesNotExist] fails, with "Tunnel
    already exists", iff some listed label has the role prefix, and
    [ensureTunnelExists] fails, with "Tunnel does not exist", iff none
    has. *)
Theorem role_guard_fails_iff :
  forall net go fuel api name t instances t1,
    ListLinodeInstances net fuel api t = (Ret (instances, None), t1) ->
    exists found err t2 t3,
      ensureTunnelExists net go fuel api name t = (Ret (found, err), t2) /\
      ensureTunnelDoesNotExist net go fuel api name t
        = (Ret (match found with
              | Some _ => Some (ErrNew "Tunnel already exists")
              | None => None
              end), t3) /\
      (err = match found with
           | Some _ => None
           | None => Some (ErrNew "Tunnel does not exist")
           end) /\
      (found = None <-> forall x, In x instances -> HasPrefix (li_Label x) name = false).
Proof.
  intros net go fuel api name t instances t1 Hlist.
  destruct (retrieveTunnelInstance_selects net go fuel api name t instances t1 Hlist)
    as (ext & Hrun & _ & _).
  pose proof (selectedTunnel_none go name instances) as Hnone.
  rewrite filter_nil_iff in Hnone. unfold has_role in Hnone.
  unfold ensureTunnelExists, ensureTunnelDoesNotExist.
  unfold bind at 1 3. rewrite Hrun.
  destruct (selectedTunnel go name instances) as [x |].
  - eexists (Some x), None, _, _. split; [reflexivity |].
    split; [reflexivity |]. split; [reflexivity |]. exact Hnone.
  - eexists None, _, _, _. split; [reflexivity |].
    split; [reflexivity |]. split; [reflexivity |]. exact Hnone.
Qed.

Lemma role_guard_fails_iff_witness :
  let net := Scenario.account [Scenario.web] [] Scenario.fresh [] in
  exists found err t2 t3,
    ensureTunnelExists net PerLoop 4 (NewLinodeAPI "token") "hp_instance" []
      = (Ret (found, err), t2) /\
    ensureTunnelDoesNotExist net PerLoop 4 (NewLinodeAPI "token") "hp_instance" []
      = (Ret (match found with
              | Some _ => Some (ErrNew "Tunnel already exists")
              | None => None
              end), t3) /\
    (err = match found with
           | Some _ => None
           | None => Some (ErrNew "Tunnel does not exist")
           end) /\
    (found = None <->
     forall x, In x [Scenario.web] -> HasPrefix (li_Label x) "hp_instance" = false).
Proof.
  intros net.
  apply (role_guard_fails_iff net PerLoop 4 (NewLinodeAPI "token") "hp_instance" []
           [Scenario.web] (snd (ListLinodeInstances net 4 (NewLinodeAPI "token") []))).
  vm_compute. reflexivity.
Defined.

(** ** What the parameter builder selects *)

Lemma findScript_per_loop scriptName scripts :
  forall i store script,
    (forall s, script = Some s -> s = 0%nat) ->
    forall store' script',
      findScript PerLoop scriptName scripts i store script = (store', script') ->
      script' ≫= (fun s => store' !! s) =
        match script, List.filter (has_label scriptName) scripts with
        | None, [] => None
        | _, _ => match last scripts with
                  | Some x => Some x
                  | None => store !! 0%nat
                  end
        end.
Proof.
  induction scripts as [| x rest IH]; intros i store script Hs store' script' Hrun.
  - cbn in Hrun. injection Hrun as <- <-.
    destruct script as [s |]; [| reflexivity].
    cbn. rewrite (Hs s eq_refl). reflexivity.
  - cbn [findScript loopvar_cell] in Hrun. apply IH in Hrun.
    + rewrite Hrun, last_cons_option, lookup_insert_eq. cbn [List.filter].
      change (has_label scriptName x) with (String.eqb (ss_Label x) scriptName).
      destruct (String.eqb (ss_Label x) scriptName); destruct script; cbn;
        destruct (List.filter (has_label scriptName) rest); destruct (last rest);
        reflexivity.
    + intros s. destruct (String.eqb (ss_Label x) scriptName); [congruence | apply Hs].
Qed.

Lemma findScript_per_iteration scriptName scripts :
  forall i store script,
    (forall s, script = Some s -> (s < i)%nat) ->
    forall store' script',
      findScript PerIteration scriptName scripts i store script = (store', script') ->
      script' ≫= (fun s => store' !! s) =
        match last (List.filter (has_label scriptName) scripts) with
        | Some x => Some x
        | None => script ≫= (fun s => store !! s)
        end.
Proof.
  induction scripts as [| x rest IH]; intros i store script Hs store' script' Hrun.
  - cbn in Hrun. injection Hrun as <- <-. reflexivity.
  - cbn [findScript loopvar_cell] in Hrun. apply IH in Hrun.
    + rewrite Hrun. cbn [List.filter].
      change (has_label scriptName x) with (String.eqb (ss_Label x) scriptName).
      destruct (String.eqb (ss_Label x) scriptName).
      * rewrite last_cons_option.
        destruct (last (List.filter (has_label scriptName) rest)); [reflexivity |].
        cbn. apply lookup_insert_eq.
      * destruct (last (List.filter (has_label scriptName) rest)); [reflexivity |].
        destruct script as [s |]; [| reflexivity].
        cbn. apply lookup_insert_ne. specialize (Hs s eq_refl). lia.
    + intros s. destruct (String.eqb (ss_Label x) scriptName).
      * intros [= <-]. lia.
      * intros Hx. specialize (Hs s Hx). lia.
Qed.

Lemma findScript_valid go scriptName scripts :
  forall i store script,
    (forall s, script = Some s -> is_Some (store !! s)) ->
    forall store' script',
      findScript go scriptName scripts i store script = (store', script') ->
      forall s, script' = Some s -> is_Some (store' !! s).
Proof.
  induction scripts as [| x rest IH]; intros i store script Hs store' script' Hrun.
  - cbn in Hrun. injection Hrun as <- <-. exact Hs.
  - cbn [findScript] in Hrun. eapply IH; [| exact Hrun].
    intros s Hsome.
    destruct (decide (loopvar_cell go i = s)) as [<- | Hne].
    + rewrite lookup_insert_eq. eauto.
    + rewrite lookup_insert_ne by exact Hne. apply Hs.
      destruct (String.eqb (ss_Label x) scriptName); [congruence | exact Hsome].
Qed.

Lemma findScript_selects go scriptName scripts store script :
  findScript go scriptName scripts 0 ∅ None = (store, script) ->
  script ≫= (fun s => store !! s) = selectedScript go scriptName scripts.
Proof.
  intros Hrun. destruct go.
  - apply findScript_per_loop in Hrun; [| discriminate].
    rewrite Hrun. cbn [selectedScript].
    destruct (List.filter (has_label scriptName) scripts) eqn:Hf; [reflexivity |].
    destruct (last scripts) eqn:Hl; [reflexivity |].
    apply last_None in Hl. subst scripts. discriminate.
  - apply findScript_per_iteration in Hrun; [| discriminate].
    rewrite Hrun. cbn [selectedScript].
    destruct (last (List.filter (has_label scriptName) scripts)); reflexivity.
Qed.

Lemma selectedScript_none go scriptName scripts :
  selectedScript go scriptName scripts = None
  <-> forall x, In x scripts -> ss_Label x <> scriptName.
Proof.
  assert (Hnil : List.filter (has_label scriptName) scripts = []
                 <-> forall x, In x scripts -> ss_Label x <> scriptName).
  { rewrite filter_nil_iff. unfold has_label.
    split; intros H x Hx; specialize (H x Hx); apply String.eqb_neq; exact H. }
  rewrite <- Hnil. destruct go; cbn [selectedScript].
  - destruct (List.filter (has_label scriptName) scripts) eqn:Hf; [tauto |].
    split; [| discriminate]. intros Hl. apply last_None in Hl.
    subst scripts. discriminate.
  - apply last_None.
Qed.

(** X3. After a successful listing of the script catalog the parameter
    builder fails, with "Stackscript is missing: <label>", iff no catalog
    entry has the requested label; otherwise it returns the parameter map
    together with the script behind its pointer: with one variable per
    [range] loop the last entry of the catalog, with one variable per
    iteration the last entry that has the label. It makes no call beyond
    the listing. *)
Theorem makeStackScriptParams_selection :
  forall net go fuel api scriptName username password wg obfs4 obfs6 t scripts t1,
    ListStackScriptsPrivate net fuel api t = (Ret (scripts, None), t1) ->
    exists ext,
      makeStackScriptParams net go fuel api scriptName username password
        wg obfs4 obfs6 t
        = (Ret (match selectedScript go scriptName scripts with
                | Some s =>
                    (Some s, stackScriptData username password wg obfs4 obfs6, None)
                | None =>
                    (None, ∅, Some (ErrNew ("Stackscript is missing: " +:+ scriptName)))
                end), t1 ++ ext) /\
      calls_of ext = [] /\
      (selectedScript go scriptName scripts = None
       <-> forall x, In x scripts -> ss_Label x <> scriptName) /\
      (go = PerLoop -> selectedScript go scriptName scripts <> None ->
       selectedScript go scriptName scripts = last scripts) /\
      (go = PerIteration ->
       selectedScript go scriptName scripts
         = last (List.filter (has_label scriptName) scripts)).
Proof.
  intros net go fuel api scriptName username password wg obfs4 obfs6 t scripts t1 Hlist.
  unfold makeStackScriptParams. unfold bind at 1. rewrite Hlist.
  destruct (findScript go scriptName scripts 0 ∅ None) as [store script] eqn:Hfind.
  pose proof (findScript_selects _ _ _ _ _ Hfind) as Hsel.
  pose proof (findScript_valid go scriptName scripts 0%nat ∅ None
                ltac:(discriminate) store script Hfind) as Hvalid.
  assert (Hshape :
    (go = PerLoop -> selectedScript go scriptName scripts <> None ->
     selectedScript go scriptName scripts = last scripts) /\
    (go = PerIteration ->
     selectedScript go scriptName scripts
       = last (List.filter (has_label scriptName) scripts))).
  { split.
    - intros -> Hne. cbn in Hne |- *.
      destruct (List.filter (has_label scriptName) scripts); [congruence | reflexivity].
    - intros ->. reflexivity. }
  destruct script as [s |].
  - destruct (Hvalid s eq_refl) as (x & Hx).
    cbn in Hsel. exists [].
    split; [rewrite <- Hsel, Hx, app_nil_r; reflexivity |].
    split; [reflexivity |].
    split; [apply selectedScript_none | exact Hshape].
  - cbn in Hsel.
    exists [EvLog "error" "Couldn't retrieve StackScript information"].
    split; [rewrite <- Hsel; reflexivity |]. split; [reflexivity |].
    split; [apply selectedScript_none | exact Hshape].
Qed.

Lemma makeStackScriptParams_selection_witness :
  let net :=
    Scenario.account []
      [Scenario.script 40 "freedom_node"; Scenario.other_script; Scenario.freedom_node]
      Scenario.fresh [] in
  exists ext,
    makeStackScriptParams net PerIteration 4 (NewLinodeAPI "token") "freedom_node"
      "user" "user-secret" None None None []
      = (Ret (Some Scenario.freedom_node,
              stackScriptData "user" "user-secret" None None None, None),
         snd (ListStackScriptsPrivate net 4 (NewLinodeAPI "token") []) ++ ext) /\
    calls_of ext = [].
Proof.
  intros net.
  destruct (makeStackScriptParams_selection net PerIteration 4 (NewLinodeAPI "token")
              "freedom_node" "user" "user-secret" None None None []
              [Scenario.script 40 "freedom_node"; Scenario.other_script;
               Scenario.freedom_node]
              (snd (ListStackScriptsPrivate net 4 (NewLinodeAPI "token") [])))
    as (ext & Hrun & Hcalls & _).
  - vm_compute. reflexivity.
  - exists ext. split; [exact Hrun | exact Hcalls].
Defined.

(** ** Listings *)

Lemma concat_removelast_complete {A} (first : list A) (more : list (list A)) :
  concat (first :: removelast more) = concat (first :: more)
  <-> more = [] \/ last more = Some [].
Proof.
  destruct more as [| y more]; [cbn; tauto |].
  assert (Hne : y :: more <> []) by discriminate.
  pose proof (app_removelast_last [] Hne) as Hsplit.
  assert (Hlast : last (y :: more) = Some (List.last (y :: more) [])).
  { clear Hsplit. revert y Hne. induction more as [| z more IH]; intros y _.
    - reflexivity.
    - change (last (y :: z :: more)) with (last (z :: more)).
      change (List.last (y :: z :: more) []) with (List.last (z :: more) []).
      apply IH. discriminate. }
  rewrite Hlast. set (l := List.last (y :: more) []) in *.
  rewrite Hsplit at 2. cbn [concat]. rewrite concat_app. cbn [concat].
  rewrite app_nil_r. split.
  - intros H. right. f_equal.
    apply app_inv_head in H.
    rewrite <- (app_nil_r (concat (removelast (y :: more)))) in H at 1.
    apply app_inv_head in H. symmetry. exact H.
  - intros [H | H]; [discriminate |]. injection H as ->.
    rewrite app_nil_r. reflexivity.
Qed.


Lemma paged_serves_three a b c :
  serves_pages (Scenario.paged [[a]; [b]; [c]]) "/linode/instances"
    (clientR (NewLinodeAPI "token")) [[a]; [b]; [c]].
Proof.
  intros h pre x more Hsplit.
  destruct pre as [| p1 [| p2 [| p3 pre]]]; cbn in Hsplit.
  - injection Hsplit as <- <-. eexists _, _.
    split; [vm_compute; reflexivity |]. split; [cbn; lia | reflexivity].
  - injection Hsplit as <- <- <-. eexists _, _.
    split; [vm_compute; reflexivity |]. split; [cbn; lia | reflexivity].
  - injection Hsplit as <- <- <- <-. eexists _, _.
    split; [vm_compute; reflexivity |]. split; [cbn; lia | reflexivity].
  - exfalso. injection Hsplit as _ _ _ Hrest. destruct pre; discriminate.
Qed.


Lemma next_failing net endpoint r p t :
  (1 <= p)%nat ->
  failing_reply (net (calls_of t) {| c_method := "GET"; c_endpoint := endpoint;
                                     c_request := page_request r p |}) ->
  exists e' item,
    next net {| it_request := page_request r (p - 1); it_endpoint := endpoint;
                it_page := Z.of_nat p |} t
      = (Ret (e', (item, false)),
         t ++ [EvCall {| c_method := "GET"; c_endpoint := endpoint;
                         c_request := page_request r p |}]) /\
    ar_err item <> None.
Proof.
  intros Hp Hfail.
  pose proof (page_request_step r p Hp) as Hreq.
  unfold next. cbn [it_page it_request it_endpoint].
  destruct (Z.gtb (Z.of_nat p) 1); cbn [it_page it_request it_endpoint];
    rewrite Hreq;
    unfold linodeSimpleExec;
    cbn [known_method existsb String.eqb Ascii.eqb Bool.eqb orb];
    unfold bind, execRequest;
    (destruct (net (calls_of t) _) as [cause | response];
     [ cbn; eexists _, _; split; [reflexivity | discriminate]
     | cbn in Hfail;
       assert (Hgt : Z.gtb (StatusCode response) 299 = true) by (apply Z.gtb_lt; lia);
       rewrite Hgt; cbn; eexists _, _; split; [reflexivity | discriminate] ]).
Qed.

Section FailingListing.

Variable net : Network.
Variable endpoint : string.
Variable r : Request.
Variable good : list (list LinodeInfo).
Variable total : Z.
Hypothesis Hserves : serves_then_fails net endpoint r good total.
Hypothesis Htotal : Z.of_nat (length good) + 1 < total.
Hypothesis Hbound : Z.of_nat (length good) < 2 ^ 63 - 1.

Lemma ListLinodeInstances_loop_failing rest :
  forall pre items t fuel,
    good = pre ++ rest ->
    (length rest < fuel)%nat ->
    exists err t',
      ListLinodeInstances_loop net fuel endpoint
        {| it_request := page_request r (S (length pre) - 1); it_endpoint := endpoint;
           it_page := Z.of_nat (S (length pre)) |} items t
        = (Ret (items ++ concat rest, Some err), t') /\
      length (calls_of t') = (length (calls_of t) + S (length rest))%nat.
Proof.
  destruct Hserves as (Hgood & Hfail).
  induction rest as [| x rest IH]; intros pre items t fuel Hsplit Hfuel;
    (destruct fuel as [| fuel]; [lia |]); cbn [ListLinodeInstances_loop].
  - rewrite app_nil_r in Hsplit. subst pre.
    destruct (next_failing net endpoint r (S (length good)) t ltac:(lia)
                (Hfail (calls_of t))) as (e' & item & Hnext & Herr).
    rewrite (bind_run _ _ _ _ _ Hnext).
    destruct (ar_err item) as [err |]; [| congruence].
    exists err. eexists. split; [cbn; rewrite app_nil_r; reflexivity |].
    rewrite calls_of_app, length_app. reflexivity.
  - assert (Hlen : (length good = length pre + S (length rest))%nat).
    { rewrite Hsplit, length_app. reflexivity. }
    destruct (Hgood (calls_of t) pre x rest Hsplit)
      as (response & results & Hnet & Hst & Hres).
    pose proof (next_page net endpoint r (S (length pre)) t response total
                  (DynInfoList x) ltac:(lia) ltac:(lia) Hnet Hst
                  ltac:(rewrite Hres; reflexivity)) as Hnext.
    rewrite (bind_run _ _ _ _ _ Hnext). cbn [ar_err ar_data].
    assert (Hmore : Z.ltb (Z.of_nat (S (S (length pre)))) total = true).
    { apply Z.ltb_lt. lia. }
    rewrite Hmore. cbn [negb].
    assert (Hpre : length (pre ++ [x]) = S (length pre)).
    { rewrite length_app. cbn. lia. }
    destruct (IH (pre ++ [x]) (items ++ x)
                (t ++ [EvCall {| c_method := "GET"; c_endpoint := endpoint;
                                 c_request := page_request r (S (length pre)) |}])
                fuel) as (err & t' & Hrun & Hcalls).
    { rewrite <- app_assoc. exact Hsplit. }
    { cbn [length] in Hfuel. lia. }
    rewrite Hpre in Hrun.
    replace (S (S (length pre)) - 1)%nat with (S (length pre)) in Hrun by lia.
    exists err, t'. split.
    + rewrite Hrun. cbn [concat]. rewrite <- app_assoc. reflexivity.
    + rewrite Hcalls, calls_of_app, length_app. cbn. lia.
Qed.

End FailingListing.



(** ** The transport executor *)

(** X6. [linodeSimpleExec] with one of the six methods it knows issues
    exactly one call and returns; its result carries no error iff the
    provider answered with a status of at most 299, and then the data is
    the decoded result of the response; with an error the data is nil.
    Any other method panics before anything is sent. *)
Theorem linodeSimpleExec_outcome :
  forall net method endpoint r t,
    let c := {| c_method := method; c_endpoint := endpoint; c_request := r |} in
    (known_method method = false ->
     linodeSimpleExec net method endpoint r t
       = (Panic ("Unknown request method: " +:+ method), t)) /\
    (known_method method = true ->
     exists res,
       linodeSimpleExec net method endpoint r t = (Ret res, t ++ [EvCall c]) /\
       (ar_err res = None <->
        exists response,
          net (calls_of t) c = NetResp response /\ StatusCode response <= 299) /\
       (forall response,
          net (calls_of t) c = NetResp response -> StatusCode response <= 299 ->
          ar_data res = RespResult response /\ ar_response res = Some response) /\
       (ar_err res <> None -> ar_data res = DynNil)).
Proof.
  intros net method endpoint r t c. split; intros Hm;
    unfold linodeSimpleExec; rewrite Hm; [reflexivity |].
  unfold bind, execRequest. fold c.
  destruct (net (calls_of t) c) as [cause | response].
  - eexists. split; [reflexivity |]. cbn. split; [| split].
    + split; [discriminate |]. intros (response & H & _). discriminate.
    + intros response H. discriminate.
    + reflexivity.
  - destruct (Z.gtb_spec (StatusCode response) 299) as [Hgt | Hle].
    + eexists. split; [reflexivity |]. cbn. split; [| split].
      * split; [discriminate |]. intros (response' & [= <-] & Hst). lia.
      * intros response' [= <-] Hst. lia.
      * reflexivity.
    + eexists. split; [reflexivity |]. cbn. split; [| split].
      * split; [| reflexivity]. intros _. exists response. split; [reflexivity | lia].
      * intros response' [= <-] _. split; reflexivity.
      * congruence.
Qed.

Lemma linodeSimpleExec_outcome_witness :
  linodeSimpleExec (Scenario.account [] [] Scenario.fresh []) "TRACE" "/linode/instances"
    (clientR (NewLinodeAPI "token")) []
  = (Panic ("Unknown request method: " +:+ "TRACE"), []).
Proof.
  apply (linodeSimpleExec_outcome (Scenario.account [] [] Scenario.fresh []) "TRACE"
           "/linode/instances" (clientR (NewLinodeAPI "token")) []).
  reflexivity.
Defined.

(** ** Destroy, status and rebuild behind the guard *)

Lemma ListLinodeInstances_ret_key net fuel api t a t1 :
  ListLinodeInstances net fuel api t = (Ret a, t1) -> nonempty (apiKey api) = true.
Proof.
  unfold ListLinodeInstances, authedR.
  destruct (nonempty (apiKey api)); [reflexivity | discriminate].
Qed.

Lemma ensureTunnelExists_found net go fuel api name t instances t1 x :
  ListLinodeInstances net fuel api t = (Ret (instances, None), t1) ->
  selectedTunnel go name instances = Some x ->
  exists ext,
    ensureTunnelExists net go fuel api name t = (Ret (Some x, None), t1 ++ ext) /\
    Forall guard_event ext /\ calls_of ext = [].
Proof.
  intros Hlist Hsel.
  destruct (retrieveTunnelInstance_selects net go fuel api name t instances t1 Hlist)
    as (ext & Hrun & Hext & Hcalls).
  unfold ensureTunnelExists. unfold bind at 1. rewrite Hrun, Hsel.
  exists ext. split; [reflexivity |]. split; assumption.
Qed.

Lemma ensureTunnelExists_missing net go fuel api name t instances t1 :
  ListLinodeInstances net fuel api t = (Ret (instances, None), t1) ->
  (forall x, In x instances -> HasPrefix (li_Label x) name = false) ->
  exists ext,
    ensureTunnelExists net go fuel api name t
      = (Ret (None, Some (ErrNew "Tunnel does not exist")), t1 ++ ext) /\
    Forall guard_event ext /\ calls_of ext = [].
Proof.
  intros Hlist Hnone.
  assert (Hsel : selectedTunnel go name instances = None).
  { apply selectedTunnel_none, filter_nil_iff. exact Hnone. }
  destruct (retrieveTunnelInstance_selects net go fuel api name t instances t1 Hlist)
    as (ext & Hrun & Hext & Hcalls).
  unfold ensureTunnelExists. unfold bind at 1. rewrite Hrun, Hsel.
  exists (ext ++ [EvLog "error" "Guard failure"]).
  split; [unfold bind, logError, logAt, emit, ret; rewrite <- app_assoc; reflexivity |].
  split; [apply Forall_app; split; [exact Hext | constructor; [exact I | constructor]] |].
  rewrite calls_of_app, Hcalls. reflexivity.
Qed.

(** The projections of a trace extended by guard events. *)
Lemma guard_extension t1 ext :
  Forall guard_event ext -> calls_of ext = [] ->
  calls_of (t1 ++ ext) = calls_of t1 /\
  sleeps_of (t1 ++ ext) = sleeps_of t1 /\
  headers_of (t1 ++ ext) = headers_of t1 /\
  writes_of (t1 ++ ext) = writes_of t1.
Proof.
  intros Hext Hcalls.
  destruct (guard_events_projections ext Hext) as (_ & Hs & Hh & Hw).
  rewrite calls_of_app, sleeps_of_app, headers_of_app, writes_of_app.
  rewrite Hcalls, Hs, Hh, Hw, !app_nil_r. repeat split; reflexivity.
Qed.

Lemma DeleteInstance_run net api id t :
  nonempty (apiKey api) = true ->
  let c := {| c_method := "DELETE"; c_endpoint := instanceEndpoint id;
              c_request := clientR api |} in
  exists res,
    DeleteInstance net api id t = (Ret res, t ++ [EvCall c]) /\
    (~ failing_reply (net (calls_of t) c) -> res = None) /\
    (failing_reply (net (calls_of t) c) ->
     exists cause, res = Some (ErrWrap cause "Unable to delete instance")).
Proof.
  intros Hkey c. unfold DeleteInstance.
  rewrite (authedR_key _ Hkey), bind_ret.
  unfold linodeDELETE, linodeSimpleExec.
  cbn [known_method existsb String.eqb Ascii.eqb Bool.eqb orb].
  unfold bind at 1. unfold bind at 1. unfold execRequest. fold c.
  destruct (net (calls_of t) c) as [cause | response].
  - eexists. split; [reflexivity |]. cbn. split; [tauto | eauto].
  - destruct (Z.gtb_spec (StatusCode response) 299) as [Hgt | Hle].
    + eexists. split; [reflexivity |]. cbn. split; [intros H; lia | eauto].
    + eexists. split; [reflexivity |]. cbn. split; [reflexivity | intros H; lia].
Qed.

(** X7. After a successful listing in which the guard selects an instance,
    [DestroyTunnel] issues exactly one further call, the DELETE of the
    selected instance. When that call succeeds it writes the success
    response; when it fails (below HTTP or with any status above 299, 401
    and 403 included) it writes one free-text error response "Unable to
    delete instance: ..." with status 418, because [DeleteInstance] wraps
    every error. *)
Theorem DestroyTunnel_deletes_selected :
  forall net codec go fuel p args t instances t1 x,
    let api := NewLinodeAPI (extractAuth (dt_Auth args)) in
    let c := {| c_method := "DELETE"; c_endpoint := instanceEndpoint (li_ID x);
                c_request := clientR api |} in
    ListLinodeInstances net fuel api t = (Ret (instances, None), t1) ->
    selectedTunnel go (instanceLabel p) instances = Some x ->
    exists o t2,
      DestroyTunnel net codec go fuel p args t = (Ret o, t2) /\
      calls_of t2 = calls_of t1 ++ [c] /\
      (~ failing_reply (net (calls_of t1) c) ->
       writes_of t2 = writes_of t1 ++ [DestroyTunnelOK] /\
       headers_of t2 = headers_of t1) /\
      (failing_reply (net (calls_of t1) c) ->
       exists cause,
         writes_of t2 = writes_of t1
           ++ [DestroyTunnelErr
                 (ProtoMessage ("Unable to delete instance: " +:+ Error cause))] /\
         headers_of t2 = headers_of t1 ++ [418]).
Proof.
  intros net codec go fuel p args t instances t1 x api c Hlist Hsel.
  pose proof (ListLinodeInstances_ret_key _ _ _ _ _ _ Hlist) as Hkey.
  destruct (ensureTunnelExists_found net go fuel api (instanceLabel p) t instances t1 x
              Hlist Hsel) as (ext & Hguard & Hext & Hcalls).
  destruct (guard_extension t1 ext Hext Hcalls) as (Pc & _ & _ & _).
  destruct (guard_events_projections ext Hext) as (_ & _ & Eh & Ew).
  destruct (DeleteInstance_run net api (li_ID x) (t1 ++ ext) Hkey)
    as (res & Hdel & Hok & Hfail).
  fold c in Hdel, Hok, Hfail. rewrite Pc in Hok, Hfail.
  unfold DestroyTunnel. fold api.
  unfold bind at 1. rewrite Hguard.
  unfold bind at 1. rewrite Hdel.
  destruct res as [err |].
  - unfold bind at 1. unfold logError, logAt, emit.
    destruct (WriteError_run codec (createDestroyTunnelErr err) err
                (((t1 ++ ext) ++ [EvCall c]) ++ [EvLog "error" "Couldn't delete instance"]))
      as (t2 & Hrun & Hc & _ & Hh & Hw).
    eexists _, t2. split; [exact Hrun |].
    rewrite Hc, Hh, Hw.
    rewrite !calls_of_app, !headers_of_app, !writes_of_app, Hcalls, Eh, Ew.
    cbn [calls_of headers_of writes_of omap]. rewrite !app_nil_r.
    split; [reflexivity |]. split.
    + intros Hn. specialize (Hok Hn). discriminate.
    + intros Hf. destruct (Hfail Hf) as (cause & [= ->]).
      exists cause. split; reflexivity.
  - unfold bind at 1. unfold logInstance, logAt, emit.
    destruct (WriteMessage_run codec createDestroyTunnelOK
                (((t1 ++ ext) ++ [EvCall c])
                   ++ [EvLog "debug" "Instance was successfully deleted"]))
      as (t2 & Hrun & Hc & _ & Hh & Hw).
    eexists _, t2. split; [exact Hrun |].
    rewrite Hc, Hh, Hw.
    rewrite !calls_of_app, !headers_of_app, !writes_of_app, Hcalls, Eh, Ew.
    cbn [calls_of headers_of writes_of omap]. rewrite !app_nil_r.
    split; [reflexivity |]. split.
    + intros _. split; reflexivity.
    + intros Hf. destruct (Hfail Hf) as (cause & Hc'). discriminate.
Qed.

Lemma DestroyTunnel_deletes_selected_witness :
  let net := Scenario.account [Scenario.web; Scenario.tunnel] [] Scenario.fresh [] in
  let api := NewLinodeAPI "token" in
  let args := {| dt_Auth := Scenario.auth "token" |} in
  exists o t2,
    DestroyTunnel net Scenario.codec_ok PerIteration 4 newProtobufLinode args []
      = (Ret o, t2) /\
    calls_of t2 = calls_of (snd (ListLinodeInstances net 4 api []))
      ++ [{| c_method := "DELETE"; c_endpoint := instanceEndpoint 7;
             c_request := clientR api |}].
Proof.
  intros net api args.
  destruct (DestroyTunnel_deletes_selected net Scenario.codec_ok PerIteration 4
              newProtobufLinode args [] [Scenario.web; Scenario.tunnel]
              (snd (ListLinodeInstances net 4 api [])) Scenario.tunnel)
    as (o & t2 & Hrun & Hcalls & _).
  - vm_compute. reflexivity.
  - vm_compute. reflexivity.
  - exists o, t2. split; [exact Hrun | exact Hcalls].
Defined.

(** X8. After a successful listing in which the guard selects an instance,
    [TunnelStatus] makes no further call: it writes one success response
    that carries the selected instance as it was listed. *)
Theorem TunnelStatus_reports_selected :
  forall net codec status_value go fuel p args t instances t1 x,
    ListLinodeInstances net fuel (NewLinodeAPI (extractAuth (ts_Auth args))) t
      = (Ret (instances, None), t1) ->
    selectedTunnel go (instanceLabel p) instances = Some x ->
    exists o t2,
      TunnelStatus net codec status_value go fuel p args t = (Ret o, t2) /\
      calls_of t2 = calls_of t1 /\
      writes_of t2 = writes_of t1
        ++ [TunnelStatusOK (linodeInstanceToProtobuf status_value x)] /\
      headers_of t2 = headers_of t1.
Proof.
  intros net codec sv go fuel p args t instances t1 x Hlist Hsel.
  destruct (ensureTunnelExists_found net go fuel _ (instanceLabel p) t instances t1 x
              Hlist Hsel) as (ext & Hguard & Hext & Hcalls).
  destruct (guard_extension t1 ext Hext Hcalls) as (Pc & _ & Ph & Pw).
  destruct (WriteMessage_run codec
              (createTunnelStatusOK (linodeInstanceToProtobuf sv x)) (t1 ++ ext))
    as (t2 & Hrun & Hc & _ & Hh & Hw).
  eexists _, t2. split.
  - unfold TunnelStatus. unfold bind at 1. rewrite Hguard. exact Hrun.
  - rewrite Hc, Hh, Hw, Pc, Ph, Pw. repeat split; reflexivity.
Qed.

Lemma TunnelStatus_reports_selected_witness :
  let net := Scenario.account [Scenario.tunnel] [] Scenario.fresh [] in
  let args := {| ts_Auth := Scenario.auth "token" |} in
  let t1 := snd (ListLinodeInstances net 4 (NewLinodeAPI "token") []) in
  exists o t2,
    TunnelStatus net Scenario.codec_ok Scenario.status_value PerLoop 4
      newProtobufLinode args [] = (Ret o, t2) /\
    calls_of t2 = calls_of t1 /\
    writes_of t2 = writes_of t1
      ++ [TunnelStatusOK (linodeInstanceToProtobuf Scenario.status_value Scenario.tunnel)] /\
    headers_of t2 = headers_of t1.
Proof.
  intros net args t1.
  apply (TunnelStatus_reports_selected net Scenario.codec_ok Scenario.status_value
           PerLoop 4 newProtobufLinode args [] [Scenario.tunnel] t1 Scenario.tunnel).
  - vm_compute. reflexivity.
  - vm_compute. reflexivity.
Defined.

(** X9. When the listing succeeds and no listed label has the role prefix,
    rebuild, destroy and status each stop at the guard: no call follows the
    listing (no script lookup, no rebuild, no delete), nothing sleeps, and
    exactly one response is written, the error "Tunnel does not exist" with
    status 418. *)
Theorem guarded_operations_stop_without_tunnel :
  forall net codec status_value go fuel p token t instances t1,
    ListLinodeInstances net fuel (NewLinodeAPI token) t = (Ret (instances, None), t1) ->
    (forall x, In x instances -> HasPrefix (li_Label x) (instanceLabel p) = false) ->
    let stops (run : M (option error)) (answer : ProtoError -> ProtoResponse) :=
      exists o t2,
        run t = (Ret o, t2) /\
        calls_of t2 = calls_of t1 /\
        sleeps_of t2 = sleeps_of t1 /\
        writes_of t2 = writes_of t1 ++ [answer (ProtoMessage "Tunnel does not exist")] /\
        headers_of t2 = headers_of t1 ++ [418] in
    (forall args, extractAuth (rt_Auth args) = token ->
       stops (RebuildTunnel net codec status_value go fuel p args) RebuildTunnelErr) /\
    (forall args, extractAuth (dt_Auth args) = token ->
       stops (DestroyTunnel net codec go fuel p args) DestroyTunnelErr) /\
    (forall args, extractAuth (ts_Auth args) = token ->
       stops (TunnelStatus net codec status_value go fuel p args) TunnelStatusErr).
Proof.
  intros net codec sv go fuel p token t instances t1 Hlist Hnone stops.
  destruct (ensureTunnelExists_missing net go fuel (NewLinodeAPI token) (instanceLabel p)
              t instances t1 Hlist Hnone) as (ext & Hguard & Hext & Hcalls).
  destruct (guard_extension t1 ext Hext Hcalls) as (Pc & Ps & Ph & Pw).
  assert (Hstop : forall answer : ProtoError -> ProtoResponse,
            exists o t2,
              WriteError codec (answer (createError (ErrNew "Tunnel does not exist")))
                (ErrNew "Tunnel does not exist") (t1 ++ ext) = (Ret o, t2) /\
              calls_of t2 = calls_of t1 /\
              sleeps_of t2 = sleeps_of t1 /\
              writes_of t2 = writes_of t1 ++ [answer (ProtoMessage "Tunnel does not exist")] /\
              headers_of t2 = headers_of t1 ++ [418]).
  { intros answer.
    destruct (WriteError_run codec (answer (createError (ErrNew "Tunnel does not exist")))
                (ErrNew "Tunnel does not exist") (t1 ++ ext))
      as (t2 & Hrun & Hc & Hs & Hh & Hw).
    eexists _, t2. split; [exact Hrun |].
    rewrite Hc, Hs, Hh, Hw, Pc, Ps, Ph, Pw. repeat split; reflexivity. }
  repeat split; intros args Hauth; unfold stops.
  - unfold RebuildTunnel. rewrite Hauth. unfold bind at 1. rewrite Hguard.
    apply (Hstop RebuildTunnelErr).
  - unfold DestroyTunnel. rewrite Hauth. unfold bind at 1. rewrite Hguard.
    apply (Hstop DestroyTunnelErr).
  - unfold TunnelStatus. rewrite Hauth. unfold bind at 1. rewrite Hguard.
    apply (Hstop TunnelStatusErr).
Qed.

Lemma guarded_operations_stop_without_tunnel_witness :
  let net := Scenario.account [Scenario.web] [Scenario.freedom_node] Scenario.fresh [] in
  let t1 := snd (ListLinodeInstances net 4 (NewLinodeAPI "token") []) in
  exists o t2,
    RebuildTunnel net Scenario.codec_ok Scenario.status_value PerLoop 4
      newProtobufLinode Scenario.rebuild_request [] = (Ret o, t2) /\
    calls_of t2 = calls_of t1 /\
    sleeps_of t2 = sleeps_of t1 /\
    writes_of t2 = writes_of t1 ++ [RebuildTunnelErr (ProtoMessage "Tunnel does not exist")] /\
    headers_of t2 = headers_of t1 ++ [418].
Proof.
  intros net t1.
  apply (guarded_operations_stop_without_tunnel net Scenario.codec_ok
           Scenario.status_value PerLoop 4 newProtobufLinode "token" []
           [Scenario.web] t1).
  - vm_compute. reflexivity.
  - intros x [<- | []]. reflexivity.
  - reflexivity.
Defined.

(** ** Provider errors in the list-instances response *)

Lemma createError_details le :
  createError (ErrLinode le) = ProtoDetails (Errors le).
Proof.
  unfold createError. f_equal.
  induction (Errors le) as [| [f r] es IH]; [reflexivity |].
  cbn. f_equal. exact IH.
Qed.



(** ** The text of a provider error *)

Lemma string_app_assoc (s1 s2 s3 : string) :
  (s1 +:+ s2) +:+ s3 = s1 +:+ s2 +:+ s3.
Proof.
  induction s1 as [| a s1 IH]; [reflexivity |].
  change (String a ((s1 +:+ s2) +:+ s3) = String a (s1 +:+ s2 +:+ s3)).
  f_equal. exact IH.
Qed.

Lemma string_app_nil_r (s : string) : s +:+ "" = s.
Proof.
  induction s as [| a s IH]; [reflexivity |].
  change (String a (s +:+ "") = String a s). f_equal. exact IH.
Qed.

Lemma LinodeError_entries_cons e rest :
  rest <> [] ->
  LinodeError_entries (e :: rest) = entry_text e +:+ ";" +:+ LinodeError_entries rest.
Proof.
  intros Hne. destruct rest as [| e' rest]; [congruence |]. reflexivity.
Qed.

Lemma LinodeError_entries_single e : LinodeError_entries [e] = entry_text e.
Proof.
  unfold LinodeError_entries. fold (entry_text e).
  change ("" +:+ "") with "". apply string_app_nil_r.
Qed.

(** X11. The text of a provider error lists its entries in order, each as
    its reason, followed by " (field '<field>')" when the field is not
    empty, and separated by ";" without a trailing separator: the text of
    two non-empty runs of entries put together is the text of the first,
    ";", and the text of the second. *)
Theorem LinodeError_Error_joins_entries :
  forall e e1 e2 : LinodeError,
    Errors e = Errors e1 ++ Errors e2 ->
    Errors e1 <> [] -> Errors e2 <> [] ->
    LinodeError_Error e = LinodeError_Error e1 +:+ ";" +:+ LinodeError_Error e2.
Proof.
  intros e e1 e2 He H1 H2. unfold LinodeError_Error. rewrite He.
  revert H1. generalize (Errors e1) as es1. clear He.
  induction es1 as [| x rest IH]; intros H1; [congruence |].
  destruct rest as [| x' rest].
  - change ([x] ++ Errors e2) with (x :: Errors e2).
    rewrite (LinodeError_entries_cons x (Errors e2) H2), LinodeError_entries_single.
    reflexivity.
  - change ((x :: x' :: rest) ++ Errors e2) with (x :: ((x' :: rest) ++ Errors e2)).
    rewrite (LinodeError_entries_cons x ((x' :: rest) ++ Errors e2)) by discriminate.
    rewrite (LinodeError_entries_cons x (x' :: rest)) by discriminate.
    rewrite IH by discriminate.
    rewrite !string_app_assoc. reflexivity.
Qed.

Lemma LinodeError_Error_joins_entries_witness :
  let region : LinodeError :=
    {| Errors := [ {| Field := "region"; Reason := "region is not valid" |} ];
       isAuthError := false; isPermissionsError := false |} in
  let missing : LinodeError :=
    {| Errors := [ {| Field := ""; Reason := "Not found" |} ];
       isAuthError := false; isPermissionsError := false |} in
  let both : LinodeError :=
    {| Errors := Errors region ++ Errors missing;
       isAuthError := false; isPermissionsError := false |} in
  LinodeError_Error both = LinodeError_Error region +:+ ";" +:+ LinodeError_Error missing
  /\ LinodeError_Error both = "region is not valid (field 'region');Not found".
Proof.
  intros region missing both. split.
  - apply (LinodeError_Error_joins_entries both region missing).
    + reflexivity.
    + subst region. cbn. discriminate.
    + subst missing. cbn. discriminate.
  - reflexivity.
Defined.

(** ** A listing without end *)

Lemma wrap64_range z : - 2 ^ 63 <= wrap64 z < 2 ^ 63.
Proof.
  unfold wrap64.
  pose proof (Z.mod_pos_bound (z + 2 ^ 63) (2 ^ 64) ltac:(lia)). lia.
Qed.

Lemma wrap64_le z : - 2 ^ 63 <= z -> wrap64 z <= z.
Proof.
  intros Hz. unfold wrap64.
  pose proof (Z.mod_le (z + 2 ^ 63) (2 ^ 64) ltac:(lia) ltac:(lia)). lia.
Qed.

Lemma ListLinodeInstances_loop_endless net endpoint :
  announces_more net ->
  forall fuel iter items t,
    - 2 ^ 63 <= it_page iter <= Z.of_nat (length (calls_of t)) + 1 ->
    exists t',
      ListLinodeInstances_loop net fuel endpoint iter items t = (OutOfFuel, t') /\
      length (calls_of t') = (length (calls_of t) + fuel)%nat.
Proof.
  intros Hnet. induction fuel as [| fuel IH]; intros iter items t Hpage.
  - exists t. split; [reflexivity | lia].
  - cbn [ListLinodeInstances_loop]. unfold next.
    set (e0 := if Z.gtb (it_page iter) 1 then _ else iter).
    assert (Hp0 : it_page e0 = it_page iter).
    { subst e0. destruct (Z.gtb (it_page iter) 1); reflexivity. }
    unfold linodeSimpleExec.
    cbn [known_method existsb String.eqb Ascii.eqb Bool.eqb orb].
    unfold bind at 1. unfold bind at 1. unfold bind at 1. unfold execRequest.
    set (c := {| c_method := "GET"; c_endpoint := it_endpoint e0;
                 c_request := it_request e0 |}).
    destruct (Hnet (calls_of t) c) as (response & page & Hreply & Hst & Hres & Hmore).
    rewrite Hreply.
    assert (Hle : Z.gtb (StatusCode response) 299 = false)
      by (destruct (Z.gtb_spec (StatusCode response) 299); [lia | reflexivity]).
    rewrite Hle. cbn [ret ar_err ar_response]. rewrite Hres.
    cbn [as_paginatedResult pageCount data linodeInfoPaginated_paginated
         ar_err ar_data it_page].
    rewrite Hp0.
    pose proof (wrap64_range (it_page iter + 1)) as Hrange.
    pose proof (wrap64_le (it_page iter + 1) ltac:(lia)) as Hwle.
    assert (Hlt : Z.ltb (wrap64 (it_page iter + 1)) (ip_Pages page) = true)
      by (apply Z.ltb_lt; lia).
    rewrite Hlt. cbn [negb].
    destruct (IH {| it_request := it_request e0; it_endpoint := it_endpoint e0;
                    it_page := wrap64 (it_page iter + 1) |}
                (items ++ ip_Data page) (t ++ [EvCall c])) as (t' & Hrun & Hcalls).
    { cbn [it_page]. rewrite calls_of_app, length_app. cbn. lia. }
    exists t'. split; [exact Hrun |].
    rewrite Hcalls, calls_of_app, length_app. cbn. lia.
Qed.

(** X12. The listing loop has no bound of its own: on a provider whose
    every answer announces more pages than were asked for so far,
    [ListLinodeInstances] never returns; with any amount of fuel it is
    still fetching after that many calls. *)
Theorem ListLinodeInstances_has_no_page_limit :
  forall net api t,
    nonempty (apiKey api) = true ->
    announces_more net ->
    forall fuel,
      exists t',
        ListLinodeInstances net fuel api t = (OutOfFuel, t') /\
        length (calls_of t') = (length (calls_of t) + fuel)%nat.
Proof.
  intros net api t Hkey Hnet fuel. unfold ListLinodeInstances.
  rewrite (authedR_key _ Hkey), bind_ret.
  apply (ListLinodeInstances_loop_endless net "/linode/instances" Hnet).
  cbn. lia.
Qed.

Lemma ListLinodeInstances_has_no_page_limit_witness :
  exists t',
    ListLinodeInstances endless 1000 (NewLinodeAPI "token") [] = (OutOfFuel, t') /\
    length (calls_of t') = (length (calls_of []) + 1000)%nat.
Proof.
  apply (ListLinodeInstances_has_no_page_limit endless (NewLinodeAPI "token") []).
  - reflexivity.
  - intros h c. eexists _, _. split; [reflexivity |].
    split; [cbn; lia |]. split; [reflexivity |]. cbn. lia.
Defined.

(** ** What a computation adds to the trace *)

Lemma yields_ret {A} (Q : Event -> Prop) (R : A -> Prop) a :
  R a -> yields Q R (ret a).
Proof.
  intros Ha t. exists []. rewrite app_nil_r. cbn.
  repeat split; [constructor |]. intros a' [= <-]. exact Ha.
Qed.

Lemma yields_panic {A} (Q : Event -> Prop) (R : A -> Prop) msg :
  yields Q R (panic msg).
Proof.
  intros t. exists []. rewrite app_nil_r. cbn.
  repeat split; [constructor | discriminate].
Qed.

Lemma yields_out_of_fuel {A} (Q : Event -> Prop) (R : A -> Prop) :
  yields Q R (@out_of_fuel A).
Proof.
  intros t. exists []. rewrite app_nil_r. cbn.
  repeat split; [constructor | discriminate].
Qed.

Lemma yields_emit (Q : Event -> Prop) (R : unit -> Prop) e :
  Q e -> R tt -> yields Q R (emit e).
Proof.
  intros He Hr t. exists [e]. cbn.
  repeat split; [constructor; [exact He | constructor] |].
  intros [] _. exact Hr.
Qed.

Lemma yields_bind {A B} (Q : Event -> Prop) (R : A -> Prop) (S : B -> Prop)
    (m : M A) (k : A -> M B) :
  yields Q R m -> (forall a, R a -> yields Q S (k a)) -> yields Q S (bind m k).
Proof.
  intros Hm Hk t. unfold bind.
  destruct (Hm t) as (ext & Ht & Hext & Hr).
  destruct (m t) as [[a | msg |] t1]; cbn in Ht, Hr; subst t1.
  - destruct (Hk a (Hr a eq_refl) (t ++ ext)) as (ext' & Ht' & Hext' & Hs).
    exists (ext ++ ext'). rewrite Ht', <- app_assoc.
    repeat split; [apply Forall_app; split; assumption | exact Hs].
  - exists ext. cbn. repeat split; [exact Hext | discriminate].
  - exists ext. cbn. repeat split; [exact Hext | discriminate].
Qed.

Lemma yields_weaken {A} (Q : Event -> Prop) (R R' : A -> Prop) (m : M A) :
  yields Q R m -> (forall a, R a -> R' a) -> yields Q R' m.
Proof.
  intros Hm Himp t. destruct (Hm t) as (ext & Ht & Hext & Hr).
  exists ext. repeat split; [exact Ht | exact Hext |].
  intros a Ha. apply Himp, Hr, Ha.
Qed.

Lemma emits_bind {A B} (Q : Event -> Prop) (m : M A) (k : A -> M B) :
  emits Q m -> (forall a, emits Q (k a)) -> emits Q (bind m k).
Proof.
  intros Hm Hk. apply (yields_bind Q (fun _ => True)); [exact Hm |].
  intros a _. apply Hk.
Qed.

Lemma emits_ret {A} (Q : Event -> Prop) (a : A) : emits Q (ret a).
Proof. apply yields_ret. exact I. Qed.

Lemma emits_log (C : Call -> Prop) level msg : emits (calls_satisfy C) (logAt level msg).
Proof. apply yields_emit; exact I. Qed.

Lemma emits_write C codec m : emits (calls_satisfy C) (write codec m).
Proof.
  unfold write. apply emits_bind; [apply yields_emit; exact I |].
  intros _. destruct (codec m); [| apply emits_ret].
  apply emits_bind; [apply emits_log | intros _; apply emits_ret].
Qed.

Lemma emits_WriteMessage C codec m : emits (calls_satisfy C) (WriteMessage codec m).
Proof.
  unfold WriteMessage.
  apply emits_bind; [apply yields_emit; exact I | intros _].
  apply emits_bind; [apply yields_emit; exact I | intros _].
  apply emits_write.
Qed.

Lemma emits_WriteError C codec m err : emits (calls_satisfy C) (WriteError codec m err).
Proof.
  unfold WriteError.
  apply emits_bind; [apply yields_emit; exact I | intros _].
  apply emits_bind; [apply yields_emit; exact I | intros _].
  apply emits_bind; [| intros _; apply emits_write].
  destruct err as [msg | cause msg | le | cause];
    try (apply yields_emit; exact I).
  destruct (IsAuthError le); [apply yields_emit; exact I |].
  destruct (IsPermissionsError le); apply yields_emit; exact I.
Qed.

Lemma emits_linodeSimpleExec (C : Call -> Prop) net method endpoint r :
  C {| c_method := method; c_endpoint := endpoint; c_request := r |} ->
  emits (calls_satisfy C) (linodeSimpleExec net method endpoint r).
Proof.
  intros Hc. unfold linodeSimpleExec.
  destruct (known_method method); [| apply yields_panic].
  apply emits_bind.
  - intros t. eexists [_]. cbn. repeat split.
    constructor; [exact Hc | constructor].
  - intros [cause | response]; [apply emits_ret |].
    destruct (Z.gtb (StatusCode response) 299); apply emits_ret.
Qed.

Section CallsOfTheEngine.

Variable net : Network.
Variable C : Call -> Prop.

Let Q := calls_satisfy C.

Lemma yields_authedR api :
  yields Q (fun r => r = clientR api) (authedR api).
Proof.
  unfold authedR. destruct (nonempty (apiKey api)).
  - apply yields_ret. reflexivity.
  - apply yields_panic.
Qed.

Lemma paged_from_page r0 r v :
  paged_from r0 r -> paged_from r0 (SetQueryParam "page" v r).
Proof.
  intros [-> | (v' & ->)]; right; exists v; [reflexivity |].
  apply SetQueryParam_again.
Qed.

Lemma yields_next r0 e :
  (forall r, paged_from r0 r ->
     C {| c_method := "GET"; c_endpoint := it_endpoint e; c_request := r |}) ->
  paged_from r0 (it_request e) ->
  yields Q (fun x => paged_from r0 (it_request (fst x)) /\
                     it_endpoint (fst x) = it_endpoint e)
    (next net e).
Proof.
  intros Hc Hr. unfold next.
  set (e0 := if Z.gtb (it_page e) 1 then _ else e).
  assert (He0 : paged_from r0 (it_request e0) /\ it_endpoint e0 = it_endpoint e).
  { subst e0. destruct (Z.gtb (it_page e) 1); cbn; [| tauto].
    split; [apply paged_from_page; exact Hr | reflexivity]. }
  destruct He0 as (Hr0 & Hend).
  apply (yields_bind Q (fun _ => True)).
  - apply emits_linodeSimpleExec. rewrite Hend. apply Hc, Hr0.
  - intros result _. destruct (ar_err result); [apply yields_ret; cbn; tauto |].
    destruct (ar_response result) as [response |]; [| apply yields_panic].
    destruct (as_paginatedResult (RespResult response)) as [[count items] |];
      apply yields_ret; cbn; tauto.
Qed.

Lemma emits_ListLinodeInstances_loop r0 endpoint fuel :
  (forall r, paged_from r0 r ->
     C {| c_method := "GET"; c_endpoint := endpoint; c_request := r |}) ->
  forall iter items,
    paged_from r0 (it_request iter) -> it_endpoint iter = endpoint ->
    emits Q (ListLinodeInstances_loop net fuel endpoint iter items).
Proof.
  intros Hc. induction fuel as [| fuel IH]; intros iter items Hr Hend.
  - apply yields_out_of_fuel.
  - cbn [ListLinodeInstances_loop].
    eapply yields_bind; [apply (yields_next r0); [rewrite Hend; exact Hc | exact Hr] |].
    intros [iter' [item hasNext]] (Hr' & Hend'). cbn in Hr', Hend'.
    destruct (ar_err item); [apply emits_ret |].
    destruct (ar_data item); try apply emits_ret.
    destruct (negb hasNext); [apply emits_ret |].
    apply IH; [exact Hr' | congruence].
Qed.

Lemma emits_ListStackScriptsPrivate_loop r0 endpoint fuel :
  (forall r, paged_from r0 r ->
     C {| c_method := "GET"; c_endpoint := endpoint; c_request := r |}) ->
  forall iter items,
    paged_from r0 (it_request iter) -> it_endpoint iter = endpoint ->
    emits Q (ListStackScriptsPrivate_loop net fuel endpoint iter items).
Proof.
  intros Hc. induction fuel as [| fuel IH]; intros iter items Hr Hend.
  - apply yields_out_of_fuel.
  - cbn [ListStackScriptsPrivate_loop].
    eapply yields_bind; [apply (yields_next r0); [rewrite Hend; exact Hc | exact Hr] |].
    intros [iter' [item hasNext]] (Hr' & Hend'). cbn in Hr', Hend'.
    destruct (ar_err item); [apply emits_ret |].
    destruct (ar_data item); try apply emits_ret.
    destruct (negb hasNext); [apply emits_ret |].
    apply IH; [exact Hr' | congruence].
Qed.

Variable api : LinodeAPI.

(** The calls the engine may issue for [api]. *)
Hypothesis C_instances :
  forall r, paged_from (clientR api) r ->
    C {| c_method := "GET"; c_endpoint := "/linode/instances"; c_request := r |}.

Lemma emits_ListLinodeInstances fuel : emits Q (ListLinodeInstances net fuel api).
Proof.
  unfold ListLinodeInstances.
  eapply yields_bind; [apply yields_authedR |]. intros r ->.
  apply (emits_ListLinodeInstances_loop (clientR api)); [exact C_instances | | reflexivity].
  left. reflexivity.
Qed.

Lemma emits_logActiveTunnels ptrs :
  forall store i, emits Q (logActiveTunnels ptrs store i).
Proof.
  induction ptrs as [| p ptrs IH]; intros store i; cbn [logActiveTunnels].
  - apply emits_ret.
  - apply emits_bind; [| intros _; apply IH].
    destruct (store !! p); [apply emits_log | apply yields_panic].
Qed.

Lemma emits_retrieveTunnelInstance go fuel name :
  emits Q (retrieveTunnelInstance net go fuel api name).
Proof.
  unfold retrieveTunnelInstance.
  apply emits_bind; [apply emits_ListLinodeInstances |].
  intros [instances [err |]].
  - apply emits_bind; [apply emits_log | intros _; apply emits_ret].
  - destruct (collectTunnelInstances go name instances 0 ∅ []) as [store [| first others]];
      [apply emits_ret |].
    apply emits_bind; [| intros _; apply emits_ret].
    destruct others; [apply emits_ret |].
    apply emits_bind; [apply emits_log | intros _; apply emits_logActiveTunnels].
Qed.

Lemma emits_ensureTunnelExists go fuel name :
  emits Q (ensureTunnelExists net go fuel api name).
Proof.
  unfold ensureTunnelExists.
  apply emits_bind; [apply emits_retrieveTunnelInstance |].
  intros [tunnelInstance [err |]]; [apply emits_ret |].
  destruct tunnelInstance; [apply emits_ret |].
  apply emits_bind; [apply emits_log | intros _; apply emits_ret].
Qed.

Lemma emits_ensureTunnelDoesNotExist go fuel name :
  emits Q (ensureTunnelDoesNotExist net go fuel api name).
Proof.
  unfold ensureTunnelDoesNotExist.
  apply emits_bind; [apply emits_retrieveTunnelInstance |].
  intros [tunnelInstance [err |]]; [apply emits_ret |].
  destruct tunnelInstance; [| apply emits_ret].
  apply emits_bind; [apply emits_log | intros _; apply emits_ret].
Qed.

Hypothesis C_scripts :
  forall r, paged_from (SetHeader "X-Filter" mine_filter (clientR api)) r ->
    C {| c_method := "GET"; c_endpoint := "/linode/stackscripts"; c_request := r |}.

Lemma emits_ListStackScriptsPrivate fuel : emits Q (ListStackScriptsPrivate net fuel api).
Proof.
  unfold ListStackScriptsPrivate.
  eapply yields_bind; [apply yields_authedR |]. intros r ->.
  apply (emits_ListStackScriptsPrivate_loop (SetHeader "X-Filter" mine_filter (clientR api)));
    [exact C_scripts | | reflexivity].
  left. reflexivity.
Qed.

Lemma yields_makeStackScriptParams go fuel scriptName username password wg obfs4 obfs6 :
  yields Q
    (fun x => snd x = None ->
              snd (fst x) = stackScriptData username password wg obfs4 obfs6)
    (makeStackScriptParams net go fuel api scriptName username password
       wg obfs4 obfs6).
Proof.
  unfold makeStackScriptParams.
  apply (yields_bind Q (fun _ => True)); [apply emits_ListStackScriptsPrivate |].
  intros [scripts [err |]] _.
  - apply (yields_bind Q (fun _ => True)); [apply emits_log |].
    intros _ _. apply yields_ret. discriminate.
  - destruct (findScript go scriptName scripts 0 ∅ None) as [store [s |]].
    + apply yields_ret. reflexivity.
    + apply (yields_bind Q (fun _ => True)); [apply emits_log |].
      intros _ _. apply yields_ret. discriminate.
Qed.

Hypothesis C_poll :
  forall id, C {| c_method := "GET"; c_endpoint := instanceEndpoint id;
                  c_request := clientR api |}.

Lemma emits_QueryLinode id : emits Q (QueryLinode net api id).
Proof.
  unfold QueryLinode.
  eapply yields_bind; [apply yields_authedR |]. intros r ->.
  apply emits_bind; [apply emits_linodeSimpleExec, C_poll |].
  intros result. destruct (ar_err result); [apply emits_ret |].
  destruct (ar_data result); apply emits_ret.
Qed.

Lemma emits_awaitUntilRunning_loop id maxAttempts delay fuel :
  forall attempt,
    emits Q (awaitUntilRunning_loop net fuel api id attempt maxAttempts delay).
Proof.
  induction fuel as [| fuel IH]; intros attempt; cbn [awaitUntilRunning_loop].
  - apply yields_out_of_fuel.
  - apply emits_bind; [apply emits_QueryLinode |].
    intros [instance [err |]].
    + apply emits_bind; [apply emits_log | intros _; apply emits_ret].
    + destruct instance as [instance |]; [| apply yields_panic].
      destruct (String.eqb (li_Status instance) LinodeStatusRunning); [apply emits_ret |].
      destruct (Z.geb (wrap64 (attempt + 1)) maxAttempts).
      * apply emits_bind; [apply emits_log | intros _; apply emits_ret].
      * apply emits_bind; [apply yields_emit; exact I | intros _; apply IH].
Qed.

Lemma emits_awaitUntilRunning fuel id : emits Q (awaitUntilRunning net fuel api id).
Proof.
  unfold awaitUntilRunning.
  apply emits_bind; [apply yields_emit; exact I | intros _].
  apply emits_awaitUntilRunning_loop.
Qed.

End CallsOfTheEngine.

Lemma emits_Create C net e :
  C {| c_method := "POST"; c_endpoint := "/linode/instances";
       c_request := SetBody (BuilderBody e) (clientR (b_api e)) |} ->
  emits (calls_satisfy C) (Create net e).
Proof.
  intros Hc. unfold Create.
  eapply yields_bind; [apply yields_authedR |]. intros r ->.
  apply emits_bind; [apply emits_linodeSimpleExec, Hc |].
  intros result. destruct (ar_err result); [apply emits_ret |].
  destruct (ar_response result) as [response |]; [| apply yields_panic].
  destruct (RespResult response); apply emits_ret.
Qed.

Lemma emits_Rebuild C net r :
  C {| c_method := "POST";
       c_endpoint := "/linode/instances/" +:+ Itoa (r_id r) +:+ "/rebuild";
       c_request := SetBody (RebuilderBody r) (clientR (r_api r)) |} ->
  emits (calls_satisfy C) (Rebuild net r).
Proof.
  intros Hc. unfold Rebuild.
  eapply yields_bind; [apply yields_authedR |]. intros c ->.
  apply emits_bind; [apply emits_linodeSimpleExec, Hc |].
  intros result. destruct (ar_err result); [apply emits_ret |].
  destruct (ar_response result) as [response |]; [| apply yields_panic].
  destruct (RespResult response); apply emits_ret.
Qed.

Lemma emits_DeleteInstance C net api id :
  C {| c_method := "DELETE"; c_endpoint := instanceEndpoint id;
       c_request := clientR api |} ->
  emits (calls_satisfy C) (DeleteInstance net api id).
Proof.
  intros Hc. unfold DeleteInstance.
  eapply yields_bind; [apply yields_authedR |]. intros c ->.
  apply emits_bind; [apply emits_linodeSimpleExec, Hc |].
  intros result. destruct (ar_err result); apply emits_ret.
Qed.

Lemma bearer_clientR api : bearer (apiKey api) (clientR api).
Proof. split; [reflexivity | apply lookup_singleton_eq]. Qed.

Lemma bearer_paged token r0 r : bearer token r0 -> paged_from r0 r -> bearer token r.
Proof. intros H [-> | (v & ->)]; exact H. Qed.

Lemma bearer_filter token r : bearer token r -> bearer token (SetHeader "X-Filter" mine_filter r).
Proof.
  intros (Ht & Hua). split; [exact Ht |]. cbn.
  rewrite lookup_insert_ne by discriminate. exact Hua.
Qed.

Lemma filter_paged r0 r :
  paged_from (SetHeader "X-Filter" mine_filter r0) r ->
  rq_headers r !! "X-Filter" = Some mine_filter.
Proof. intros [-> | (v & ->)]; cbn; apply lookup_insert_eq. Qed.

Section CallsOfTheFacade.

Variable net : Network.
Variable codec : ProtoResponse -> option error.
Variable status_value : string -> Z.
Variable go : LoopVar.
Variable fuel : nat.
Variable p : protobufLinode.
Variable C : Call -> Prop.
Variable api : LinodeAPI.

Let Q := calls_satisfy C.

Hypothesis C_instances :
  forall r, paged_from (clientR api) r ->
    C {| c_method := "GET"; c_endpoint := "/linode/instances"; c_request := r |}.

Lemma emits_TunnelStatus args :
  NewLinodeAPI (extractAuth (ts_Auth args)) = api ->
  emits Q (TunnelStatus net codec status_value go fuel p args).
Proof.
  intros Hapi. unfold TunnelStatus. rewrite Hapi.
  apply emits_bind; [apply emits_ensureTunnelExists; exact C_instances |].
  intros [tunnel [err |]]; [apply emits_WriteError |].
  destruct tunnel; [apply emits_WriteMessage | apply yields_panic].
Qed.

Lemma emits_ListInstances args :
  NewLinodeAPI (extractAuth (lr_Auth args)) = api ->
  emits Q (ListInstances net codec status_value fuel p args).
Proof.
  intros Hapi. unfold ListInstances. rewrite Hapi.
  apply emits_bind; [apply emits_ListLinodeInstances; exact C_instances |].
  intros [instances [err |]]; [| apply emits_WriteMessage].
  apply emits_bind; [apply emits_log | intros _; apply emits_WriteError].
Qed.

Hypothesis C_delete :
  forall id, C {| c_method := "DELETE"; c_endpoint := instanceEndpoint id;
                  c_request := clientR api |}.

Lemma emits_DestroyTunnel args :
  NewLinodeAPI (extractAuth (dt_Auth args)) = api ->
  emits Q (DestroyTunnel net codec go fuel p args).
Proof.
  intros Hapi. unfold DestroyTunnel. rewrite Hapi.
  apply emits_bind; [apply emits_ensureTunnelExists; exact C_instances |].
  intros [tunnel [err |]]; [apply emits_WriteError |].
  destruct tunnel as [tunnel |]; [| apply yields_panic].
  apply emits_bind; [apply emits_DeleteInstance, C_delete |].
  intros [err |].
  - apply emits_bind; [apply emits_log | intros _; apply emits_WriteError].
  - apply emits_bind; [apply emits_log | intros _; apply emits_WriteMessage].
Qed.

Hypothesis C_scripts :
  forall r, paged_from (SetHeader "X-Filter" mine_filter (clientR api)) r ->
    C {| c_method := "GET"; c_endpoint := "/linode/stackscripts"; c_request := r |}.

Hypothesis C_poll :
  forall id, C {| c_method := "GET"; c_endpoint := instanceEndpoint id;
                  c_request := clientR api |}.

Lemma emits_CreateTunnel args :
  NewLinodeAPI (extractAuth (ct_Auth args)) = api ->
  (forall script,
     C {| c_method := "POST"; c_endpoint := "/linode/instances";
          c_request :=
            SetBody
              (BuilderBody
                 (configuredBuilder p api args script
                    (stackScriptData (ct_RegularAccountName args)
                       (ct_RegularAccountPassword args) (ct_WireguardOptions args)
                       (ct_Obfsproxy4Options args) (ct_Obfsproxy6Options args))))
              (clientR api) |}) ->
  emits Q (CreateTunnel net codec status_value go fuel p args).
Proof.
  intros Hapi C_create. unfold CreateTunnel. rewrite Hapi.
  apply emits_bind; [apply emits_ensureTunnelDoesNotExist; exact C_instances |].
  intros guard. apply emits_bind.
  { destruct guard; [| apply emits_ret].
    apply emits_bind; [apply emits_WriteError | intros _; apply emits_ret]. }
  intros _.
  destruct (Nat.eqb (String.length (ct_Plan args)) 0); [apply emits_WriteError |].
  destruct (Nat.eqb (String.length (ct_Region args)) 0); [apply emits_WriteError |].
  eapply yields_bind;
    [apply yields_makeStackScriptParams; exact C_scripts |].
  intros [[script params] [err |]] Hparams; [apply emits_WriteError |].
  cbn in Hparams. rewrite (Hparams eq_refl).
  destruct script as [script |]; [| apply yields_panic].
  apply emits_bind; [apply emits_Create, (C_create script) |].
  intros [instance [err |]].
  { apply emits_bind; [apply emits_log | intros _; apply emits_WriteError]. }
  destruct instance as [instance |]; [| apply yields_panic].
  apply emits_bind; [apply emits_log | intros _].
  apply emits_bind; [apply emits_awaitUntilRunning; exact C_poll |].
  intros [latest [awaitErr |]]; [apply emits_WriteMessage |].
  destruct latest; [| apply yields_panic].
  apply emits_bind; [apply emits_log | intros _; apply emits_WriteMessage].
Qed.

Lemma emits_RebuildTunnel args :
  NewLinodeAPI (extractAuth (rt_Auth args)) = api ->
  (forall tunnel script,
     let r := configuredRebuilder p api tunnel args script
                (stackScriptData (rt_RegularAccountName args)
                   (rt_RegularAccountPassword args) (rt_WireguardOptions args)
                   (rt_Obfsproxy4Options args) (rt_Obfsproxy6Options args)) in
     C {| c_method := "POST";
          c_endpoint := "/linode/instances/" +:+ Itoa (r_id r) +:+ "/rebuild";
          c_request := SetBody (RebuilderBody r) (clientR api) |}) ->
  emits Q (RebuildTunnel net codec status_value go fuel p args).
Proof.
  intros Hapi C_rebuild. unfold RebuildTunnel. rewrite Hapi.
  apply emits_bind; [apply emits_ensureTunnelExists; exact C_instances |].
  intros [tunnel [err |]]; [apply emits_WriteError |].
  destruct tunnel as [tunnel |]; [| apply yields_panic].
  eapply yields_bind;
    [apply yields_makeStackScriptParams; exact C_scripts |].
  intros [[script params] [err |]] Hparams; [apply emits_WriteError |].
  cbn in Hparams. rewrite (Hparams eq_refl).
  destruct script as [script |]; [| apply yields_panic].
  apply emits_bind; [apply emits_Rebuild, (C_rebuild tunnel script) |].
  intros [instance [err |]].
  { apply emits_bind; [apply emits_log | intros _; apply emits_WriteError]. }
  destruct instance as [instance |]; [| apply yields_panic].
  apply emits_bind; [apply emits_log | intros _].
  apply emits_bind; [apply emits_awaitUntilRunning; exact C_poll |].
  intros [latest [awaitErr |]]; [apply emits_WriteMessage |].
  destruct latest; [| apply yields_panic].
  apply emits_bind; [apply emits_log | intros _; apply emits_WriteMessage].
Qed.

Lemma emits_ListStackScripts args :
  NewLinodeAPI (extractAuth (ls_Auth args)) = api ->
  emits Q (ListStackScripts net codec fuel p args).
Proof.
  intros Hapi. unfold ListStackScripts. rewrite Hapi.
  apply emits_bind; [apply emits_ListStackScriptsPrivate; exact C_scripts |].
  intros [scripts [err |]]; [| apply emits_WriteMessage].
  apply emits_bind; [apply emits_log | intros _; apply emits_WriteError].
Qed.

End CallsOfTheFacade.

Lemma only_calls_of_emits {A} token kinds (m : M A) :
  emits (calls_satisfy (fun c => bearer token (c_request c) /\ kinds c)) m ->
  only_calls token kinds m.
Proof.
  intros Hm t. destruct (Hm t) as (ext & Ht & Hext & _).
  exists ext. split; assumption.
Qed.

(** X13. Every call an authenticated operation issues carries the access
    token of the request as bearer credential and the user agent of the
    client, and is of a kind the operation is about: status and
    list-instances only GET pages of the instance listing; list-scripts only
    GETs pages of the script listing, filtered to the account's own scripts;
    destroy adds DELETEs of an instance; create adds, besides the script
    listing and status polls, only the POST that creates an instance with
    the label and image of the facade, booted and without backups, in the
    region and of the plan requested and with the provisioning parameters
    built from the request; rebuild adds only the POST to the rebuild
    endpoint of an instance, with the same image, credentials and
    parameters. *)
Theorem operations_issue_only_their_calls :
  forall net codec status_value go fuel p,
    (forall args,
       only_calls (extractAuth (ct_Auth args))
         (fun c => listing_call "/linode/instances" c \/ scripts_listing c \/
                   instance_create p args c \/ status_poll c)
         (CreateTunnel net codec status_value go fuel p args)) /\
    (forall args,
       only_calls (extractAuth (rt_Auth args))
         (fun c => listing_call "/linode/instances" c \/ scripts_listing c \/
                   instance_rebuild p args c \/ status_poll c)
         (RebuildTunnel net codec status_value go fuel p args)) /\
    (forall args,
       only_calls (extractAuth (dt_Auth args))
         (fun c => listing_call "/linode/instances" c \/ instance_delete c)
         (DestroyTunnel net codec go fuel p args)) /\
    (forall args,
       only_calls (extractAuth (ts_Auth args)) (listing_call "/linode/instances")
         (TunnelStatus net codec status_value go fuel p args)) /\
    (forall args,
       only_calls (extractAuth (lr_Auth args)) (listing_call "/linode/instances")
         (ListInstances net codec status_value fuel p args)) /\
    (forall args,
       only_calls (extractAuth (ls_Auth args)) scripts_listing
         (ListStackScripts net codec fuel p args)).
Proof.
  intros net codec sv go fuel p.
  assert (Hlisting : forall token r,
            paged_from (clientR (NewLinodeAPI token)) r ->
            bearer token r /\
            listing_call "/linode/instances"
              {| c_method := "GET"; c_endpoint := "/linode/instances"; c_request := r |}).
  { intros token r Hr. split; [| split; reflexivity].
    apply (bearer_paged token _ _ (bearer_clientR (NewLinodeAPI token)) Hr). }
  assert (Hscripts : forall token r,
            paged_from (SetHeader "X-Filter" mine_filter (clientR (NewLinodeAPI token))) r ->
            bearer token r /\
            scripts_listing
              {| c_method := "GET"; c_endpoint := "/linode/stackscripts"; c_request := r |}).
  { intros token r Hr. split.
    - apply (bearer_paged token _ _
               (bearer_filter token _ (bearer_clientR (NewLinodeAPI token))) Hr).
    - split; [reflexivity |]. split; [reflexivity |]. apply (filter_paged _ _ Hr). }
  assert (Hpoll : forall token id,
            bearer token (clientR (NewLinodeAPI token)) /\
            status_poll {| c_method := "GET"; c_endpoint := instanceEndpoint id;
                           c_request := clientR (NewLinodeAPI token) |}).
  { intros token id. split; [apply (bearer_clientR (NewLinodeAPI token)) |].
    split; [reflexivity | exists id; reflexivity]. }
  split; [| split; [| split; [| split; [| split]]]]; intros args;
    apply only_calls_of_emits.
  - apply (emits_CreateTunnel net codec sv go fuel p _
             (NewLinodeAPI (extractAuth (ct_Auth args)))); try reflexivity.
    + intros r Hr. destruct (Hlisting _ r Hr). cbn. tauto.
    + intros r Hr. destruct (Hscripts _ r Hr). cbn. tauto.
    + intros id. destruct (Hpoll (extractAuth (ct_Auth args)) id). cbn. tauto.
    + intros script. cbn [c_request]. split.
      * apply (bearer_clientR (NewLinodeAPI (extractAuth (ct_Auth args)))).
      * right. right. left. split; [reflexivity |]. split; [reflexivity |].
        eexists. split; [reflexivity |]. cbn. repeat split.
  - apply (emits_RebuildTunnel net codec sv go fuel p _
             (NewLinodeAPI (extractAuth (rt_Auth args)))); try reflexivity.
    + intros r Hr. destruct (Hlisting _ r Hr). cbn. tauto.
    + intros r Hr. destruct (Hscripts _ r Hr). cbn. tauto.
    + intros id. destruct (Hpoll (extractAuth (rt_Auth args)) id). cbn. tauto.
    + intros tunnel script r. cbn [c_request]. split.
      * apply (bearer_clientR (NewLinodeAPI (extractAuth (rt_Auth args)))).
      * right. right. left. split; [reflexivity |].
        exists r. split; [reflexivity |]. split; [reflexivity |]. cbn. repeat split.
  - apply (emits_DestroyTunnel net codec go fuel p _
             (NewLinodeAPI (extractAuth (dt_Auth args)))); try reflexivity.
    + intros r Hr. destruct (Hlisting _ r Hr). cbn. tauto.
    + intros id. cbn [c_request]. split.
      * apply (bearer_clientR (NewLinodeAPI (extractAuth (dt_Auth args)))).
      * right. split; [reflexivity | exists id; reflexivity].
  - apply (emits_TunnelStatus net codec sv go fuel p _
             (NewLinodeAPI (extractAuth (ts_Auth args)))); try reflexivity.
    intros r Hr. exact (Hlisting _ r Hr).
  - apply (emits_ListInstances net codec sv fuel p _
             (NewLinodeAPI (extractAuth (lr_Auth args)))); try reflexivity.
    intros r Hr. exact (Hlisting _ r Hr).
  - apply (emits_ListStackScripts net codec fuel p _
             (NewLinodeAPI (extractAuth (ls_Auth args)))); try reflexivity.
    intros r Hr. exact (Hscripts _ r Hr).
Qed.

(** ** Finalizing a builder *)



(** ** The keys of the provisioning parameters *)

(** X15. The provisioning parameter map has exactly these keys: the two
    account keys and the three enable flags, always, and the keys of a
    feature (three for wireguard, two for each obfsproxy variant) exactly
    when the options of that feature are present; it has no other key. *)
Theorem stackScriptData_keys :
  forall username password wg obfs4 obfs6,
    dom (stackScriptData username password wg obfs4 obfs6)
    = account_keys ∪ when wg wireguard_keys ∪ when obfs4 obfs4_keys
        ∪ when obfs6 obfs6_keys.
Proof.
  intros username password wg obfs4 obfs6.
  destruct wg, obfs4, obfs6; vm_compute; reflexivity.
Qed.

(** ** Conversion to the wire format *)


(** ** Single mutating calls *)

(** X17. [DeleteInstance] and [BootInstance] issue exactly one call, the
    DELETE of the instance resp. the POST to its boot endpoint, with no
    body. They return nil iff the provider answered with a status of at
    most 299; every error is returned wrapped, as "Unable to delete
    instance: ..." resp. "Unable to boot instance: ...", so a structured
    provider error is no longer one when it leaves them. *)
Theorem DeleteInstance_and_BootInstance_wrap_errors :
  forall net api id t,
    nonempty (apiKey api) = true ->
    let del := {| c_method := "DELETE"; c_endpoint := instanceEndpoint id;
                  c_request := clientR api |} in
    let boot := {| c_method := "POST";
                   c_endpoint := "/linode/instances/" +:+ Itoa id +:+ "/boot";
                   c_request := clientR api |} in
    (exists res,
       DeleteInstance net api id t = (Ret res, t ++ [EvCall del]) /\
       (res = None <-> ~ failing_reply (net (calls_of t) del)) /\
       (forall err, res = Some err ->
          exists cause,
            err = ErrWrap cause "Unable to delete instance" /\
            Error err = "Unable to delete instance: " +:+ Error cause /\
            error_status err = 418)) /\
    (exists res,
       BootInstance net api id t = (Ret res, t ++ [EvCall boot]) /\
       (res = None <-> ~ failing_reply (net (calls_of t) boot)) /\
       (forall err, res = Some err ->
          exists cause,
            err = ErrWrap cause "Unable to boot instance" /\
            Error err = "Unable to boot instance: " +:+ Error cause /\
            error_status err = 418)).
Proof.
  intros net api id t Hkey del boot. split.
  - unfold DeleteInstance. rewrite (authedR_key _ Hkey), bind_ret.
    unfold linodeDELETE, linodeSimpleExec.
    cbn [known_method existsb String.eqb Ascii.eqb Bool.eqb orb].
    unfold bind at 1. unfold bind at 1. unfold execRequest. fold del.
    destruct (net (calls_of t) del) as [cause | response].
    + eexists. split; [reflexivity |]. cbn. split.
      * split; [discriminate | tauto].
      * intros err [= <-]. eexists. repeat split.
    + destruct (Z.gtb_spec (StatusCode response) 299) as [Hgt | Hle].
      * eexists. split; [reflexivity |]. cbn. split.
        -- split; [discriminate | intros H; lia].
        -- intros err [= <-]. eexists. repeat split.
      * eexists. split; [reflexivity |]. cbn. split.
        -- split; [intros _ H; lia | reflexivity].
        -- intros err H. discriminate.
  - unfold BootInstance. rewrite (authedR_key _ Hkey), bind_ret.
    unfold linodePOST, linodeSimpleExec.
    cbn [known_method existsb String.eqb Ascii.eqb Bool.eqb orb].
    unfold bind at 1. unfold bind at 1. unfold execRequest. fold boot.
    destruct (net (calls_of t) boot) as [cause | response].
    + eexists. split; [reflexivity |]. cbn. split.
      * split; [discriminate | tauto].
      * intros err [= <-]. eexists. repeat split.
    + destruct (Z.gtb_spec (StatusCode response) 299) as [Hgt | Hle].
      * eexists. split; [reflexivity |]. cbn. split.
        -- split; [discriminate | intros H; lia].
        -- intros err [= <-]. eexists. repeat split.
      * eexists. split; [reflexivity |]. cbn. split.
        -- split; [intros _ H; lia | reflexivity].
        -- intros err H. discriminate.
Qed.

Lemma DeleteInstance_and_BootInstance_wrap_errors_witness :
  let denied : LinodeError :=
    {| Errors := [ {| Field := ""; Reason := "Unauthorized" |} ];
       isAuthError := false; isPermissionsError := false |} in
  let net : Network := fun _ _ =>
    NetResp {| StatusCode := 403; RespError := Some (EoLinode denied);
               RespResult := DynNil |} in
  exists res,
    fst (DeleteInstance net (NewLinodeAPI "token") 7 []) = Ret res /\
    (forall err, res = Some err ->
       exists cause,
         err = ErrWrap cause "Unable to delete instance" /\
         Error err = "Unable to delete instance: " +:+ Error cause /\
         error_status err = 418).
Proof.
  intros denied net.
  destruct (proj1 (DeleteInstance_and_BootInstance_wrap_errors net (NewLinodeAPI "token")
                     7 [] eq_refl)) as (res & Hrun & _ & Herr).
  exists res. split; [rewrite Hrun; reflexivity | exact Herr].
Defined.

(** ** The polled instance in the response *)

Lemma awaitUntilRunning_loop_value net api id maxAttempts delay fuel :
  forall attempt t latest t',
    awaitUntilRunning_loop net fuel api id attempt maxAttempts delay t
      = (Ret (Some latest, None), t') ->
    li_Status latest = LinodeStatusRunning.
Proof.
  induction fuel as [| fuel IH]; intros attempt t latest t'; cbn [awaitUntilRunning_loop].
  - discriminate.
  - unfold bind at 1.
    destruct (QueryLinode net api id t) as [[[instance [err |]] | msg |] t1];
      try discriminate.
    destruct instance as [instance |]; [| discriminate].
    destruct (String.eqb (li_Status instance) LinodeStatusRunning) eqn:Hst.
    + intros [= <- _]. apply String.eqb_eq. exact Hst.
    + destruct (Z.geb (wrap64 (attempt + 1)) maxAttempts).
      * discriminate.
      * unfold bind at 1. unfold Sleep, emit. apply IH.
Qed.

(** X18. When the guard passes, the parameters are built, the instance is
    created resp. rebuilt and the poller returns a snapshot without error,
    that snapshot is a running instance and the operation writes exactly one
    more response: the success response that carries the polled snapshot,
    not the instance as [Create] or [Rebuild] returned it. *)
Theorem facade_reports_the_polled_instance :
  (forall net codec status_value go fuel p args t t1 t2 t3 t4
          script params instance latest,
     let api := NewLinodeAPI (extractAuth (ct_Auth args)) in
     ensureTunnelDoesNotExist net go fuel api (instanceLabel p) t = (Ret None, t1) ->
     ct_Plan args <> "" -> ct_Region args <> "" ->
     makeStackScriptParams net go fuel api (instanceScript p)
       (ct_RegularAccountName args) (ct_RegularAccountPassword args)
       (ct_WireguardOptions args) (ct_Obfsproxy4Options args)
       (ct_Obfsproxy6Options args) t1
       = (Ret (Some script, params, None), t2) ->
     Create net (configuredBuilder p api args script params) t2
       = (Ret (Some instance, None), t3) ->
     awaitUntilRunning net fuel api (li_ID instance)
       (t3 ++ [EvLog "debug" "Initiated instance creation. Waiting until it's running..."])
       = (Ret (Some latest, None), t4) ->
     li_Status latest = LinodeStatusRunning /\
     exists o t5,
       CreateTunnel net codec status_value go fuel p args t = (Ret o, t5) /\
       writes_of t5 = writes_of t4
         ++ [CreateTunnelOK (linodeInstanceToProtobuf status_value latest)] /\
       headers_of t5 = headers_of t4 /\
       calls_of t5 = calls_of t4 /\
       sleeps_of t5 = sleeps_of t4) /\
  (forall net codec status_value go fuel p args t t1 t2 t3 t4
          tunnel script params instance latest,
     let api := NewLinodeAPI (extractAuth (rt_Auth args)) in
     ensureTunnelExists net go fuel api (instanceLabel p) t
       = (Ret (Some tunnel, None), t1) ->
     makeStackScriptParams net go fuel api (instanceScript p)
       (rt_RegularAccountName args) (rt_RegularAccountPassword args)
       (rt_WireguardOptions args) (rt_Obfsproxy4Options args)
       (rt_Obfsproxy6Options args) t1
       = (Ret (Some script, params, None), t2) ->
     Rebuild net (configuredRebuilder p api tunnel args script params) t2
       = (Ret (Some instance, None), t3) ->
     awaitUntilRunning net fuel api (li_ID instance)
       (t3 ++ [EvLog "debug" "Initiated instance rebuild. Waiting until it's running..."])
       = (Ret (Some latest, None), t4) ->
     li_Status latest = LinodeStatusRunning /\
     exists o t5,
       RebuildTunnel net codec status_value go fuel p args t = (Ret o, t5) /\
       writes_of t5 = writes_of t4
         ++ [RebuildTunnelOK (linodeInstanceToProtobuf status_value latest)] /\
       headers_of t5 = headers_of t4 /\
       calls_of t5 = calls_of t4 /\
       sleeps_of t5 = sleeps_of t4).
Proof.
  split.
  - intros net codec sv go fuel p args t t1 t2 t3 t4 script params instance latest
      api Hguard Hplan Hregion Hparams Hcreate Hawait.
    split.
    { unfold awaitUntilRunning in Hawait. unfold bind at 1 in Hawait.
      unfold Sleep, emit in Hawait.
      exact (awaitUntilRunning_loop_value _ _ _ _ _ _ _ _ _ _ Hawait). }
    destruct (WriteMessage_run codec
                (createCreateTunnelOK (linodeInstanceToProtobuf sv latest))
                (t4 ++ [EvLog "debug" "Instance was successfully created"]))
      as (t5 & Hrun & Hc & Hs & Hh & Hw).
    eexists _, t5. split.
    + unfold CreateTunnel. fold api.
      unfold bind at 1. rewrite Hguard. rewrite bind_ret.
      rewrite (nonempty_length _ Hplan), (nonempty_length _ Hregion).
      unfold bind at 1. rewrite Hparams.
      unfold bind at 1. unfold configuredBuilder in Hcreate. rewrite Hcreate.
      unfold bind at 1. unfold logInstance, logAt, emit.
      unfold bind at 1. rewrite Hawait.
      unfold bind at 1. exact Hrun.
    + rewrite Hc, Hs, Hh, Hw.
      rewrite calls_of_app, sleeps_of_app, headers_of_app, writes_of_app.
      cbn. rewrite !app_nil_r. repeat split; reflexivity.
  - intros net codec sv go fuel p args t t1 t2 t3 t4 tunnel script params instance
      latest api Hguard Hparams Hrebuild Hawait.
    split.
    { unfold awaitUntilRunning in Hawait. unfold bind at 1 in Hawait.
      unfold Sleep, emit in Hawait.
      exact (awaitUntilRunning_loop_value _ _ _ _ _ _ _ _ _ _ Hawait). }
    destruct (WriteMessage_run codec
                (createRebuildTunnelOK (linodeInstanceToProtobuf sv latest))
                (t4 ++ [EvLog "debug" "Successfully rebuilt instance"]))
      as (t5 & Hrun & Hc & Hs & Hh & Hw).
    eexists _, t5. split.
    + unfold RebuildTunnel. fold api.
      unfold bind at 1. rewrite Hguard.
      unfold bind at 1. rewrite Hparams.
      unfold bind at 1. unfold configuredRebuilder in Hrebuild. rewrite Hrebuild.
      unfold bind at 1. unfold logInstance, logAt, emit.
      unfold bind at 1. rewrite Hawait.
      unfold bind at 1. exact Hrun.
    + rewrite Hc, Hs, Hh, Hw.
      rewrite calls_of_app, sleeps_of_app, headers_of_app, writes_of_app.
      cbn. rewrite !app_nil_r. repeat split; reflexivity.
Qed.

Lemma facade_reports_the_polled_instance_witness :
  let running := Scenario.instance 9 "hp_instance" "running" in
  let net :=
    Scenario.account [] [Scenario.freedom_node] Scenario.fresh
      [Scenario.ok (DynLinodeInfo Scenario.fresh);
       Scenario.ok (DynLinodeInfo Scenario.fresh);
       Scenario.ok (DynLinodeInfo running)] in
  let args := Scenario.create_request "g5-nanode-1" "eu-central" None None in
  li_Status running = LinodeStatusRunning /\
  exists t4 o t5,
    CreateTunnel net Scenario.codec_ok Scenario.status_value PerLoop 20
      newProtobufLinode args [] = (Ret o, t5) /\
    writes_of t5 = writes_of t4
      ++ [CreateTunnelOK (linodeInstanceToProtobuf Scenario.status_value running)] /\
    headers_of t5 = headers_of t4 /\
    calls_of t5 = calls_of t4 /\
    sleeps_of t5 = sleeps_of t4.
Proof.
  intros running net args.
  edestruct (proj1 facade_reports_the_polled_instance net Scenario.codec_ok
               Scenario.status_value PerLoop 20%nat newProtobufLinode args [])
    as (Hst & o & t5 & H).
  - vm_compute. reflexivity.
  - discriminate.
  - discriminate.
  - vm_compute. reflexivity.
  - vm_compute. reflexivity.
  - vm_compute. reflexivity.
  - split; [exact Hst |]. eexists _, o, t5. exact H.
Defined.
